(** * dns-records: discovery of the DNS records of a domain

    Shallow embedding of the TypeScript module of [@layered/dns-records]
    (the [DnsRecord] type, the text line format written to the stream, the
    streaming discovery [getAllDnsRecordsStream], its batched reader
    [getAllDnsRecords], [parseDnsRecord] and [detectWildcardRecords]),
    followed by the properties established about it.

    Modelling conventions.
    - A JavaScript string is a [string], read as the bytes of its UTF-8
      form; a surrogate that is not part of a pair, which UTF-8 does not
      encode, is written as the three bytes that the UTF-8 scheme gives its
      code unit (237, then 160 to 191, then 128 to 191).  All the separators
      the module looks for (tab, space, dot, dash) are ASCII, so suffix,
      substring and split tests find them where the source finds them.
    - [TextEncoder] and [TextDecoder] are represented ([Encoding]): the
      encoder writes U+FFFD for a lone surrogate, the decoder drops a byte
      order mark at the start of a chunk.  The run keeps the line of each
      chunk, and the reader takes the bytes of the line.
    - A JavaScript array used with [push], [shift], [unshift], [includes] is
      a [list]; the object used as a counter table in
      [detectWildcardRecords] is an association list read with default [0],
      as every read in the source goes through [|| 0].
    - A [number] is an integer or [NaN] (a DNS ttl is an integer).  The
      quotient compared with the threshold in [detectWildcardRecords] is
      taken in [Q]: with the default threshold 0.15 and counts below 2^50,
      the IEEE quotient of two counts is below the IEEE threshold exactly
      when the exact quotient is below 15/100; halving a length is exact.
    - A promise returned by [getDnsRecords] settles once, either resolved
      with a list of records or rejected; the order in which in-flight
      promises settle is free, and is given by a schedule. *)

From Stdlib Require Import String Ascii List ZArith QArith Lia Bool Arith.
From Stdlib Require Import DecimalString DecimalPos DecimalZ.
Import ListNotations.

#[local] Close Scope Q_scope.
#[local] Open Scope string_scope.
#[local] Open Scope list_scope.

(** ** JavaScript string and array primitives used by the module *)

Module JS.

Definition tab : ascii := ascii_of_nat 9.
Definition TAB : string := String tab EmptyString.

(** [s.startsWith(p)] *)
Definition startsWith (s p : string) : bool := String.prefix p s.

(** [s.endsWith(suf)] *)
Definition endsWith (s suf : string) : bool :=
  let n := String.length s in
  let m := String.length suf in
  if (m <=? n)%nat then String.eqb (String.substring (n - m) m s) suf
  else false.

(** [s.includes(sub)] *)
Definition includes (s sub : string) : bool :=
  match String.index 0 sub s with
  | Some _ => true
  | None => match sub with EmptyString => true | _ => false end
  end.

(** [s.split(c)] for a one-character separator; never the empty list. *)
Fixpoint split (c : ascii) (s : string) : list string :=
  match s with
  | EmptyString => [EmptyString]
  | String a s' =>
      if Ascii.eqb a c then EmptyString :: split c s'
      else match split c s' with
           | [] => [String a EmptyString]
           | h :: t => String a h :: t
           end
  end.

(** [parts.join(sep)] *)
Definition join (sep : string) (parts : list string) : string :=
  String.concat sep parts.

(** [s.replace(pat, rep)] with a string pattern: the first occurrence. *)
Definition replace (s pat rep : string) : string :=
  match String.index 0 pat s with
  | Some i =>
      String.substring 0 i s ++ rep ++
      String.substring (i + String.length pat)
                       (String.length s - (i + String.length pat)) s
  | None => match pat with EmptyString => rep ++ s | _ => s end
  end.

(** [s.slice(0, -1)] *)
Definition slice_0_m1 (s : string) : string :=
  String.substring 0 (String.length s - 1) s.

(** [arr.includes(x)] on an array of strings *)
Definition arr_includes (arr : list string) (x : string) : bool :=
  existsb (String.eqb x) arr.

(** [parts[i]] where the result is only used after a length check, or
    compared with a non-empty literal: [undefined] is then harmless and
    is represented by the empty string. *)
Definition at_ (parts : list string) (i : nat) : string :=
  nth i parts EmptyString.

(** A JavaScript number, restricted to the integers and [NaN]. *)
Inductive number : Type :=
| Num (z : Z)
| NaN.

(** [String(n)] *)
Definition String_ (n : number) : string :=
  match n with
  | Num z => NilZero.string_of_int (Z.to_int z)
  | NaN => "NaN"
  end.

(** [Number(s)] on the strings that spell an integer in decimal, and on
    the empty string ([0]); every other string is mapped to [NaN]. *)
Definition Number_ (s : string) : number :=
  match s with
  | EmptyString => Num 0
  | _ => match NilZero.int_of_string s with
         | Some d => Num (Z.of_int d)
         | None => NaN
         end
  end.

End JS.

(** ** [TextEncoder] and [TextDecoder] *)

Module Encoding.

Definition byte (n : nat) : ascii := ascii_of_nat n.

Definition between (lo hi : nat) (c : ascii) : bool :=
  ((lo <=? nat_of_ascii c) && (nat_of_ascii c <=? hi))%nat.

(** The three bytes are those of a surrogate, U+D800 to U+DFFF: in a string
    a surrogate written so stands alone, a pair being written as the four
    bytes of its code point. *)
Definition surrogate (a b c : ascii) : bool :=
  Ascii.eqb a (byte 237) && between 160 191 b && between 128 191 c.

(** The scalar values that the encoder finds in a string: U+FFFD, the
    bytes 239 191 189, stands for each lone surrogate. *)
Fixpoint scalarValues (s : string) : string :=
  match s with
  | EmptyString => EmptyString
  | String a s1 =>
      match s1 with
      | String b (String c rest) =>
          if surrogate a b c then
            String (byte 239) (String (byte 191) (String (byte 189)
                                                         (scalarValues rest)))
          else String a (scalarValues s1)
      | _ => String a (scalarValues s1)
      end
  end.

(** [new TextEncoder().encode(s)] *)
Definition encode (s : string) : list Byte.byte :=
  list_byte_of_string (scalarValues s).

(** The string without the byte order mark U+FEFF, the bytes 239 187 191,
    at its start. *)
Definition dropBOM (s : string) : string :=
  match s with
  | String a (String b (String c rest)) =>
      if Ascii.eqb a (byte 239) && Ascii.eqb b (byte 187)
         && Ascii.eqb c (byte 191)
      then rest else s
  | _ => s
  end.

(** [new TextDecoder().decode(bytes)] on the bytes of an encoded string,
    which are well formed. *)
Definition decode (bytes : list Byte.byte) : string :=
  dropBOM (string_of_list_byte bytes).

End Encoding.

(** ** The record type and its text line *)

(** [interface DnsRecord] *)
Record DnsRecord : Type := mkDnsRecord {
  name : string;
  type : string;
  ttl : JS.number;
  data : string
}.

(** The line written by [sendRecord]:
    [[record.name, record.ttl, 'IN', record.type, record.data].join('\t')] *)
Definition wire (record : DnsRecord) : string :=
  JS.join JS.TAB
    [name record; JS.String_ (ttl record); "IN"; type record; data record].

(** [parseDnsRecord]; [None] stands for the thrown [Error]. *)
Definition parseDnsRecord (record : string) : option DnsRecord :=
  let parts := JS.split JS.tab record in
  if (List.length parts <? 5)%nat || negb (JS.at_ parts 2 =? "IN") then None
  else Some {| name := JS.at_ parts 0;
               ttl := JS.Number_ (JS.at_ parts 1);
               type := JS.at_ parts 3;
               data := JS.at_ parts 4 |}.

(** [parseDnsRecord] on a [Uint8Array]: the chunk is decoded by a new
    [TextDecoder] first. *)
Definition parseDnsRecordChunk (record : list Byte.byte) : option DnsRecord :=
  parseDnsRecord (Encoding.decode record).


(** ** External collaborators of the module *)

(** The two imports of the module: [toASCII] of the [punycode] package and
    the list of well-known subdomains exported by [./subdomains.js]. *)
Class Externals : Type := {
  toASCII : string -> string;
  subdomainsRecords : list string
}.

(** The [resolver] option once selected: the settled outcome of the promise
    it returns for a name and a type, [None] for a rejection.  A registry key
    selects a function that fetches from the network; a key that is not in
    the registry makes every call reject. *)
Definition Resolver : Type := string -> string -> option (list DnsRecord).

(** [GetAllDnsRecordsOptions], with the defaults filled in. *)
Record GetAllDnsRecordsOptions : Type := mkOptions {
  resolver : Resolver;
  subdomains : list string
}.

(** ** Domain name validation *)

Module Validation.

Definition code (c : ascii) : nat := nat_of_ascii c.

Definition isLetter (c : ascii) : bool :=
  ((65 <=? code c) && (code c <=? 90) || (97 <=? code c) && (code c <=? 122))%nat.

Definition isDigit (c : ascii) : bool :=
  ((48 <=? code c) && (code c <=? 57))%nat.

Definition isDash (c : ascii) : bool := Ascii.eqb c "-".

Definition all (p : ascii -> bool) (s : string) : bool :=
  forallb p (list_ascii_of_string s).

(** The alternative [xn[a-z0-9-]{5,}] of both regular expressions, under
    the [i] flag. *)
Definition xnTest (s : string) : bool :=
  match s with
  | String x (String n rest) =>
      (Ascii.eqb x "x" || Ascii.eqb x "X") &&
      (Ascii.eqb n "n" || Ascii.eqb n "N") &&
      all (fun c => isLetter c || isDigit c || isDash c) rest &&
      (5 <=? String.length rest)%nat
  | _ => false
  end.

(** [/^([a-z]{2,64}|xn[a-z0-9-]{5,})$/i] *)
Definition tldTest (s : string) : bool :=
  (all isLetter s && (2 <=? String.length s)%nat && (String.length s <=? 64)%nat)
  || xnTest s.

(** [/^([a-z0-9-_]{1,64}|xn[a-z0-9-]{5,})$/i] *)
Definition labelTest (s : string) : bool :=
  (all (fun c => isLetter c || isDigit c || isDash c || Ascii.eqb c "_") s
   && (1 <=? String.length s)%nat && (String.length s <=? 64)%nat)
  || xnTest s.

(** [labels.every((label, index) => ...)] *)
Fixpoint every_from (p : string -> nat -> bool) (index : nat)
         (labels : list string) : bool :=
  match labels with
  | [] => true
  | label :: rest => p label index && every_from p (S index) rest
  end.

End Validation.

Definition isTld `{Externals} (tld : string) : bool :=
  let tld := if JS.startsWith tld "." then
               String.substring 1 (String.length tld - 1) tld
             else tld in
  Validation.tldTest (toASCII tld).

Definition isDomain `{Externals} (domain : string) : bool :=
  let domain := if JS.endsWith domain "." then
                  String.substring 0 (String.length domain - 1) domain
                else domain in
  let labels := rev (JS.split "." (toASCII domain)) in
  (1 <? List.length labels)%nat &&
  Validation.every_from
    (fun label index =>
       match index with
       | O => isTld label
       | S _ => negb (JS.startsWith label "-") && negb (JS.endsWith label "-")
                && Validation.labelTest label
       end) 0 labels.

(** [getDnsRecords]: the promise rejects for a name that is not a domain
    name, and settles as the resolver's promise otherwise. *)
Definition getDnsRecords `{Externals} (name type : string)
           (resolver : Resolver) : option (list DnsRecord) :=
  if negb (isDomain name) then None else resolver name type.

(** ** The types named by the registry resolvers *)

(** [dnsTypeNumbers] *)
Definition dnsTypeNumbers : list (Z * string) :=
  [(1, "A"); (2, "NS"); (5, "CNAME"); (6, "SOA"); (12, "PTR"); (15, "MX");
   (16, "TXT"); (24, "SIG"); (25, "KEY"); (28, "AAAA"); (33, "SRV");
   (257, "CAA")]%Z.

(** [dnsTypeNumbers[n]], [None] for [undefined]. *)
Fixpoint typeOfNumber (table : list (Z * string)) (n : Z) : option string :=
  match table with
  | [] => None
  | (k, s) :: rest => if (k =? n)%Z then Some s else typeOfNumber rest n
  end.

(** [dnsTypeNumbers[record.type] || String(record.type)], the type that
    the resolvers [cloudflare-dns] and [google-dns] give to an answer whose
    type number is [n]. *)
Definition typeName (n : Z) : string :=
  match typeOfNumber dnsTypeNumbers n with
  | Some s => s
  | None => JS.String_ (JS.Num n)
  end.

(** ** Wildcard detection *)

Definition isAddressType (t : string) : bool :=
  JS.arr_includes ["A"; "AAAA"; "CNAME"] t.

(** [`${record.type}-${record.data}`] *)
Definition groupKey (record : DnsRecord) : string :=
  type record ++ "-" ++ data record.

(** The object [sameDataGroup]. *)
Definition Counter : Type := list (string * nat).

(** [o[key] || 0] *)
Fixpoint counter_get (o : Counter) (key : string) : nat :=
  match o with
  | [] => 0
  | (k, n) :: rest => if String.eqb k key then n else counter_get rest key
  end.

(** [o[key] ||= 0; o[key]++] *)
Fixpoint counter_incr (o : Counter) (key : string) : Counter :=
  match o with
  | [] => [(key, 1)]
  | (k, n) :: rest =>
      if String.eqb k key then (k, S n) :: rest
      else (k, n) :: counter_incr rest key
  end.

(** The first [records.forEach] of [detectWildcardRecords]. *)
Definition countGroups (records : list DnsRecord) : Counter :=
  fold_left
    (fun o record =>
       if isAddressType (type record) then counter_incr o (groupKey record)
       else o)
    records [].

Definition Qltb (x y : Q) : bool := negb (Qle_bool y x).

Definition Qnat (n : nat) : Q := inject_Z (Z.of_nat n).

(** [records.filter(r => r.type === record.type).length] *)
Definition recordTypeLength (records : list DnsRecord) (record : DnsRecord) : nat :=
  List.length (filter (fun r => type r =? type record) records).

(** The test that sends an address record through unchanged:
    [sameData / recordTypeLength < percent ||
     recordTypeLength < subdomainsRecords.length / 2] *)
Definition keptAsIs `{Externals} (sameDataGroup : Counter)
           (records : list DnsRecord) (percent : Q) (record : DnsRecord) : bool :=
  let sameData := counter_get sameDataGroup (groupKey record) in
  let recordTypeLength := recordTypeLength records record in
  Qltb (Qnat sameData / Qnat recordTypeLength)%Q percent
  || Qltb (Qnat recordTypeLength) (Qnat (List.length subdomainsRecords) / 2)%Q.

(** [{ ...record, name: `*.${domain}` }] *)
Definition asWildcard (domain : string) (record : DnsRecord) : DnsRecord :=
  {| name := "*." ++ domain; type := type record;
     ttl := ttl record; data := data record |}.

(** The body of the second [records.forEach]; the accumulator holds
    [wildcardsFound] and [recordsWithWildcard]. *)
Definition detectStep `{Externals} (domain : string) (sameDataGroup : Counter)
           (records : list DnsRecord) (percent : Q)
           (acc : list string * list DnsRecord) (record : DnsRecord)
  : list string * list DnsRecord :=
  let (wildcardsFound, recordsWithWildcard) := acc in
  if isAddressType (type record) then
    let key := groupKey record in
    if keptAsIs sameDataGroup records percent record then
      (wildcardsFound, recordsWithWildcard ++ [record])
    else if negb (JS.arr_includes wildcardsFound key) then
      (wildcardsFound ++ [key], recordsWithWildcard ++ [asWildcard domain record])
    else acc
  else (wildcardsFound, recordsWithWildcard ++ [record]).

Definition detectWildcardRecords `{Externals} (domain : string)
           (records : list DnsRecord) (percent : Q) : list DnsRecord :=
  let sameDataGroup := countGroups records in
  snd (fold_left (detectStep domain sameDataGroup records percent) records ([], [])).

(** The default value of the parameter [percent]. *)
Definition defaultPercent : Q := (15 # 100)%Q.

(** ** The discovery run of [getAllDnsRecordsStream] *)

(** The callback attached with [.then] to a promise of [getDnsRecords]. *)
Inductive Handler : Type :=
| ThenNS            (* the callback of the first check *)
| ThenSendRecords   (* [sendRecords] *)
| ThenMX            (* the callback of the MX query *)
| ThenTXT.          (* the callback of the TXT query *)

(** A promise of [getDnsRecords] that has not settled yet. *)
Record Pending : Type := mkPending {
  p_name : string;
  p_type : string;
  p_then : Handler
}.

(** The variables the closures of one call share, the state of the writer,
    the promises in flight, and the log of the calls to [getDnsRecords]. *)
Record Run : Type := mkRun {
  recordsHashes : list string;
  subdomainsChecked : list string;
  subdomainsExtra : list string;
  runningChecks : Z;
  written : list string;
  closed : bool;
  inflight : list Pending;
  issued : list (string * string)
}.

Definition with_recordsHashes (v : list string) (st : Run) : Run :=
  mkRun v (subdomainsChecked st) (subdomainsExtra st) (runningChecks st)
        (written st) (closed st) (inflight st) (issued st).

Definition with_subdomainsChecked (v : list string) (st : Run) : Run :=
  mkRun (recordsHashes st) v (subdomainsExtra st) (runningChecks st)
        (written st) (closed st) (inflight st) (issued st).

Definition with_subdomainsExtra (v : list string) (st : Run) : Run :=
  mkRun (recordsHashes st) (subdomainsChecked st) v (runningChecks st)
        (written st) (closed st) (inflight st) (issued st).

Definition with_runningChecks (v : Z) (st : Run) : Run :=
  mkRun (recordsHashes st) (subdomainsChecked st) (subdomainsExtra st) v
        (written st) (closed st) (inflight st) (issued st).

Definition with_written (v : list string) (st : Run) : Run :=
  mkRun (recordsHashes st) (subdomainsChecked st) (subdomainsExtra st)
        (runningChecks st) v (closed st) (inflight st) (issued st).

Definition with_closed (v : bool) (st : Run) : Run :=
  mkRun (recordsHashes st) (subdomainsChecked st) (subdomainsExtra st)
        (runningChecks st) (written st) v (inflight st) (issued st).

Definition with_inflight (v : list Pending) (st : Run) : Run :=
  mkRun (recordsHashes st) (subdomainsChecked st) (subdomainsExtra st)
        (runningChecks st) (written st) (closed st) v (issued st).

Definition with_issued (v : list (string * string)) (st : Run) : Run :=
  mkRun (recordsHashes st) (subdomainsChecked st) (subdomainsExtra st)
        (runningChecks st) (written st) (closed st) (inflight st) v.

(** [writer.write(chunk)]: a chunk written after [close] is not delivered.
    The run keeps the line of which the chunk holds the bytes. *)
Definition writer_write (st : Run) (chunk : string) : Run :=
  if closed st then st else with_written (written st ++ [chunk]) st.

(** [writer.close()] *)
Definition writer_close (st : Run) : Run := with_closed true st.

(** [getDnsRecords(name, type, options.resolver).then(handler)] *)
Definition query_then (name type : string) (handler : Handler) (st : Run) : Run :=
  with_issued (issued st ++ [(name, type)])
    (with_inflight (inflight st ++ [mkPending name type handler]) st).

(** [`${record.name}-${record.type}-${record.data}`] *)
Definition recordHash (record : DnsRecord) : string :=
  name record ++ "-" ++ type record ++ "-" ++ data record.

(** [sendRecord]: the chunk written is [encoder.encode] of the line. *)
Definition sendRecord (domain : string) (st : Run) (record : DnsRecord) : Run :=
  let hash := recordHash record in
  if negb (JS.arr_includes (recordsHashes st) hash)
     && JS.endsWith (name record) domain
  then writer_write (with_recordsHashes (recordsHashes st ++ [hash]) st)
                    (wire record)
  else st.

(** The [while (subdomainsExtra.length)] loop of [reqDone], over the
    content of the queue when the loop starts. *)
Fixpoint drainQueue (domain : string) (queue : list string) (st : Run) : Run :=
  match queue with
  | [] => st
  | subdomain :: rest =>
      drainQueue domain rest
        (if negb (subdomain =? "")
            && negb (JS.arr_includes (subdomainsChecked st) subdomain)
         then
           query_then (subdomain ++ "." ++ domain) "A" ThenSendRecords
             (with_subdomainsChecked (subdomainsChecked st ++ [subdomain])
                (with_runningChecks (runningChecks st + 1)%Z st))
         else st)
  end.

Definition reqDone (domain : string) (st : Run) : Run :=
  let st := with_runningChecks (runningChecks st - 1)%Z st in
  let st := if (runningChecks st =? 0)%Z then
              with_subdomainsExtra [] (drainQueue domain (subdomainsExtra st) st)
            else st in
  if (runningChecks st =? 0)%Z then writer_close st else st.

Definition sendRecords (domain : string) (st : Run) (records : list DnsRecord) : Run :=
  reqDone domain (fold_left (sendRecord domain) records st).

Definition addSubdomain (domain : string) (st : Run) (value : string) : Run :=
  let value := if JS.endsWith value "." then JS.slice_0_m1 value else value in
  if JS.endsWith value ("." ++ domain) then
    let subdomain := JS.replace value ("." ++ domain) "" in
    if negb (JS.arr_includes (subdomainsExtra st) subdomain) then
      with_subdomainsExtra (subdomainsExtra st ++ [subdomain]) st
    else st
  else st.

(** The [forEach] of the first check, on the NS records. *)
Definition inferNS (domain : string) (st : Run) (nsRecords : list DnsRecord) : Run :=
  fold_left
    (fun st r =>
       let st := sendRecord domain st r in
       if JS.includes (data r) domain then addSubdomain domain st (data r)
       else st)
    nsRecords st.

Definition onNS (domain : string) (st : Run) (nsRecords : list DnsRecord) : Run :=
  if (0 <? List.length nsRecords)%nat then
    let st := inferNS domain st nsRecords in
    let st := query_then domain "SOA" ThenSendRecords st in
    let st := query_then domain "A" ThenSendRecords st in
    let st := query_then domain "AAAA" ThenSendRecords st in
    let st := query_then domain "MX" ThenMX st in
    query_then domain "TXT" ThenTXT st
  else writer_close st.

(** The [forEach] of the MX callback. *)
Definition inferMX (domain : string) (st : Run) (records : list DnsRecord) : Run :=
  fold_left
    (fun st r =>
       if JS.includes (data r) domain then
         let parts := JS.split " " (data r) in
         if (1 <? List.length parts)%nat then
           addSubdomain domain st (JS.at_ parts 1)
         else st
       else st)
    records st.

Definition onMX (domain : string) (st : Run) (records : list DnsRecord) : Run :=
  sendRecords domain (inferMX domain st records) records.

(** The body of the inner [forEach] of the TXT callback. *)
Definition inferSPF (domain : string) (st : Run) (spf : string) : Run :=
  if JS.startsWith spf "include:" && JS.endsWith spf domain then
    addSubdomain domain st (JS.replace spf "include:" "")
  else if JS.startsWith spf "a:" && JS.endsWith spf domain then
    addSubdomain domain st (JS.replace spf "a:" "")
  else if JS.startsWith spf "mx:" && JS.endsWith spf domain then
    addSubdomain domain st (JS.replace spf "mx:" "")
  else st.

(** The outer [forEach] of the TXT callback. *)
Definition inferTXT (domain : string) (st : Run) (records : list DnsRecord) : Run :=
  fold_left
    (fun st r =>
       if JS.includes (data r) "v=spf1" && JS.includes (data r) domain then
         fold_left (inferSPF domain) (JS.split " " (data r)) st
       else st)
    records st.

Definition onTXT (domain : string) (st : Run) (records : list DnsRecord) : Run :=
  sendRecords domain (inferTXT domain st records) records.

Definition runHandler (domain : string) (handler : Handler) (st : Run)
           (records : list DnsRecord) : Run :=
  match handler with
  | ThenNS => onNS domain st records
  | ThenSendRecords => sendRecords domain st records
  | ThenMX => onMX domain st records
  | ThenTXT => onTXT domain st records
  end.

Definition remove_nth {A : Type} (i : nat) (l : list A) : list A :=
  firstn i l ++ skipn (S i) l.

(** The promise at position [i] of the promises in flight settles.  When it
    resolves, its callback runs to the end before anything else happens;
    when it rejects, no callback is attached to that outcome, and nothing
    runs. *)
Definition settle `{Externals} (domain : string) (options : GetAllDnsRecordsOptions)
           (st : Run) (i : nat) : Run :=
  match nth_error (inflight st) i with
  | None => st
  | Some p =>
      let st := with_inflight (remove_nth i (inflight st)) st in
      match getDnsRecords (p_name p) (p_type p) (resolver options) with
      | None => st
      | Some records => runHandler domain (p_then p) st records
      end
  end.

(** The state when [getAllDnsRecordsStream] returns its stream; [domain] is
    already in ASCII form. *)
Definition start `{Externals} (domain : string) (options : GetAllDnsRecordsOptions) : Run :=
  query_then domain "NS" ThenNS
    {| recordsHashes := [];
       subdomainsChecked := [];
       subdomainsExtra := subdomains options ++ subdomainsRecords;
       runningChecks := 5;
       written := [];
       closed := false;
       inflight := [];
       issued := [] |}.

(** The run after the promises settled in the order given by [schedule]. *)
Definition exec `{Externals} (domain : string) (options : GetAllDnsRecordsOptions)
           (schedule : list nat) (st : Run) : Run :=
  fold_left (settle domain options) schedule st.

(** [getAllDnsRecordsStream]; [None] stands for the thrown [Error]. *)
Definition getAllDnsRecordsStream `{Externals} (domain : string)
           (options : GetAllDnsRecordsOptions) (schedule : list nat) : option Run :=
  if negb (isDomain domain) then None
  else
    let domain := toASCII domain in
    Some (exec domain options schedule (start domain options)).

(** No promise is in flight: nothing more can happen in the run. *)
Definition quiescent (st : Run) : Prop := inflight st = [].

(** ** Reading the stream: [getAllDnsRecords] *)

(** How the promise of [getAllDnsRecords] stands. *)
Inductive Outcome : Type :=
| Resolved (records : list DnsRecord)
| Rejected
| Pending_.

(** The [read] loop over the lines written: the chunk of a line, its bytes
    as [sendRecord] encodes them, goes through [parseDnsRecord], and the
    first chunk it refuses rejects the promise. *)
Fixpoint readAll (chunks : list string) : option (list DnsRecord) :=
  match chunks with
  | [] => Some []
  | chunk :: rest =>
      match parseDnsRecordChunk (Encoding.encode chunk) with
      | None => None
      | Some record =>
          match readAll rest with
          | None => None
          | Some records => Some (record :: records)
          end
      end
  end.

(** The promise of [getAllDnsRecords] once the promises of the run settled
    in the order of [schedule].  In a quiescent run [Pending_] means that
    the promise never settles. *)
Definition getAllDnsRecords `{Externals} (domain : string)
           (options : GetAllDnsRecordsOptions) (schedule : list nat) : Outcome :=
  match getAllDnsRecordsStream domain options schedule with
  | None => Rejected
  | Some st =>
      match readAll (written st) with
      | None => Rejected
      | Some records =>
          if closed st then
            Resolved (detectWildcardRecords domain records defaultPercent)
          else Pending_
      end
  end.

(** ** The table printed by the command line script

    [index.js] prints the result of [getAllDnsRecords] with
    [printLeftAlignedTable]. *)

Module Cli.

(** An object of [formattedRecords]: its keys in insertion order, each with
    the [toString()] of its value. *)
Definition Row : Type := list (string * string).

(** [Object.keys(row)] *)
Definition keys (row : Row) : list string := map fst row.

(** [row[header].toString()]; [None] stands for the [TypeError] thrown on
    [undefined]. *)
Fixpoint cell (row : Row) (header : string) : option string :=
  match row with
  | [] => None
  | (key, value) :: rest =>
      if String.eqb key header then Some value else cell rest header
  end.

(** [arr.map(f)] when [f] may throw. *)
Fixpoint mapThrowing {A B : Type} (f : A -> option B) (l : list A)
  : option (list B) :=
  match l with
  | [] => Some []
  | x :: rest =>
      match f x with
      | None => None
      | Some y =>
          match mapThrowing f rest with
          | None => None
          | Some ys => Some (y :: ys)
          end
      end
  end.

(** [s.repeat(n)] *)
Fixpoint repeat_ (s : string) (n : nat) : string :=
  match n with
  | O => EmptyString
  | S n' => s ++ repeat_ s n'
  end.

(** [s.padEnd(width, ' ')] *)
Definition padEnd (s : string) (width : nat) : string :=
  s ++ repeat_ " " (width - String.length s).

(** [Math.max(...lengths, last)] *)
Definition max_ (lengths : list nat) (last : nat) : nat :=
  list_max (lengths ++ [last]).

(** [{ index, ...record }]; the keys of a record are in the order in which
    [parseDnsRecord] writes them. *)
Definition formatted (index : nat) (record : DnsRecord) : Row :=
  [("index", JS.String_ (JS.Num (Z.of_nat index)));
   ("name", name record);
   ("ttl", JS.String_ (ttl record));
   ("type", type record);
   ("data", data record)].

(** [allRecords.map((record, index) => ({ index, ...record }))] *)
Definition formattedRecords (allRecords : list DnsRecord) : list Row :=
  map (fun ir => formatted (fst ir) (snd ir))
      (combine (seq 0 (List.length allRecords)) allRecords).

(** The widths of the columns. *)
Definition columnWidths (headers : list string) (data : list Row)
  : option (list nat) :=
  mapThrowing
    (fun header =>
       match mapThrowing (fun row => cell row header) data with
       | None => None
       | Some cells => Some (max_ (map String.length cells) (String.length header))
       end)
    headers.

(** [cells.map((c, index) => c.padEnd(columnWidths[index], ' '))] *)
Definition padAll (cells : list string) (widths : list nat) : list string :=
  map (fun cw => padEnd (fst cw) (snd cw)) (combine cells widths).

(** [printLeftAlignedTable]: the lines passed to [console.log], [None] when
    the function throws; it can only throw before the first line. *)
Definition printLeftAlignedTable (data : list Row) : option (list string) :=
  match data with
  | [] => None
  | first :: _ =>
      let headers := keys first in
      match columnWidths headers data with
      | None => None
      | Some widths =>
          let headerRow := JS.join " | " (padAll headers widths) in
          let separatorRow := JS.join "-|-" (map (repeat_ "-") widths) in
          match mapThrowing
                  (fun row =>
                     match mapThrowing (cell row) headers with
                     | None => None
                     | Some cells => Some (JS.join " | " (padAll cells widths))
                     end)
                  data with
          | None => None
          | Some rows => Some (headerRow :: separatorRow :: rows)
          end
      end
  end.

End Cli.

(** ** Vocabulary of the statements *)

(** The string holds no occurrence of the character [c]. *)
Definition sepFree (c : ascii) (s : string) : bool :=
  forallb (fun a => negb (Ascii.eqb a c)) (list_ascii_of_string s).

(** The string holds no tab character. *)
Definition tabFree (s : string) : bool := sepFree JS.tab s.

(** The three text fields of the record hold no tab character. *)
Definition tabFreeRecord (record : DnsRecord) : bool :=
  tabFree (name record) && tabFree (type record) && tabFree (data record).

(** The line as the reader decodes it from its chunk. *)
Definition received (line : string) : string :=
  Encoding.decode (Encoding.encode line).

(** The record as its line carries it through the stream: U+FFFD for each
    lone surrogate, and no byte order mark at the start of the name, which
    starts the line. *)
Definition carried (r : DnsRecord) : DnsRecord :=
  {| name := Encoding.dropBOM (Encoding.scalarValues (name r));
     type := Encoding.scalarValues (type r);
     ttl := ttl r;
     data := Encoding.scalarValues (data r) |}.

(** The stream carries the name, the type and the data of the record as
    they are: they hold no lone surrogate, and the name does not start
    with a byte order mark. *)
Definition intact (r : DnsRecord) : bool :=
  (name (carried r) =? name r) && (type (carried r) =? type r)
  && (data (carried r) =? data r).

(** What [parseDnsRecord] makes of the first five fields of a line. *)
Definition fromFields (parts : list string) : option DnsRecord :=
  match parts with
  | [f0; f1; f2; f3; f4] =>
      if f2 =? "IN" then
        Some {| name := f0; ttl := JS.Number_ f1; type := f3; data := f4 |}
      else None
  | _ => None
  end.

(** The two records have the same type and the same data: they belong to
    the same wildcard group. *)
Definition sameGroup (r r' : DnsRecord) : bool :=
  (type r' =? type r) && (data r' =? data r).

(** The number of records of the list in the group of [r]. *)
Definition groupSize (records : list DnsRecord) (r : DnsRecord) : nat :=
  List.length (filter (sameGroup r) records).

(** The condition of the specification: an address-bearing record whose
    group makes up at least [percent] of the records of its type, the
    records of its type being at least half as many as the well-known
    subdomains. *)
Definition wildcardEvidence `{Externals} (records : list DnsRecord)
           (percent : Q) (r : DnsRecord) : bool :=
  isAddressType (type r)
  && Qle_bool percent (Qnat (groupSize records r) / Qnat (recordTypeLength records r))%Q
  && Qle_bool (Qnat (List.length subdomainsRecords) / 2)%Q
              (Qnat (recordTypeLength records r)).

(** The identity of a record for deduplication. *)
Definition identity (r : DnsRecord) : string * string * string :=
  (name r, type r, data r).

(** The second loop of [detectWildcardRecords] as a recursion on the
    records left to visit: [ev] tells the records that are collapsed,
    [found] is [wildcardsFound]. *)
Fixpoint collapse (domain : string) (ev : DnsRecord -> bool)
         (found : list string) (records : list DnsRecord) : list DnsRecord :=
  match records with
  | [] => []
  | r :: rest =>
      if ev r then
        if JS.arr_includes found (groupKey r) then collapse domain ev found rest
        else asWildcard domain r
               :: collapse domain ev (found ++ [groupKey r]) rest
      else r :: collapse domain ev found rest
  end.

(** The query and the pending promise of the lookup of a subdomain. *)
Definition subQuery (domain subdomain : string) : string * string :=
  ((subdomain ++ "." ++ domain)%string, "A").

Definition subPending (domain subdomain : string) : Pending :=
  mkPending (subdomain ++ "." ++ domain) "A" ThenSendRecords.

(** The six queries on the domain itself, in the order of their calls, and
    the five promises the first check leaves in flight. *)
Definition rootQueries (domain : string) : list (string * string) :=
  [(domain, "NS"); (domain, "SOA"); (domain, "A"); (domain, "AAAA");
   (domain, "MX"); (domain, "TXT")].

Definition rootPendings (domain : string) : list Pending :=
  [mkPending domain "SOA" ThenSendRecords; mkPending domain "A" ThenSendRecords;
   mkPending domain "AAAA" ThenSendRecords; mkPending domain "MX" ThenMX;
   mkPending domain "TXT" ThenTXT].

Definition queryOf (p : Pending) : string * string := (p_name p, p_type p).

(** The labels that a pass of the loop of [reqDone] over [queue] looks up,
    [checked] being the labels looked up before. *)
Fixpoint fresh (checked queue : list string) : list string :=
  match queue with
  | [] => []
  | subdomain :: rest =>
      if negb (subdomain =? "") && negb (JS.arr_includes checked subdomain)
      then subdomain :: fresh (checked ++ [subdomain]) rest
      else fresh checked rest
  end.

(** [st'] is [st] but for its sink, and for labels that inference added at
    the end of the queue: new ones, each once. *)
Definition Inferred (st st' : Run) : Prop :=
  subdomainsChecked st' = subdomainsChecked st
  /\ runningChecks st' = runningChecks st
  /\ closed st' = closed st
  /\ inflight st' = inflight st
  /\ issued st' = issued st
  /\ exists added,
       subdomainsExtra st' = subdomainsExtra st ++ added
       /\ NoDup added
       /\ forall s, In s added -> ~ In s (subdomainsExtra st).

Section ProtocolVocabulary.

Context `{Externals}.
Variable domain : string.
Variable options : GetAllDnsRecordsOptions.

(** The promise of the query rejects. *)
Definition rejects (q : string * string) : Prop :=
  getDnsRecords (fst q) (snd q) (resolver options) = None.

(** The counter [runningChecks] counts the promises in flight and the
    promises that rejected, for which nothing decrements it. *)
Definition accountedFor (counter : Z) (flying : list Pending)
           (called : list (string * string)) : Prop :=
  exists k : nat,
    counter = Z.of_nat (List.length flying + k)
    /\ ((0 < k)%nat -> exists q, In q called /\ rejects q)
    /\ ((exists q, In q called /\ rejects q) ->
        (0 < k)%nat \/ exists p, In p flying /\ rejects (queryOf p)).

Definition accounted (st : Run) : Prop :=
  accountedFor (runningChecks st) (inflight st) (issued st).

(** The stages of a run. *)
Inductive Phase : Run -> Prop :=
| Boot : Phase (start domain options)
| Dead :
    rejects (domain, "NS") ->
    Phase (with_inflight [] (start domain options))
| NoDelegation :
    getDnsRecords domain "NS" (resolver options) = Some [] ->
    Phase (writer_close (with_inflight [] (start domain options)))
| Roots (st : Run) (ns : list DnsRecord) (inferred : list string) :
    getDnsRecords domain "NS" (resolver options) = Some ns -> ns <> [] ->
    subdomainsChecked st = [] ->
    closed st = false ->
    issued st = rootQueries domain ->
    subdomainsExtra st = (subdomains options ++ subdomainsRecords) ++ inferred ->
    NoDup inferred ->
    (forall s, In s inferred -> ~ In s (subdomains options ++ subdomainsRecords)) ->
    Forall (fun p => In p (rootPendings domain)) (inflight st) ->
    (1 <= runningChecks st)%Z ->
    accounted st ->
    Phase st
| Subs (st : Run) (ns : list DnsRecord) :
    getDnsRecords domain "NS" (resolver options) = Some ns -> ns <> [] ->
    subdomainsExtra st = [] ->
    NoDup (subdomainsChecked st) ->
    issued st = rootQueries domain
                ++ map (subQuery domain) (subdomainsChecked st) ->
    Forall (fun p => p_then p = ThenSendRecords /\ In (queryOf p) (issued st))
           (inflight st) ->
    accounted st ->
    (closed st = true <-> runningChecks st = 0%Z) ->
    Phase st.

End ProtocolVocabulary.

(** The part of the state that [sendRecord] writes. *)
Definition sink (st : Run) : list string * list string :=
  (recordsHashes st, written st).

(** The lines written are the lines of records that were accepted, in
    order; the hashes of these records are recorded and pairwise different,
    their names end with the domain, and they satisfy [P]. *)
Definition SinkOk (P : DnsRecord -> Prop) (domain : string) (st : Run) : Prop :=
  exists accepted,
    written st = map wire accepted
    /\ incl (map recordHash accepted) (recordsHashes st)
    /\ NoDup (map recordHash accepted)
    /\ Forall (fun r => JS.endsWith (name r) domain = true /\ P r) accepted.

(** Every label marked as checked has had its lookup called. *)
Definition CheckedCalled (domain : string) (st : Run) : Prop :=
  forall s, In s (subdomainsChecked st) -> In (subQuery domain s) (issued st).

(** From [st] to [st'] no call and no promise in flight was lost, a label
    that waited in the queue still waits or has had its lookup called, and
    the MX query, if it was called in between, is in flight. *)
Definition Progress (domain : string) (st st' : Run) : Prop :=
  incl (issued st) (issued st')
  /\ incl (inflight st) (inflight st')
  /\ (CheckedCalled domain st -> CheckedCalled domain st')
  /\ (CheckedCalled domain st ->
      forall s, In s (subdomainsExtra st) -> s <> "" ->
                In s (subdomainsExtra st') \/ In (subQuery domain s) (issued st'))
  /\ (In (domain, "MX") (issued st') ->
      In (domain, "MX") (issued st)
      \/ In (mkPending domain "MX" ThenMX) (inflight st')).

(** A label that the MX callback proposes is not lost: the MX promise is
    in flight, or the label waits in the queue, or its lookup was called. *)
Definition Tracked (domain label : string) (st : Run) : Prop :=
  In (mkPending domain "MX" ThenMX) (inflight st)
  \/ In label (subdomainsExtra st)
  \/ In (subQuery domain label) (issued st).

(** The label waits in the queue, or its lookup has been called. *)
Definition Waiting (domain label : string) (st : Run) : Prop :=
  In label (subdomainsExtra st) \/ In (subQuery domain label) (issued st).

(** The promise [src] is in flight, or the label waits in the queue, or its
    lookup has been called. *)
Definition Awaited (domain label : string) (src : Pending) (st : Run) : Prop :=
  In src (inflight st) \/ Waiting domain label st.



(** The record was returned for a query that the run has made. *)
Definition answeredIn `{Externals} (options : GetAllDnsRecordsOptions)
           (st : Run) (r : DnsRecord) : Prop :=
  exists q records,
    In q (issued st)
    /\ getDnsRecords (fst q) (snd q) (resolver options) = Some records
    /\ In r records.

(** A character that a name accepted by [isDomain] may hold. *)
Definition nameChar (c : ascii) : bool :=
  Validation.isLetter c || Validation.isDigit c || Validation.isDash c
  || Ascii.eqb c "_" || Ascii.eqb c ".".

(** A printable ASCII character, from the space to the tilde, other than
    the at sign. *)
Definition plainChar (c : ascii) : bool :=
  ((32 <=? Validation.code c) && (Validation.code c <=? 126))%nat
  && negb (Ascii.eqb c "@").

(** The string is made of such characters.  [toASCII] of [punycode] gives
    such a string back as it is: it converts the labels that hold a
    character outside of this range, and sets aside what precedes an at
    sign. *)
Definition plainAscii (s : string) : bool := Validation.all plainChar s.

(** The test of [isDomain] on a label that is not the last one. *)
Definition labelOk (label : string) : bool :=
  negb (JS.startsWith label "-") && negb (JS.endsWith label "-")
  && Validation.labelTest label.

(** The string starts with a letter. *)
Definition startsWithLetter (s : string) : bool :=
  match s with
  | String c _ => Validation.isLetter c
  | EmptyString => false
  end.

(** The width of a line of the table: the columns and the separators of
    three characters between them. *)
Definition lineWidth (widths : list nat) : nat :=
  list_sum widths + 3 * (List.length widths - 1).

(** The record as [parseDnsRecord] reads it back from its line when its
    name and type hold no tab: its data is cut at the first tab. *)
Definition readBack (r : DnsRecord) : DnsRecord :=
  {| name := name r; type := type r; ttl := ttl r;
     data := JS.at_ (JS.split JS.tab (data r)) 0 |}.

(** What [sendRecord] does to the hashes and to the lines of an open
    stream. *)
Definition sinkSend (domain : string) (s : list string * list string)
           (record : DnsRecord) : list string * list string :=
  if negb (JS.arr_includes (fst s) (recordHash record))
     && JS.endsWith (name record) domain
  then (fst s ++ [recordHash record], snd s ++ [wire record])
  else s.

(** The query is in flight, or it has rejected, or the records of its
    answer whose names end with the domain have their hashes recorded. *)
Definition Covered `{Externals} (domain : string)
           (options : GetAllDnsRecordsOptions) (st : Run)
           (q : string * string) : Prop :=
  (exists p, In p (inflight st) /\ queryOf p = q)
  \/ rejects options q
  \/ exists records,
      getDnsRecords (fst q) (snd q) (resolver options) = Some records
      /\ forall r, In r records -> JS.endsWith (name r) domain = true ->
                   In (recordHash r) (recordsHashes st).

(** The hashes recorded are those of the records written, and every call
    is covered. *)
Definition Complete `{Externals} (domain : string)
           (options : GetAllDnsRecordsOptions) (st : Run) : Prop :=
  (exists accepted,
      sink st = (map recordHash accepted, map wire accepted)
      /\ Forall (fun a => exists n t records,
                            resolver options n t = Some records
                            /\ In a records) accepted)
  /\ forall q, In q (issued st) -> Covered domain options st q.

(** ** Concrete runs *)

(** Externals, resolvers and schedules on which the statements below are
    evaluated: the identity for [toASCII] (the domain is plain ASCII), six
    well-known subdomains, and resolvers given by the table of their
    answers. *)
Module Example.

Definition ext : Externals :=
  {| toASCII := fun s => s;
     subdomainsRecords := ["www"; "mail"; "ftp"; "api"; "blog"; "shop"] |}.

Definition rec (n t d : string) : DnsRecord := mkDnsRecord n t (JS.Num 300) d.

(** Sixteen settlements of the first promise in flight. *)
Definition fifo : list nat := repeat 0%nat 16.

(** Every query resolves; the MX record points into the domain. *)
Definition answers : Resolver := fun n t =>
  if n =? "example.com" then
    if t =? "NS" then
      Some [rec "example.com" "NS" "ns1.example.com.";
            rec "example.com" "NS" "ns2.example.net."]
    else if t =? "SOA" then
      Some [rec "example.com" "SOA"
                "ns1.example.com. admin.example.com. 1 7200 3600 1209600 300"]
    else if t =? "A" then Some [rec "example.com" "A" "93.184.216.34"]
    else if t =? "MX" then Some [rec "example.com" "MX" "10 mail.example.com."]
    else Some []
  else if n =? "mail.example.com" then
    Some [rec "mail.example.com" "A" "93.184.216.35"]
  else Some [].

Definition options : GetAllDnsRecordsOptions := mkOptions answers ["www"].

(** As [answers], but the promise of the SOA query rejects. *)
Definition soaRejects : Resolver := fun n t =>
  if (n =? "example.com") && (t =? "SOA") then None else answers n t.

Definition optionsSoaRejects : GetAllDnsRecordsOptions :=
  mkOptions soaRejects [].

(** The domain has no NS record. *)
Definition noDelegation : Resolver := fun _ _ => Some [].

Definition optionsNoDelegation : GetAllDnsRecordsOptions :=
  mkOptions noDelegation [].

(** The NS answer holds a record of another domain whose name ends with
    the letters of this one. *)
Definition outsider : DnsRecord := rec "notexample.com" "NS" "ns1.example.net.".

Definition answersOutside : Resolver := fun n t =>
  if (n =? "example.com") && (t =? "NS") then
    Some [rec n t "ns1.example.net."; outsider]
  else Some [].

Definition optionsOutside : GetAllDnsRecordsOptions :=
  mkOptions answersOutside [].

(** Two TXT records whose data differ after a tab. *)
Definition answersTabs : Resolver := fun n t =>
  if n =? "example.com" then
    if t =? "NS" then Some [rec n t "ns1.example.net."]
    else if t =? "TXT" then
      Some [rec n t ("v" ++ JS.TAB ++ "1"); rec n t ("v" ++ JS.TAB ++ "2")]
    else Some []
  else Some [].

Definition optionsTabs : GetAllDnsRecordsOptions := mkOptions answersTabs [].

(** The byte order mark U+FEFF. *)
Definition mark : string :=
  String (Encoding.byte 239)
         (String (Encoding.byte 187) (String (Encoding.byte 191) "")).

(** Two NS records whose names differ by a byte order mark at the start. *)
Definition answersMark : Resolver := fun n t =>
  if (n =? "example.com") && (t =? "NS") then
    Some [rec n t "ns1.example.net."; rec (mark ++ n) t "ns1.example.net."]
  else Some [].

Definition optionsMark : GetAllDnsRecordsOptions := mkOptions answersMark [].

(** The runs once the promises have settled in the order of [fifo]. *)
Definition settled (options : GetAllDnsRecordsOptions) : Run :=
  @exec ext "example.com" options fifo (@start ext "example.com" options).

(** Twenty [A] records on one address, under twenty names. *)
Definition twenty : list DnsRecord :=
  map (fun i => rec (NilZero.string_of_uint (Nat.to_uint i) ++ ".example.com")
                    "A" "203.0.113.7")
      (seq 1 20).



(** The caller supplies a label that makes no domain name. *)
Definition optionsBadLabel : GetAllDnsRecordsOptions :=
  mkOptions answers ["bad label"].

(** The resolver returns names with a final dot. *)
Definition answersDotted : Resolver := fun n t =>
  if (n =? "example.com") && (t =? "NS") then
    Some [rec "example.com." "NS" "ns1.example.net."]
  else Some [].

Definition optionsDotted : GetAllDnsRecordsOptions := mkOptions answersDotted [].

(** Thirteen well-known subdomains. *)
Definition ext13 : Externals :=
  {| toASCII := fun s => s;
     subdomainsRecords :=
       ["www"; "mail"; "ftp"; "api"; "blog"; "shop"; "dev"; "cdn"; "vpn";
        "smtp"; "imap"; "ns1"; "ns2"] |}.

(** Seven [A] records on seven addresses. *)
Definition seven : list DnsRecord :=
  map (fun i => rec (NilZero.string_of_uint (Nat.to_uint i) ++ ".example.com")
                    "A"
                    ("203.0.113." ++ NilZero.string_of_uint (Nat.to_uint i)))
      (seq 1 7).

(** Two [A] records on one address. *)
Definition pair : list DnsRecord :=
  [rec "example.com" "A" "93.184.216.34";
   rec "www.example.com" "A" "93.184.216.34"].

End Example.

(* ================================================================= *)
(** * Properties *)

(** ** Strings: [split] and [join] on a one-character separator *)

Section SplitJoin.

Variable c : ascii.

Lemma split_not_nil (s : string) : JS.split c s <> [].
Proof.
  induction s as [|a s IH]; simpl; [discriminate|].
  destruct (Ascii.eqb a c); [discriminate|].
  destruct (JS.split c s); [contradiction|discriminate].
Qed.

(** Every field produced by [split] is free of the separator. *)
Lemma split_fields_free (s : string) :
  Forall (fun f => sepFree c f = true) (JS.split c s).
Proof.
  induction s as [|a s IH]; simpl.
  - constructor; [reflexivity|constructor].
  - destruct (Ascii.eqb a c) eqn:Hac.
    + constructor; [reflexivity|exact IH].
    + destruct (JS.split c s) as [|h t].
      * constructor; [|constructor].
        unfold sepFree; simpl. rewrite Hac. reflexivity.
      * inversion IH as [|? ? Hh Ht]; subst.
        constructor; [|exact Ht].
        unfold sepFree in *; simpl. rewrite Hac. exact Hh.
Qed.

(** Splitting what follows a separator-free field and a separator. *)
Lemma split_field_sep (f rest : string) :
  sepFree c f = true ->
  JS.split c (f ++ String c rest)%string = f :: JS.split c rest.
Proof.
  induction f as [|a f IH]; simpl; intros Hf.
  - rewrite Ascii.eqb_refl. reflexivity.
  - unfold sepFree in Hf. simpl in Hf.
    apply andb_true_iff in Hf. destruct Hf as [Ha Hf].
    apply negb_true_iff in Ha. rewrite Ha.
    rewrite (IH Hf). reflexivity.
Qed.

Lemma split_field (f : string) :
  sepFree c f = true -> JS.split c f = [f].
Proof.
  induction f as [|a f IH]; simpl; intros Hf; [reflexivity|].
  unfold sepFree in Hf. simpl in Hf.
  apply andb_true_iff in Hf. destruct Hf as [Ha Hf].
  apply negb_true_iff in Ha. rewrite Ha.
  rewrite (IH Hf). reflexivity.
Qed.

(** Text after a further separator only adds fields at the end. *)
Lemma split_app_sep (s rest : string) :
  JS.split c (s ++ String c rest)%string = JS.split c s ++ JS.split c rest.
Proof.
  induction s as [|a s IH]; simpl.
  - rewrite Ascii.eqb_refl. reflexivity.
  - destruct (Ascii.eqb a c); rewrite IH; [reflexivity|].
    pose proof (split_not_nil s) as Hn.
    destruct (JS.split c s); [contradiction|reflexivity].
Qed.

End SplitJoin.

(** ** Numbers and their decimal spelling *)

Lemma uint_string_tabFree (d : Decimal.uint) :
  tabFree (NilEmpty.string_of_uint d) = true.
Proof. induction d; simpl; auto. Qed.

Lemma String_tabFree (n : JS.number) : tabFree (JS.String_ n) = true.
Proof.
  destruct n as [z|]; [|reflexivity].
  unfold JS.String_, NilZero.string_of_int, NilZero.string_of_uint.
  destruct (Z.to_int z) as [d|d]; destruct d; try reflexivity;
    match goal with
    | |- tabFree (String "-" ?t) = true => change (tabFree t = true)
    | _ => idtac
    end; apply uint_string_tabFree.
Qed.

Lemma Number_String (n : JS.number) : JS.Number_ (JS.String_ n) = n.
Proof.
  destruct n as [z|]; [|reflexivity].
  unfold JS.Number_, JS.String_.
  assert (Hi : NilZero.int_of_string (NilZero.string_of_int (Z.to_int z))
               = Some (Z.to_int z)).
  { apply NilZero.isi; destruct z; simpl; try discriminate;
      intros [= Hp]; revert Hp; apply DecimalPos.Unsigned.to_uint_nonnil. }
  destruct (NilZero.string_of_int (Z.to_int z)) eqn:Hs.
  - discriminate Hi.
  - rewrite Hi. f_equal. apply DecimalZ.of_to.
Qed.

(** ** The text line of a record: [wire] and [parseDnsRecord] *)

Lemma TAB_app (s : string) : (JS.TAB ++ s)%string = String JS.tab s.
Proof. reflexivity. Qed.

Lemma wire_unfold (r : DnsRecord) :
  wire r = (name r ++ String JS.tab
             (JS.String_ (ttl r) ++ String JS.tab
                ("IN" ++ String JS.tab (type r ++ String JS.tab (data r)))))%string.
Proof. reflexivity. Qed.

(** The fields of the line of a record, whatever its fields hold. *)
Lemma split_wire (r : DnsRecord) :
  JS.split JS.tab (wire r) =
  JS.split JS.tab (name r) ++ [JS.String_ (ttl r); "IN"]
    ++ JS.split JS.tab (type r) ++ JS.split JS.tab (data r).
Proof.
  rewrite wire_unfold.
  rewrite split_app_sep.
  rewrite (split_field_sep JS.tab (JS.String_ (ttl r))) by apply String_tabFree.
  rewrite (split_field_sep JS.tab "IN") by reflexivity.
  rewrite split_app_sep. reflexivity.
Qed.

Lemma split_wire_tabFree (r : DnsRecord) :
  tabFreeRecord r = true ->
  JS.split JS.tab (wire r) =
  [name r; JS.String_ (ttl r); "IN"; type r; data r].
Proof.
  unfold tabFreeRecord. intros H.
  apply andb_true_iff in H. destruct H as [H Hd].
  apply andb_true_iff in H. destruct H as [Hn Ht].
  rewrite split_wire.
  rewrite !split_field by assumption. reflexivity.
Qed.

Lemma parseDnsRecord_wire (r : DnsRecord) :
  tabFreeRecord r = true -> parseDnsRecord (wire r) = Some r.
Proof.
  intros H. unfold parseDnsRecord.
  rewrite (split_wire_tabFree r H). cbn.
  rewrite Number_String. destruct r; reflexivity.
Qed.

Lemma nth_split_tabFree (s : string) (i : nat) :
  (i < List.length (JS.split JS.tab s))%nat ->
  tabFree (JS.at_ (JS.split JS.tab s) i) = true.
Proof.
  intros Hi. unfold JS.at_.
  pose proof (split_fields_free JS.tab s) as Hf.
  rewrite Forall_forall in Hf.
  apply (Hf (nth i (JS.split JS.tab s) "")). apply nth_In. exact Hi.
Qed.

(** The fields of a parsed record never hold a tab. *)
Lemma parseDnsRecord_tabFree (s : string) (r : DnsRecord) :
  parseDnsRecord s = Some r -> tabFreeRecord r = true.
Proof.
  unfold parseDnsRecord.
  destruct (List.length (JS.split JS.tab s) <? 5)%nat eqn:Hlen; [discriminate|].
  apply Nat.ltb_ge in Hlen. simpl.
  destruct (negb _); [discriminate|].
  intros [= <-]. unfold tabFreeRecord. simpl.
  rewrite !nth_split_tabFree by lia. reflexivity.
Qed.

(** A record with a tab inside its data comes back cut at the tab. *)
Lemma parse_tab_in_data :
  parseDnsRecord
    (wire (mkDnsRecord "example.com" "TXT" (JS.Num 300) ("v" ++ JS.TAB ++ "1")%string))
  = Some (mkDnsRecord "example.com" "TXT" (JS.Num 300) "v").
Proof. reflexivity. Qed.

(** C7, as stated, fails: a record whose data holds a tab does not come
    back from its own line; [parseDnsRecord] returns a record whose data
    stops at the tab. *)
Lemma wire_roundtrip_counterexample :
  ~ (forall r : DnsRecord, parseDnsRecord (wire r) = Some r).
Proof.
  intros H.
  specialize (H (mkDnsRecord "example.com" "TXT" (JS.Num 300) ("v" ++ JS.TAB ++ "1")%string)).
  rewrite parse_tab_in_data in H. discriminate H.
Qed.

(** C7 (amended): writing a record as its tab-separated line and parsing
    the line gives the record back, field for field, exactly when its name,
    its type and its data hold no tab character. *)
Theorem wire_roundtrip_iff_tabFree (r : DnsRecord) :
  parseDnsRecord (wire r) = Some r <-> tabFreeRecord r = true.
Proof.
  split.
  - apply parseDnsRecord_tabFree.
  - apply parseDnsRecord_wire.
Qed.

(** C10: [parseDnsRecord] throws exactly when the line has fewer than five
    tab-separated fields or its third field is not ["IN"]; otherwise the
    record is made of the first, second, fourth and fifth fields, and the
    result is the same when further tab-separated fields follow. *)
Theorem parseDnsRecord_throws_iff (s : string) :
  let parts := JS.split JS.tab s in
  (parseDnsRecord s = None <->
   (List.length parts < 5)%nat \/ JS.at_ parts 2 <> "IN")
  /\ parseDnsRecord s = fromFields (firstn 5 parts)
  /\ (forall extra : string,
        parseDnsRecord s <> None ->
        parseDnsRecord (s ++ JS.TAB ++ extra)%string = parseDnsRecord s).
Proof.
  intros parts. split; [|split].
  - unfold parseDnsRecord. fold parts.
    destruct (List.length parts <? 5)%nat eqn:Hlen; simpl.
    + apply Nat.ltb_lt in Hlen. split; auto.
    + apply Nat.ltb_ge in Hlen.
      destruct (String.eqb_spec (JS.at_ parts 2) "IN") as [Heq|Hne]; simpl.
      * split; [discriminate|]. intros [H|H]; [lia|contradiction].
      * split; auto.
  - unfold parseDnsRecord. fold parts.
    destruct parts as [|f0 [|f1 [|f2 [|f3 [|f4 rest]]]]]; try reflexivity.
    cbn. destruct (f2 =? "IN"); reflexivity.
  - intros extra Hok. unfold parseDnsRecord in *. fold parts in Hok.
    rewrite TAB_app, split_app_sep. fold parts.
    destruct (List.length parts <? 5)%nat eqn:Hlen; [contradiction|].
    apply Nat.ltb_ge in Hlen.
    assert (Hlen' : (List.length (parts ++ JS.split JS.tab extra) <? 5)%nat = false).
    { apply Nat.ltb_ge. rewrite length_app. lia. }
    rewrite Hlen'. unfold JS.at_.
    rewrite !app_nth1 by lia. reflexivity.
Qed.

(** ** The line of a record whose data holds tabs *)

(** The fields of the line of a record whose name and type hold no tab. *)
Lemma split_wire_fields (r : DnsRecord) :
  tabFree (name r) = true ->
  tabFree (type r) = true ->
  JS.split JS.tab (wire r)
  = [name r; JS.String_ (ttl r); "IN"; type r] ++ JS.split JS.tab (data r).
Proof.
  intros Hn Ht. rewrite split_wire.
  rewrite (split_field JS.tab (name r) Hn), (split_field JS.tab (type r) Ht).
  reflexivity.
Qed.

Lemma parse_wire_readBack (r : DnsRecord) :
  tabFree (name r) = true ->
  tabFree (type r) = true ->
  parseDnsRecord (wire r) = Some (readBack r).
Proof.
  intros Hn Ht. unfold parseDnsRecord, readBack.
  rewrite (split_wire_fields r Hn Ht).
  destruct (JS.split JS.tab (data r)) as [|h t] eqn:Hs;
    [destruct (split_not_nil JS.tab (data r) Hs)|].
  unfold JS.at_. cbn [app List.length nth Nat.ltb Nat.leb].
  rewrite String.eqb_refl, Number_String. reflexivity.
Qed.

Lemma readBack_tabFree (r : DnsRecord) :
  tabFree (data r) = true -> readBack r = r.
Proof.
  intros Hd. unfold readBack. rewrite (split_field JS.tab (data r) Hd).
  destruct r; reflexivity.
Qed.

(** ** The chunk of a line: what the reader decodes *)

Lemma received_eq (line : string) :
  received line = Encoding.dropBOM (Encoding.scalarValues line).
Proof.
  unfold received, Encoding.decode, Encoding.encode.
  rewrite string_of_list_byte_of_string. reflexivity.
Qed.

(** The surrogate U+D800 alone is received as U+FFFD, the four bytes of
    U+1F600 as they are, and a line without the byte order mark that
    starts it. *)
Example received_lone_surrogate :
  received (String (Encoding.byte 237)
                   (String (Encoding.byte 160) (String (Encoding.byte 128) "a")))
  = String (Encoding.byte 239)
           (String (Encoding.byte 191) (String (Encoding.byte 189) "a")).
Proof. vm_compute. reflexivity. Qed.

Example received_astral :
  received (String (Encoding.byte 240)
                   (String (Encoding.byte 159)
                           (String (Encoding.byte 152)
                                   (String (Encoding.byte 128) "a"))))
  = String (Encoding.byte 240)
           (String (Encoding.byte 159)
                   (String (Encoding.byte 152)
                           (String (Encoding.byte 128) "a"))).
Proof. vm_compute. reflexivity. Qed.

Example received_mark : received (Example.mark ++ "example.com") = "example.com".
Proof. vm_compute. reflexivity. Qed.

(** One step of [scalarValues]. *)
Lemma scalarValues_cons (a : ascii) (s1 : string) :
  Encoding.scalarValues (String a s1)
  = match s1 with
    | String b (String c rest) =>
        if Encoding.surrogate a b c then
          String (Encoding.byte 239)
                 (String (Encoding.byte 191)
                         (String (Encoding.byte 189)
                                 (Encoding.scalarValues rest)))
        else String a (Encoding.scalarValues s1)
    | _ => String a (Encoding.scalarValues s1)
    end.
Proof. destruct s1 as [|b [|c rest]]; reflexivity. Qed.

(** A character below 128 belongs to no surrogate. *)
Lemma surrogate_sep (x : ascii) :
  (nat_of_ascii x < 128)%nat ->
  forall a b, Encoding.surrogate x a b = false
              /\ Encoding.surrogate a x b = false
              /\ Encoding.surrogate a b x = false.
Proof.
  intros Hx a b. unfold Encoding.surrogate, Encoding.between.
  repeat split.
  - destruct (Ascii.eqb x (Encoding.byte 237)) eqn:He; [|reflexivity].
    apply Ascii.eqb_eq in He. subst x. vm_compute in Hx. lia.
  - destruct (160 <=? nat_of_ascii x)%nat eqn:Hle.
    + apply Nat.leb_le in Hle. lia.
    + rewrite andb_false_r. reflexivity.
  - destruct (128 <=? nat_of_ascii x)%nat eqn:Hle.
    + apply Nat.leb_le in Hle. lia.
    + rewrite !andb_false_r. reflexivity.
Qed.

(** The scalar values of a text are those of its fields. *)
Lemma scalarValues_sep (x : ascii) (rest : string) :
  (nat_of_ascii x < 128)%nat ->
  forall f,
    Encoding.scalarValues (f ++ String x rest)
    = (Encoding.scalarValues f ++ String x (Encoding.scalarValues rest))%string.
Proof.
  intros Hx.
  assert (Hhead : Encoding.scalarValues (String x rest)
                  = String x (Encoding.scalarValues rest)).
  { rewrite scalarValues_cons.
    destruct rest as [|b [|c rest']]; try reflexivity.
    destruct (surrogate_sep x Hx b c) as (-> & _ & _). reflexivity. }
  assert (Hgen : forall n f, (String.length f <= n)%nat ->
                   Encoding.scalarValues (f ++ String x rest)
                   = (Encoding.scalarValues f
                      ++ String x (Encoding.scalarValues rest))%string).
  { induction n as [|n IH]; intros f Hlen.
    - destruct f; [exact Hhead|simpl in Hlen; lia].
    - destruct f as [|a [|b [|c f']]].
      + exact Hhead.
      + change (String a "" ++ String x rest)%string
          with (String a (String x rest)).
        rewrite scalarValues_cons.
        destruct rest as [|r1 rest'].
        * reflexivity.
        * destruct (surrogate_sep x Hx a r1) as (_ & -> & _).
          rewrite Hhead. reflexivity.
      + change (String a (String b "") ++ String x rest)%string
          with (String a (String b (String x rest))).
        rewrite scalarValues_cons.
        destruct (surrogate_sep x Hx a b) as (_ & _ & ->).
        change (String b (String x rest)) with (String b "" ++ String x rest)%string.
        rewrite (IH (String b "")) by (simpl in *; lia).
        reflexivity.
      + change (String a (String b (String c f')) ++ String x rest)%string
          with (String a (String b (String c (f' ++ String x rest)))).
        rewrite (scalarValues_cons a (String b (String c (f' ++ String x rest)))).
        rewrite (scalarValues_cons a (String b (String c f'))).
        destruct (Encoding.surrogate a b c).
        * rewrite (IH f') by (simpl in *; lia). reflexivity.
        * change (String b (String c (f' ++ String x rest)))
            with (String b (String c f') ++ String x rest)%string.
          rewrite (IH (String b (String c f'))) by (simpl in *; lia).
          reflexivity. }
  intros f. apply (Hgen (String.length f)). lia.
Qed.

(** A text without the byte 237 holds no surrogate. *)
Lemma scalarValues_plain (s : string) :
  sepFree (Encoding.byte 237) s = true -> Encoding.scalarValues s = s.
Proof.
  unfold sepFree. induction s as [|a s IH]; [reflexivity|].
  simpl list_ascii_of_string. simpl forallb. intros Hs.
  apply andb_prop in Hs. destruct Hs as [Ha Hs].
  rewrite scalarValues_cons, (IH Hs).
  destruct s as [|b [|c rest]]; try reflexivity.
  unfold Encoding.surrogate.
  apply negb_true_iff in Ha. rewrite Ha. reflexivity.
Qed.

Lemma uint_string_plain (d : Decimal.uint) :
  sepFree (Encoding.byte 237) (NilEmpty.string_of_uint d) = true.
Proof. induction d; simpl; auto. Qed.

Lemma String_plain (n : JS.number) :
  Encoding.scalarValues (JS.String_ n) = JS.String_ n.
Proof.
  apply scalarValues_plain.
  destruct n as [z|]; [|reflexivity].
  unfold JS.String_, NilZero.string_of_int.
  destruct (Z.to_int z) as [d|d]; unfold NilZero.string_of_uint.
  - destruct d; try apply uint_string_plain; reflexivity.
  - destruct d; try (apply (uint_string_plain (_ d))); try reflexivity;
      unfold sepFree; simpl; apply uint_string_plain.
Qed.

(** The byte order mark of a line is in its first field. *)
Lemma dropBOM_sep (x : ascii) (f rest : string) :
  (nat_of_ascii x < 128)%nat ->
  Encoding.dropBOM (f ++ String x rest)
  = (Encoding.dropBOM f ++ String x rest)%string.
Proof.
  intros Hx.
  assert (Hno : forall n, (128 <= n)%nat -> (n < 256)%nat ->
                          Ascii.eqb x (Encoding.byte n) = false).
  { intros n Hn Hn'. destruct (Ascii.eqb x (Encoding.byte n)) eqn:He;
      [|reflexivity].
    apply Ascii.eqb_eq in He. subst x. unfold Encoding.byte in Hx.
    rewrite nat_ascii_embedding in Hx by exact Hn'. lia. }
  destruct f as [|a [|b [|c f']]]; simpl.
  - destruct rest as [|r1 [|r2 rest']]; try reflexivity.
    rewrite (Hno 239%nat) by lia. reflexivity.
  - destruct rest as [|r1 rest']; try reflexivity.
    rewrite (Hno 187%nat) by lia. rewrite andb_false_r. reflexivity.
  - rewrite (Hno 191%nat) by lia. rewrite andb_false_r. reflexivity.
  - destruct (_ && _); reflexivity.
Qed.

Lemma byte_above (x : ascii) (n : nat) :
  (nat_of_ascii x < 128)%nat -> (128 <= n)%nat -> (n < 256)%nat ->
  Ascii.eqb (Encoding.byte n) x = false.
Proof.
  intros Hx Hn Hn'. destruct (Ascii.eqb (Encoding.byte n) x) eqn:He;
    [|reflexivity].
  apply Ascii.eqb_eq in He. subst x. unfold Encoding.byte in Hx.
  rewrite nat_ascii_embedding in Hx by exact Hn'. lia.
Qed.

Lemma sepFree_cons (x a : ascii) (s : string) :
  sepFree x (String a s) = negb (Ascii.eqb a x) && sepFree x s.
Proof. reflexivity. Qed.

(** U+FFFD brings no character below 128 into a text. *)
Lemma scalarValues_sepFree (x : ascii) :
  (nat_of_ascii x < 128)%nat ->
  forall s, sepFree x s = true ->
            sepFree x (Encoding.scalarValues s) = true.
Proof.
  intros Hx.
  assert (Hgen : forall n s, (String.length s <= n)%nat ->
                   sepFree x s = true ->
                   sepFree x (Encoding.scalarValues s) = true).
  { induction n as [|n IH]; intros s Hlen Hs.
    - destruct s; [reflexivity|simpl in Hlen; lia].
    - destruct s as [|a s1]; [reflexivity|].
      rewrite scalarValues_cons.
      rewrite sepFree_cons in Hs. apply andb_prop in Hs.
      destruct Hs as [Ha Hs1].
      assert (Hskip : sepFree x (String a (Encoding.scalarValues s1)) = true).
      { rewrite sepFree_cons, Ha. apply IH; [simpl in Hlen; lia|exact Hs1]. }
      destruct s1 as [|b [|c rest]]; try exact Hskip.
      destruct (Encoding.surrogate a b c); [|exact Hskip].
      rewrite !sepFree_cons in Hs1.
      apply andb_prop in Hs1. destruct Hs1 as [_ Hs1].
      apply andb_prop in Hs1. destruct Hs1 as [_ Hrest].
      rewrite !sepFree_cons.
      rewrite !(byte_above x) by (exact Hx || lia).
      apply IH; [simpl in Hlen; lia|exact Hrest]. }
  intros s. apply (Hgen (String.length s)). lia.
Qed.

Lemma dropBOM_sepFree (x : ascii) (s : string) :
  sepFree x s = true -> sepFree x (Encoding.dropBOM s) = true.
Proof.
  intros Hs. destruct s as [|a [|b [|c rest]]]; try exact Hs.
  unfold Encoding.dropBOM. destruct (_ && _); [|exact Hs].
  rewrite !sepFree_cons in Hs.
  apply andb_prop in Hs. destruct Hs as [_ Hs].
  apply andb_prop in Hs. destruct Hs as [_ Hs].
  apply andb_prop in Hs. destruct Hs as [_ Hs]. exact Hs.
Qed.

Lemma tab_below : (nat_of_ascii JS.tab < 128)%nat.
Proof. vm_compute. lia. Qed.

(** The line that the reader decodes is the line of the record carried. *)
Lemma received_wire (r : DnsRecord) : received (wire r) = wire (carried r).
Proof.
  rewrite received_eq, !wire_unfold.
  rewrite !(scalarValues_sep JS.tab) by exact tab_below.
  rewrite String_plain.
  rewrite (dropBOM_sep JS.tab) by exact tab_below.
  reflexivity.
Qed.

Lemma carried_tabFree (r : DnsRecord) :
  tabFree (name r) = true -> tabFree (type r) = true ->
  tabFree (name (carried r)) = true /\ tabFree (type (carried r)) = true.
Proof.
  intros Hn Ht. unfold tabFree, carried. simpl. split.
  - apply dropBOM_sepFree, scalarValues_sepFree; [exact tab_below|exact Hn].
  - apply scalarValues_sepFree; [exact tab_below|exact Ht].
Qed.

Lemma intact_carried (r : DnsRecord) : intact r = true -> carried r = r.
Proof.
  unfold intact. intros H.
  apply andb_prop in H. destruct H as [H Hd].
  apply andb_prop in H. destruct H as [Hn Ht].
  apply String.eqb_eq in Hn, Ht, Hd.
  destruct r as [n t l d]. unfold carried in *. simpl in *.
  rewrite Hn, Ht, Hd. reflexivity.
Qed.

Lemma parse_received_readBack (r : DnsRecord) :
  tabFree (name r) = true ->
  tabFree (type r) = true ->
  parseDnsRecord (received (wire r)) = Some (readBack (carried r)).
Proof.
  intros Hn Ht. rewrite received_wire.
  destruct (carried_tabFree r Hn Ht) as [Hn' Ht'].
  apply parse_wire_readBack; assumption.
Qed.

(** The reader parses every line of records whose names and types hold no
    tab. *)
Lemma readAll_carried (accepted : list DnsRecord) :
  Forall (fun r => tabFree (name r) = true /\ tabFree (type r) = true)
         accepted ->
  readAll (map wire accepted)
  = Some (map (fun a => readBack (carried a)) accepted).
Proof.
  induction 1 as [|r accepted [Hn Ht] Hf IH]; simpl; [reflexivity|].
  unfold parseDnsRecordChunk. fold (received (wire r)).
  rewrite (parse_received_readBack r Hn Ht), IH. reflexivity.
Qed.

Lemma readBack_carried (r : DnsRecord) :
  tabFreeRecord r = true -> intact r = true -> readBack (carried r) = r.
Proof.
  intros Hfree Hi. rewrite (intact_carried r Hi).
  apply readBack_tabFree.
  unfold tabFreeRecord in Hfree. apply andb_prop in Hfree.
  destruct Hfree as [_ Hd]. exact Hd.
Qed.

(** The reader gives back the records that hold no tab and that the stream
    carries as they are. *)
Lemma readAll_intact (accepted : list DnsRecord) :
  Forall (fun r => tabFreeRecord r = true /\ intact r = true) accepted ->
  readAll (map wire accepted) = Some accepted.
Proof.
  intros Hf. rewrite readAll_carried.
  - f_equal. induction Hf as [|r accepted [Hfree Hi] Hf IH]; simpl;
      [reflexivity|].
    rewrite (readBack_carried r Hfree Hi), IH. reflexivity.
  - eapply Forall_impl; [|exact Hf]. intros r [Hfree _].
    unfold tabFreeRecord in Hfree. apply andb_prop in Hfree.
    destruct Hfree as [Hfree _]. apply andb_prop in Hfree. exact Hfree.
Qed.

(** ** Wildcard detection *)

Lemma arr_includes_In (arr : list string) (x : string) :
  JS.arr_includes arr x = true <-> In x arr.
Proof.
  unfold JS.arr_includes. rewrite existsb_exists. split.
  - intros [y [Hy Heq]]. apply String.eqb_eq in Heq. subst. exact Hy.
  - intros Hin. exists x. split; [exact Hin|apply String.eqb_refl].
Qed.

Lemma arr_includes_false (arr : list string) (x : string) :
  JS.arr_includes arr x = false <-> ~ In x arr.
Proof.
  split.
  - intros Hf Hin. apply arr_includes_In in Hin. congruence.
  - intros Hn. destruct (JS.arr_includes arr x) eqn:E; [|reflexivity].
    apply arr_includes_In in E. contradiction.
Qed.

Lemma arr_includes_app (a b : list string) (x : string) :
  JS.arr_includes (a ++ b) x = JS.arr_includes a x || JS.arr_includes b x.
Proof. unfold JS.arr_includes. apply existsb_app. Qed.

Lemma isAddressType_cases (t : string) :
  isAddressType t = true -> t = "A" \/ t = "AAAA" \/ t = "CNAME".
Proof.
  unfold isAddressType. rewrite arr_includes_In. simpl.
  intros [H|[H|[H|[]]]]; auto.
Qed.

(** On address-bearing records the key [type-data] tells the type and the
    data apart. *)
Lemma groupKey_inj (r r' : DnsRecord) :
  isAddressType (type r) = true -> isAddressType (type r') = true ->
  groupKey r = groupKey r' -> type r = type r' /\ data r = data r'.
Proof.
  intros Hr Hr'. unfold groupKey.
  apply isAddressType_cases in Hr. apply isAddressType_cases in Hr'.
  destruct Hr as [-> | [-> | ->]]; destruct Hr' as [-> | [-> | ->]];
    simpl; intros [= Heq]; auto.
Qed.

Lemma sameGroup_true (r r' : DnsRecord) :
  sameGroup r r' = true <-> type r' = type r /\ data r' = data r.
Proof.
  unfold sameGroup. rewrite andb_true_iff, !String.eqb_eq. reflexivity.
Qed.

Lemma sameGroup_refl (r : DnsRecord) : sameGroup r r = true.
Proof. apply sameGroup_true. auto. Qed.

Lemma sameGroup_key (r r' : DnsRecord) :
  isAddressType (type r) = true ->
  sameGroup r r' = isAddressType (type r') && (groupKey r' =? groupKey r).
Proof.
  intros Hr.
  destruct (sameGroup r r') eqn:Hs.
  - apply sameGroup_true in Hs. destruct Hs as [Ht Hd].
    unfold groupKey. rewrite Ht, Hd, Hr, String.eqb_refl. reflexivity.
  - destruct (isAddressType (type r')) eqn:Hr'; [|reflexivity].
    destruct (String.eqb_spec (groupKey r') (groupKey r)) as [Heq|]; [|reflexivity].
    apply groupKey_inj in Heq; auto.
    apply sameGroup_true in Heq. congruence.
Qed.

Lemma counter_get_incr (o : Counter) (k key : string) :
  counter_get (counter_incr o k) key =
  (counter_get o key + if String.eqb k key then 1 else 0)%nat.
Proof.
  induction o as [|[k' n] o IH]; simpl.
  - destruct (k =? key); reflexivity.
  - destruct (String.eqb_spec k' k) as [->|Hkk]; simpl.
    + destruct (k =? key); lia.
    + destruct (String.eqb_spec k' key) as [->|Hk'].
      * apply String.eqb_neq in Hkk. rewrite String.eqb_sym in Hkk.
        rewrite Hkk. lia.
      * exact IH.
Qed.

Lemma countGroups_fold (records : list DnsRecord) (o : Counter) (key : string) :
  counter_get
    (fold_left
       (fun o record =>
          if isAddressType (type record) then counter_incr o (groupKey record)
          else o) records o) key =
  (counter_get o key +
   List.length (filter (fun r => isAddressType (type r) && String.eqb (groupKey r) key) records))%nat.
Proof.
  revert o. induction records as [|r records IH]; intros o; simpl; [lia|].
  rewrite IH. destruct (isAddressType (type r)); simpl; [|reflexivity].
  rewrite counter_get_incr. destruct (groupKey r =? key); simpl; lia.
Qed.

(** After the first loop, the table holds the size of the group of every
    address-bearing record. *)
Lemma countGroups_groupSize (records : list DnsRecord) (r : DnsRecord) :
  isAddressType (type r) = true ->
  counter_get (countGroups records) (groupKey r) = groupSize records r.
Proof.
  intros Hr. unfold countGroups, groupSize.
  rewrite countGroups_fold. simpl. f_equal.
  apply filter_ext. intros r'. symmetry. apply sameGroup_key. exact Hr.
Qed.

Section Wildcards.

Context `{Externals}.

(** The branch taken by the second loop is the condition of the
    specification. *)
Lemma classification (records : list DnsRecord) (percent : Q) (r : DnsRecord) :
  isAddressType (type r)
  && negb (keptAsIs (countGroups records) records percent r)
  = wildcardEvidence records percent r.
Proof.
  unfold wildcardEvidence, keptAsIs, Qltb.
  destruct (isAddressType (type r)) eqn:Hr; [|reflexivity]. simpl.
  rewrite (countGroups_groupSize records r Hr).
  rewrite negb_orb, !negb_involutive. reflexivity.
Qed.

Lemma wildcardEvidence_sameGroup (records : list DnsRecord) (percent : Q)
      (r r' : DnsRecord) :
  type r = type r' -> data r = data r' ->
  wildcardEvidence records percent r = wildcardEvidence records percent r'.
Proof.
  intros Ht Hd. unfold wildcardEvidence, groupSize, recordTypeLength, sameGroup.
  rewrite Ht, Hd. reflexivity.
Qed.

Lemma wildcardEvidence_address (records : list DnsRecord) (percent : Q)
      (r : DnsRecord) :
  wildcardEvidence records percent r = true -> isAddressType (type r) = true.
Proof.
  unfold wildcardEvidence. intros Hw.
  apply andb_true_iff in Hw. destruct Hw as [Hw _].
  apply andb_true_iff in Hw. tauto.
Qed.

Lemma detect_fold (domain : string) (records : list DnsRecord) (percent : Q)
      (l : list DnsRecord) (found : list string) (out : list DnsRecord) :
  snd (fold_left (detectStep domain (countGroups records) records percent) l
                 (found, out))
  = out ++ collapse domain (wildcardEvidence records percent) found l.
Proof.
  revert found out. induction l as [|r l IH]; intros found out; simpl.
  - rewrite app_nil_r. reflexivity.
  - rewrite <- classification.
    destruct (isAddressType (type r)); simpl.
    + destruct (keptAsIs (countGroups records) records percent r); simpl.
      * rewrite IH, <- app_assoc. reflexivity.
      * destruct (JS.arr_includes found (groupKey r)); simpl.
        -- apply IH.
        -- rewrite IH, <- app_assoc. reflexivity.
    + rewrite IH, <- app_assoc. reflexivity.
Qed.

(** [detectWildcardRecords] is the collapse of the records that show the
    condition of the specification. *)
Lemma detect_collapse (domain : string) (records : list DnsRecord) (percent : Q) :
  detectWildcardRecords domain records percent
  = collapse domain (wildcardEvidence records percent) [] records.
Proof. unfold detectWildcardRecords. apply detect_fold. Qed.

End Wildcards.

(** *** The collapse of the groups *)

Section Collapse.

Variable domain : string.
Variable ev : DnsRecord -> bool.

(** Where a record of the result comes from. *)
Lemma collapse_origin (records : list DnsRecord) :
  forall (found : list string) (o : DnsRecord),
    In o (collapse domain ev found records) ->
    exists r, In r records /\
              ((o = r /\ ev r = false) \/
               (o = asWildcard domain r /\ ev r = true
                /\ ~ In (groupKey r) found)).
Proof.
  induction records as [|h rest IH]; intros found o Hin; simpl in Hin.
  - contradiction.
  - destruct (ev h) eqn:Hev.
    + destruct (JS.arr_includes found (groupKey h)) eqn:Hf.
      * destruct (IH _ _ Hin) as [r [Hr Hc]]. exists r. split; [right; exact Hr|exact Hc].
      * destruct Hin as [<- | Hin].
        -- exists h. split; [left; reflexivity|]. right.
           apply arr_includes_false in Hf. auto.
        -- destruct (IH _ _ Hin) as [r [Hr Hc]]. exists r.
           split; [right; exact Hr|].
           destruct Hc as [Hc | [Ho [He Hn]]]; [left; exact Hc|].
           right. split; [exact Ho|]. split; [exact He|].
           intros Hin'. apply Hn. apply in_or_app. left. exact Hin'.
    + destruct Hin as [<- | Hin].
      * exists h. split; [left; reflexivity|]. left. auto.
      * destruct (IH _ _ Hin) as [r [Hr Hc]]. exists r. split; [right; exact Hr|exact Hc].
Qed.

Lemma collapse_length (records : list DnsRecord) :
  forall found : list string,
    (List.length (collapse domain ev found records) <= List.length records)%nat.
Proof.
  induction records as [|h rest IH]; intros found; simpl; [lia|].
  destruct (ev h); [destruct (JS.arr_includes found (groupKey h))|]; simpl.
  - specialize (IH found). lia.
  - specialize (IH (found ++ [groupKey h])). lia.
  - specialize (IH found). lia.
Qed.

Hypothesis ev_group :
  forall r r', type r = type r' -> data r = data r' -> ev r = ev r'.

Lemma ev_asWildcard (r : DnsRecord) : ev (asWildcard domain r) = ev r.
Proof. apply ev_group; reflexivity. Qed.

(** The records that are not collapsed go through, in their order. *)
Lemma collapse_kept (records : list DnsRecord) :
  forall found : list string,
    filter (fun r => negb (ev r)) (collapse domain ev found records)
    = filter (fun r => negb (ev r)) records.
Proof.
  induction records as [|h rest IH]; intros found; simpl; [reflexivity|].
  destruct (ev h) eqn:Hev; simpl.
  - destruct (JS.arr_includes found (groupKey h)); simpl.
    + apply IH.
    + rewrite ev_asWildcard, Hev. simpl. apply IH.
  - rewrite Hev. simpl. f_equal. apply IH.
Qed.

Hypothesis ev_address : forall r, ev r = true -> isAddressType (type r) = true.

Lemma sameGroup_groupKey (r r' : DnsRecord) :
  sameGroup r r' = true -> groupKey r' = groupKey r.
Proof.
  intros Hs. apply sameGroup_true in Hs. destruct Hs as [Ht Hd].
  unfold groupKey. rewrite Ht, Hd. reflexivity.
Qed.

(** A collapsed group leaves one record in the result: the wildcard
    record made from its first member. *)
Lemma collapse_group (r : DnsRecord) (records : list DnsRecord) :
  ev r = true ->
  forall found : list string,
    filter (sameGroup r) (collapse domain ev found records)
    = if JS.arr_includes found (groupKey r) then []
      else match find (sameGroup r) records with
           | Some r0 => [asWildcard domain r0]
           | None => []
           end.
Proof.
  intros Hr. induction records as [|h rest IH]; intros found; simpl.
  - destruct (JS.arr_includes found (groupKey r)); reflexivity.
  - destruct (sameGroup r h) eqn:Hs.
    + assert (Hev : ev h = true).
      { apply sameGroup_true in Hs. destruct Hs as [Ht Hd].
        rewrite <- Hr. apply ev_group; assumption. }
      rewrite Hev. rewrite (sameGroup_groupKey _ _ Hs).
      destruct (JS.arr_includes found (groupKey r)) eqn:Hf.
      * rewrite IH, Hf. reflexivity.
      * simpl.
        assert (Hsw : sameGroup r (asWildcard domain h) = true) by exact Hs.
        rewrite Hsw. f_equal.
        rewrite IH, arr_includes_app. simpl.
        rewrite String.eqb_refl, orb_true_r. reflexivity.
    + destruct (ev h) eqn:Hev.
      * assert (Hk : (groupKey r =? groupKey h) = false).
        { apply String.eqb_neq. intros Heq.
          apply groupKey_inj in Heq; auto.
          destruct Heq as [Ht Hd].
          assert (Hs' : sameGroup r h = true)
            by (apply sameGroup_true; split; congruence).
          congruence. }
        destruct (JS.arr_includes found (groupKey h)).
        -- apply IH.
        -- simpl.
           assert (Hsw : sameGroup r (asWildcard domain h) = false) by exact Hs.
           rewrite Hsw, IH, arr_includes_app. simpl.
           rewrite Hk, orb_false_r. reflexivity.
      * simpl. rewrite Hs. apply IH.
Qed.

(** Records with pairwise different identities keep pairwise different
    identities. *)
Lemma collapse_NoDup (records : list DnsRecord) :
  NoDup (map identity records) ->
  forall found : list string,
    NoDup (map identity (collapse domain ev found records)).
Proof.
  induction records as [|h rest IH]; intros Hnd found; simpl.
  - constructor.
  - simpl in Hnd. inversion Hnd as [|? ? Hh Hrest]; subst.
    destruct (ev h) eqn:Hev.
    + destruct (JS.arr_includes found (groupKey h)) eqn:Hf.
      * apply IH. exact Hrest.
      * simpl. constructor; [|apply IH; exact Hrest].
        intros Hin. apply in_map_iff in Hin.
        destruct Hin as [o [Hid Ho]].
        apply collapse_origin in Ho.
        destruct Ho as [r [Hr [[-> Her] | [-> [Her Hnf]]]]].
        -- unfold identity in Hid. simpl in Hid.
           injection Hid as _ Ht Hd.
           rewrite (ev_group r h Ht Hd) in Her. congruence.
        -- unfold identity in Hid. simpl in Hid.
           injection Hid as Ht Hd.
           apply Hnf. apply in_or_app. right. left.
           unfold groupKey. rewrite Ht, Hd. reflexivity.
    + simpl. constructor; [|apply IH; exact Hrest].
      intros Hin. apply in_map_iff in Hin.
      destruct Hin as [o [Hid Ho]].
      apply collapse_origin in Ho.
      destruct Ho as [r [Hr [[-> Her] | [-> [Her Hnf]]]]].
      * apply Hh. rewrite <- Hid. apply in_map. exact Hr.
      * unfold identity in Hid. simpl in Hid.
        injection Hid as _ Ht Hd.
        rewrite (ev_group r h Ht Hd) in Her. congruence.
Qed.

End Collapse.

(** *** The statements on [detectWildcardRecords] *)

Lemma Qnat_self_ratio (n : nat) : (1 <= n)%nat -> (Qnat n / Qnat n == 1)%Q.
Proof.
  intros Hn. unfold Qdiv. apply Qmult_inv_r.
  unfold Qnat, Qeq. simpl. lia.
Qed.

Lemma Qnat_half_le (m n : nat) : (m <= 2 * n)%nat -> (Qnat m / 2 <= Qnat n)%Q.
Proof.
  intros Hmn. apply Qle_shift_div_r; [reflexivity|].
  unfold Qnat, Qle. simpl. lia.
Qed.

Section WildcardStatements.

Context `{Externals}.

Variable domain : string.
Variable records : list DnsRecord.
Variable percent : Q.

Let out := detectWildcardRecords domain records percent.
Let evidence := wildcardEvidence records percent.

Lemma evidence_iff (r : DnsRecord) :
  evidence r = true <->
  isAddressType (type r) = true
  /\ (percent <= Qnat (groupSize records r) / Qnat (recordTypeLength records r))%Q
  /\ (Qnat (List.length subdomainsRecords) / 2 <= Qnat (recordTypeLength records r))%Q.
Proof.
  unfold evidence, wildcardEvidence.
  rewrite !andb_true_iff, !Qle_bool_iff. tauto.
Qed.

Lemma out_kept :
  filter (fun r => negb (evidence r)) out
  = filter (fun r => negb (evidence r)) records.
Proof.
  unfold out. rewrite detect_collapse. apply collapse_kept.
  intros r r'. apply wildcardEvidence_sameGroup.
Qed.

Lemma out_group (r : DnsRecord) :
  In r records -> evidence r = true ->
  exists r0, find (sameGroup r) records = Some r0
             /\ filter (sameGroup r) out = [asWildcard domain r0].
Proof.
  intros Hin Hev. unfold out. rewrite detect_collapse.
  rewrite (collapse_group domain (wildcardEvidence records percent)).
  - simpl. destruct (find (sameGroup r) records) as [r0|] eqn:Hf.
    + exists r0. auto.
    + exfalso. apply (find_none _ _ Hf) in Hin.
      rewrite sameGroup_refl in Hin. discriminate.
  - intros a b. apply wildcardEvidence_sameGroup.
  - apply wildcardEvidence_address.
  - exact Hev.
Qed.

Lemma out_origin (o : DnsRecord) :
  In o out ->
  exists r, In r records /\ (o = r \/ o = asWildcard domain r).
Proof.
  unfold out. rewrite detect_collapse. intros Hin.
  apply collapse_origin in Hin. destruct Hin as [r [Hr Hc]].
  exists r. split; [exact Hr|]. tauto.
Qed.

(** All the [A] records on one address: one wildcard record is left. *)
Lemma out_all_same (ip : string) :
  (forall r, In r records -> type r = "A" -> data r = ip) ->
  (1 <= List.length (filter (fun r => String.eqb (type r) "A") records))%nat ->
  (List.length subdomainsRecords
   <= 2 * List.length (filter (fun r => String.eqb (type r) "A") records))%nat ->
  (percent <= 1)%Q ->
  exists t, filter (fun r => String.eqb (type r) "A") out
            = [mkDnsRecord ("*." ++ domain) "A" t ip].
Proof.
  intros Hip Hn Hmin Hp.
  assert (Hex : exists r1, In r1 records /\ String.eqb (type r1) "A" = true).
  { destruct (filter (fun r => String.eqb (type r) "A") records)
      as [|r1 rest] eqn:HA; [simpl in Hn; lia|].
    exists r1. apply filter_In with (f := fun r => String.eqb (type r) "A").
    rewrite HA. left. reflexivity. }
  destruct Hex as [r1 [Hr1 Ht1]]. apply String.eqb_eq in Ht1.
  pose proof (Hip r1 Hr1 Ht1) as Hd1.
  assert (Hsame : forall r, In r records ->
                            sameGroup r1 r = String.eqb (type r) "A").
  { intros r Hr. unfold sameGroup. rewrite Ht1, Hd1.
    destruct (String.eqb_spec (type r) "A") as [Ht|Ht]; [|reflexivity].
    rewrite (Hip r Hr Ht), String.eqb_refl. reflexivity. }
  assert (Htl : recordTypeLength records r1
                = List.length (filter (fun r => String.eqb (type r) "A") records)).
  { unfold recordTypeLength. rewrite Ht1. reflexivity. }
  assert (Hgs : groupSize records r1
                = List.length (filter (fun r => String.eqb (type r) "A") records)).
  { unfold groupSize. f_equal. apply filter_ext_in. exact Hsame. }
  assert (Hev : evidence r1 = true).
  { apply evidence_iff. rewrite Hgs, Htl, Ht1.
    split; [reflexivity|]. split.
    - rewrite Qnat_self_ratio by exact Hn. exact Hp.
    - apply Qnat_half_le. exact Hmin. }
  destruct (out_group r1 Hr1 Hev) as [r0 [Hfind Hout]].
  apply find_some in Hfind. destruct Hfind as [Hr0 Hs0].
  apply sameGroup_true in Hs0. destruct Hs0 as [Ht0 Hd0].
  exists (ttl r0).
  assert (Hfilter : filter (fun r => String.eqb (type r) "A") out
                    = filter (sameGroup r1) out).
  { apply filter_ext_in. intros o Ho.
    destruct (out_origin o Ho) as [r [Hr [-> | ->]]].
    - symmetry. apply Hsame. exact Hr.
    - symmetry. exact (Hsame r Hr). }
  rewrite Hfilter, Hout. unfold asWildcard.
  rewrite Ht0, Hd0, Ht1, Hd1. reflexivity.
Qed.

(** C2: an address-bearing record is collapsed exactly when its group
    holds at least [percent] of the records of its type and these are at
    least half as many as the well-known subdomains; the records that are
    not collapsed go through unchanged and in order; every collapsed group
    leaves exactly one record, named [*.domain], with the type and data
    of the group; and when every [A] record has the same address, the
    minimum being met, the only [A] record left is the wildcard one. *)
Theorem detectWildcardRecords_classifies :
  (forall r,
      isAddressType (type r)
      && negb (keptAsIs (countGroups records) records percent r)
      = evidence r)
  /\ (forall r,
         evidence r = true <->
         isAddressType (type r) = true
         /\ (percent <= Qnat (groupSize records r)
                        / Qnat (recordTypeLength records r))%Q
         /\ (Qnat (List.length subdomainsRecords) / 2
             <= Qnat (recordTypeLength records r))%Q)
  /\ filter (fun r => negb (evidence r)) out
     = filter (fun r => negb (evidence r)) records
  /\ (forall r,
         In r records -> evidence r = true ->
         exists r0,
           find (sameGroup r) records = Some r0
           /\ filter (sameGroup r) out
              = [mkDnsRecord ("*." ++ domain) (type r) (ttl r0) (data r)])
  /\ (forall ip,
         (forall r, In r records -> type r = "A" -> data r = ip) ->
         (1 <= List.length (filter (fun r => String.eqb (type r) "A") records))%nat ->
         (List.length subdomainsRecords
          <= 2 * List.length (filter (fun r => String.eqb (type r) "A") records))%nat ->
         (percent <= 1)%Q ->
         exists t, filter (fun r => String.eqb (type r) "A") out
                   = [mkDnsRecord ("*." ++ domain) "A" t ip]).
Proof.
  split; [|split; [|split; [|split]]].
  - intros r. apply classification.
  - exact evidence_iff.
  - exact out_kept.
  - intros r Hin Hev.
    destruct (out_group r Hin Hev) as [r0 [Hfind Hout]].
    exists r0. split; [exact Hfind|]. rewrite Hout.
    apply find_some in Hfind. destruct Hfind as [_ Hs].
    apply sameGroup_true in Hs. destruct Hs as [Ht Hd].
    unfold asWildcard. rewrite Ht, Hd. reflexivity.
  - exact out_all_same.
Qed.

(** C9: every record of the result has the ttl, the type and the data of
    a record of the input, which it equals but possibly for its name, then
    [*.domain]; and the result is not longer than the input. *)
Theorem detectWildcardRecords_frame :
  Forall (fun o =>
            exists r, In r records
                      /\ ttl o = ttl r /\ type o = type r /\ data o = data r
                      /\ (o = r \/ o = mkDnsRecord ("*." ++ domain)
                                         (type r) (ttl r) (data r)))
         out
  /\ (List.length out <= List.length records)%nat.
Proof.
  split.
  - apply Forall_forall. intros o Ho.
    destruct (out_origin o Ho) as [r [Hr [-> | ->]]]; exists r;
      repeat split; auto.
  - unfold out. rewrite detect_collapse. apply collapse_length.
Qed.

End WildcardStatements.

(** ** The discovery run: what each function changes *)

Lemma Inferred_refl (st : Run) : Inferred st st.
Proof.
  unfold Inferred. repeat split; try reflexivity.
  exists []. rewrite app_nil_r. repeat split; [constructor|contradiction].
Qed.

Lemma Inferred_trans (st1 st2 st3 : Run) :
  Inferred st1 st2 -> Inferred st2 st3 -> Inferred st1 st3.
Proof.
  intros (Hc1 & Hr1 & Hcl1 & Hi1 & Hq1 & a1 & Ha1 & Hn1 & Hd1)
         (Hc2 & Hr2 & Hcl2 & Hi2 & Hq2 & a2 & Ha2 & Hn2 & Hd2).
  unfold Inferred. repeat split; try congruence.
  exists (a1 ++ a2). split; [|split].
  - rewrite Ha2, Ha1, app_assoc. reflexivity.
  - apply NoDup_app; [exact Hn1|exact Hn2|].
    intros s Hs1 Hs2. apply (Hd2 s Hs2). rewrite Ha1.
    apply in_or_app. right. exact Hs1.
  - intros s Hs Hin. apply in_app_or in Hs. destruct Hs as [Hs|Hs].
    + apply (Hd1 s Hs Hin).
    + apply (Hd2 s Hs). rewrite Ha1. apply in_or_app. left. exact Hin.
Qed.

Lemma Inferred_fold {A : Type} (f : Run -> A -> Run) (l : list A) :
  (forall st x, Inferred st (f st x)) ->
  forall st, Inferred st (fold_left f l st).
Proof.
  intros Hf. induction l as [|x l IH]; intros st; simpl.
  - apply Inferred_refl.
  - apply (Inferred_trans _ (f st x)); [apply Hf|apply IH].
Qed.

Lemma sendRecord_Inferred (domain : string) (st : Run) (r : DnsRecord) :
  Inferred st (sendRecord domain st r).
Proof.
  unfold sendRecord, writer_write.
  destruct (negb _ && _); [|apply Inferred_refl].
  simpl. destruct (closed st); unfold Inferred; simpl;
    repeat split; try reflexivity;
    exists []; rewrite app_nil_r; repeat split;
    try constructor; contradiction.
Qed.

Lemma addSubdomain_Inferred (domain : string) (st : Run) (value : string) :
  Inferred st (addSubdomain domain st value).
Proof.
  unfold addSubdomain.
  destruct (JS.endsWith _ ("." ++ domain)); [|apply Inferred_refl].
  match goal with
  | |- context [JS.arr_includes _ ?s] =>
      destruct (JS.arr_includes (subdomainsExtra st) s) eqn:Hin
  end; [apply Inferred_refl|].
  apply arr_includes_false in Hin. simpl.
  unfold Inferred; simpl. repeat split; try reflexivity.
  eexists. split; [reflexivity|]. split.
  - constructor; [intros []|constructor].
  - intros s [<- | []]. exact Hin.
Qed.

Lemma inferSPF_Inferred (domain : string) (st : Run) (spf : string) :
  Inferred st (inferSPF domain st spf).
Proof.
  unfold inferSPF.
  repeat match goal with
         | |- context [if ?b then _ else _] => destruct b
         end; try apply addSubdomain_Inferred; apply Inferred_refl.
Qed.

Lemma inferNS_Inferred (domain : string) (st : Run) (ns : list DnsRecord) :
  Inferred st (inferNS domain st ns).
Proof.
  unfold inferNS. apply Inferred_fold. clear st. intros st r.
  destruct (JS.includes (data r) domain).
  - eapply Inferred_trans; [apply sendRecord_Inferred|apply addSubdomain_Inferred].
  - apply sendRecord_Inferred.
Qed.

Lemma inferMX_Inferred (domain : string) (st : Run) (records : list DnsRecord) :
  Inferred st (inferMX domain st records).
Proof.
  unfold inferMX. apply Inferred_fold. clear st. intros st r.
  destruct (JS.includes (data r) domain); [|apply Inferred_refl].
  destruct (1 <? _)%nat; [apply addSubdomain_Inferred|apply Inferred_refl].
Qed.

Lemma inferTXT_Inferred (domain : string) (st : Run) (records : list DnsRecord) :
  Inferred st (inferTXT domain st records).
Proof.
  unfold inferTXT. apply Inferred_fold. clear st. intros st r.
  destruct (_ && _); [|apply Inferred_refl].
  apply Inferred_fold. apply inferSPF_Inferred.
Qed.

Lemma sendRecord_fold_Inferred (domain : string) (st : Run) (records : list DnsRecord) :
  Inferred st (fold_left (sendRecord domain) records st).
Proof. apply Inferred_fold. apply sendRecord_Inferred. Qed.

(** *** The loop of [reqDone] *)

Lemma fresh_NoDup (queue : list string) :
  forall checked, NoDup checked -> NoDup (checked ++ fresh checked queue).
Proof.
  induction queue as [|s queue IH]; intros checked Hnd; simpl.
  - rewrite app_nil_r. exact Hnd.
  - destruct (negb (s =? "")); simpl; [|apply IH; exact Hnd].
    destruct (JS.arr_includes checked s) eqn:Hin; simpl; [apply IH; exact Hnd|].
    apply arr_includes_false in Hin.
    change (s :: fresh (checked ++ [s]) queue)
      with ([s] ++ fresh (checked ++ [s]) queue).
    rewrite app_assoc. apply IH.
    apply NoDup_app; [exact Hnd|constructor; [intros []|constructor]|].
    intros x Hx [<- | []]. contradiction.
Qed.

Lemma fresh_covers (queue : list string) :
  forall checked s,
    In s queue -> s <> "" -> In s (checked ++ fresh checked queue).
Proof.
  induction queue as [|h queue IH]; intros checked s Hin Hne; simpl.
  - contradiction.
  - destruct Hin as [-> | Hin].
    + apply String.eqb_neq in Hne. rewrite Hne. simpl.
      destruct (JS.arr_includes checked s) eqn:Hc; simpl.
      * apply arr_includes_In in Hc. apply in_or_app. left. exact Hc.
      * apply in_or_app. right. left. reflexivity.
    + destruct (negb (h =? "") && negb (JS.arr_includes checked h)).
      * change (h :: fresh (checked ++ [h]) queue)
          with ([h] ++ fresh (checked ++ [h]) queue).
        rewrite app_assoc. apply IH; assumption.
      * apply IH; assumption.
Qed.

Lemma drainQueue_fields (domain : string) (queue : list string) :
  forall st,
    let st' := drainQueue domain queue st in
    let new := fresh (subdomainsChecked st) queue in
    recordsHashes st' = recordsHashes st
    /\ written st' = written st
    /\ subdomainsExtra st' = subdomainsExtra st
    /\ closed st' = closed st
    /\ subdomainsChecked st' = subdomainsChecked st ++ new
    /\ runningChecks st' = (runningChecks st + Z.of_nat (List.length new))%Z
    /\ inflight st' = inflight st ++ map (subPending domain) new
    /\ issued st' = issued st ++ map (subQuery domain) new.
Proof.
  induction queue as [|s queue IH]; intros st; simpl.
  - rewrite !app_nil_r, Z.add_0_r. repeat split; reflexivity.
  - destruct (negb (s =? "") && negb (JS.arr_includes (subdomainsChecked st) s)).
    + match goal with
      | |- context [drainQueue domain queue ?x] => specialize (IH x)
      end.
      simpl in IH.
      destruct IH as (H1 & H2 & H3 & H4 & H5 & H6 & H7 & H8).
      rewrite H1, H2, H3, H4, H5, H6, H7, H8.
      rewrite <- !app_assoc. simpl.
      repeat split; try reflexivity. lia.
    + apply IH.
Qed.

Lemma reqDone_step (domain : string) (st : Run) :
  runningChecks st <> 1%Z ->
  reqDone domain st = with_runningChecks (runningChecks st - 1)%Z st.
Proof.
  intros Hrc. unfold reqDone. simpl.
  destruct (Z.eqb_spec (runningChecks st - 1) 0) as [Heq|Hne]; [lia|].
  simpl. destruct (Z.eqb_spec (runningChecks st - 1) 0); [lia|reflexivity].
Qed.

Lemma reqDone_drain (domain : string) (st : Run) :
  runningChecks st = 1%Z ->
  let st' := reqDone domain st in
  let new := fresh (subdomainsChecked st) (subdomainsExtra st) in
  recordsHashes st' = recordsHashes st
  /\ written st' = written st
  /\ subdomainsExtra st' = []
  /\ closed st' = match new with [] => true | _ :: _ => closed st end
  /\ subdomainsChecked st' = subdomainsChecked st ++ new
  /\ runningChecks st' = Z.of_nat (List.length new)
  /\ inflight st' = inflight st ++ map (subPending domain) new
  /\ issued st' = issued st ++ map (subQuery domain) new.
Proof.
  intros Hrc. unfold reqDone. simpl. rewrite Hrc. simpl.
  pose proof (drainQueue_fields domain (subdomainsExtra st)
                (with_runningChecks 0 st)) as Hd.
  simpl in Hd. destruct Hd as (H1 & H2 & H3 & H4 & H5 & H6 & H7 & H8).
  rewrite H6.
  destruct (fresh (subdomainsChecked st) (subdomainsExtra st)) as [|s new] eqn:Hnew;
    simpl List.length; simpl Z.of_nat.
  - simpl in *. repeat split; assumption || reflexivity.
  - replace (0 + Z.pos (Pos.of_succ_nat (List.length new)) =? 0)%Z with false
      by (symmetry; apply Z.eqb_neq; lia).
    simpl in *. repeat split; assumption || reflexivity || lia.
Qed.

(** ** The discovery run: its stages *)

Lemma remove_nth_split {A : Type} (l : list A) (i : nat) (a : A) :
  nth_error l i = Some a ->
  exists l1 l2, l = l1 ++ a :: l2 /\ remove_nth i l = l1 ++ l2.
Proof.
  intros Hn. apply nth_error_split in Hn.
  destruct Hn as (l1 & l2 & -> & <-).
  exists l1, l2. split; [reflexivity|].
  unfold remove_nth. induction l1 as [|x l1 IH]; simpl.
  - reflexivity.
  - f_equal. exact IH.
Qed.

Section Protocol.

Context `{Externals}.
Variable domain : string.
Variable options : GetAllDnsRecordsOptions.


Lemma accounted_reject (rc : Z) (l1 l2 : list Pending) (p : Pending)
      (called : list (string * string)) :
  accountedFor options rc (l1 ++ p :: l2) called ->
  rejects options (queryOf p) -> In (queryOf p) called ->
  accountedFor options rc (l1 ++ l2) called.
Proof.
  intros (k & Hrc & Hk & Hq) Hrej Hin.
  exists (S k). split; [|split].
  - rewrite Hrc, !length_app. simpl. f_equal. lia.
  - intros _. exists (queryOf p). auto.
  - intros _. left. lia.
Qed.

Lemma accounted_resolve (rc : Z) (l1 l2 : list Pending) (p : Pending)
      (called : list (string * string)) :
  accountedFor options rc (l1 ++ p :: l2) called ->
  ~ rejects options (queryOf p) ->
  accountedFor options (rc - 1) (l1 ++ l2) called.
Proof.
  intros (k & Hrc & Hk & Hq) Hres.
  exists k. split; [|split].
  - rewrite Hrc, !length_app. simpl. lia.
  - exact Hk.
  - intros Hex. destruct (Hq Hex) as [Hpos | (p' & Hp' & Hrej)]; [left; exact Hpos|].
    right. exists p'. split; [|exact Hrej].
    apply in_app_or in Hp'. apply in_or_app.
    destruct Hp' as [Hp' | [<- | Hp']]; auto. contradiction.
Qed.

(** When the last unit of the counter goes, nothing is in flight and
    every call so far resolved. *)
Lemma accounted_last (l1 l2 : list Pending) (p : Pending)
      (called : list (string * string)) :
  accountedFor options 1 (l1 ++ p :: l2) called ->
  ~ rejects options (queryOf p) ->
  l1 = [] /\ l2 = [] /\ forall q, In q called -> ~ rejects options q.
Proof.
  intros (k & Hrc & Hk & Hq) Hres.
  rewrite length_app in Hrc. simpl in Hrc.
  assert (Hl1 : List.length l1 = 0%nat) by lia.
  assert (Hl2 : List.length l2 = 0%nat) by lia.
  assert (Hk0 : k = 0%nat) by lia.
  apply length_zero_iff_nil in Hl1. apply length_zero_iff_nil in Hl2.
  subst. split; [reflexivity|]. split; [reflexivity|].
  intros q Hin Hrej.
  destruct (Hq (ex_intro _ q (conj Hin Hrej))) as [Hpos | (p' & [<- | []] & Hrej')].
  - lia.
  - contradiction.
Qed.

Lemma accounted_drained (called : list (string * string)) (new : list string) :
  (forall q, In q called -> ~ rejects options q) ->
  accountedFor options (Z.of_nat (List.length new)) (map (subPending domain) new)
               (called ++ map (subQuery domain) new).
Proof.
  intros Hall. exists 0%nat. split; [|split].
  - rewrite length_map, Nat.add_0_r. reflexivity.
  - lia.
  - intros (q & Hin & Hrej). right.
    apply in_app_or in Hin. destruct Hin as [Hin | Hin].
    + exfalso. exact (Hall q Hin Hrej).
    + apply in_map_iff in Hin. destruct Hin as (s & <- & Hs).
      exists (subPending domain s). split; [apply in_map; exact Hs|exact Hrej].
Qed.

Lemma handler_as_reqDone (h : Handler) (st : Run) (records : list DnsRecord) :
  h <> ThenNS ->
  exists st2, Inferred st st2
              /\ runHandler domain h st records = reqDone domain st2.
Proof.
  intros Hh. destruct h; [contradiction| | |]; simpl.
  - exists (fold_left (sendRecord domain) records st).
    split; [apply sendRecord_fold_Inferred|reflexivity].
  - exists (fold_left (sendRecord domain) records (inferMX domain st records)).
    split; [|reflexivity].
    eapply Inferred_trans; [apply inferMX_Inferred|apply sendRecord_fold_Inferred].
  - exists (fold_left (sendRecord domain) records (inferTXT domain st records)).
    split; [|reflexivity].
    eapply Inferred_trans; [apply inferTXT_Inferred|apply sendRecord_fold_Inferred].
Qed.

Lemma sendRecord_fold_control (st : Run) (records : list DnsRecord) :
  let st' := fold_left (sendRecord domain) records st in
  subdomainsChecked st' = subdomainsChecked st
  /\ subdomainsExtra st' = subdomainsExtra st
  /\ runningChecks st' = runningChecks st
  /\ closed st' = closed st
  /\ inflight st' = inflight st
  /\ issued st' = issued st.
Proof.
  revert st. induction records as [|r records IH]; intros st; simpl.
  - repeat split; reflexivity.
  - destruct (IH (sendRecord domain st r)) as (H1 & H2 & H3 & H4 & H5 & H6).
    rewrite H1, H2, H3, H4, H5, H6.
    unfold sendRecord, writer_write.
    destruct (negb _ && _); [|repeat split; reflexivity].
    change (closed (with_recordsHashes (recordsHashes st ++ [recordHash r]) st))
      with (closed st).
    destruct (closed st) eqn:Hcl; simpl; rewrite ?Hcl; repeat split; reflexivity.
Qed.

Lemma rootPendings_queries (p : Pending) :
  In p (rootPendings domain) ->
  p_then p <> ThenNS /\ In (queryOf p) (rootQueries domain).
Proof.
  simpl. intros [<- | [<- | [<- | [<- | [<- | []]]]]]; simpl;
    (split; [discriminate|]); unfold queryOf; simpl; auto 10.
Qed.

Lemma settle_Phase (st : Run) (i : nat) :
  Phase domain options st -> Phase domain options (settle domain options st i).
Proof.
  intros HP. unfold settle.
  destruct (nth_error (inflight st) i) as [p|] eqn:Hnth; [|exact HP].
  destruct (remove_nth_split _ _ _ Hnth) as (l1 & l2 & Hl & Hrm).
  rewrite Hrm. clear Hrm Hnth.
  destruct HP as [ | Hrej | Hns
                   | st ns inferred Hns Hne Hchk Hcl Hiss Hq Hnd Hdisj Hfl Hrc Hacc
                   | st ns Hns Hne Hq Hnd Hiss Hfl Hacc Hclosed].
  - (* Boot *)
    simpl in Hl.
    destruct l1 as [|x l1]; simpl in Hl;
      [|injection Hl as _ Hl; destruct l1; discriminate Hl].
    injection Hl as <- <-. simpl.
    destruct (getDnsRecords domain "NS" (resolver options)) as [ns|] eqn:Hns.
    + destruct ns as [|r ns].
      * apply NoDelegation. exact Hns.
      * unfold runHandler, onNS.
        change (0 <? List.length (r :: ns))%nat with true. cbv iota.
        match goal with
        | |- context [inferNS domain ?s ?l] =>
            pose proof (inferNS_Inferred domain s l) as HI;
            set (st1 := inferNS domain s l) in *
        end.
        destruct HI as (Hc & Hr & Hcl & Hi & Hq & added & Ha & Hnd & Hd).
        simpl in Hc, Hr, Hcl, Hi, Hq, Ha, Hd.
        apply Roots with (ns := r :: ns) (inferred := added); simpl;
          try assumption; try discriminate.
        -- rewrite Hq. reflexivity.
        -- rewrite Hi. simpl.
           repeat (apply Forall_cons; [simpl; auto 10|]). apply Forall_nil.
        -- rewrite Hr. lia.
        -- unfold accounted, accountedFor. simpl.
           rewrite Hr, Hi, Hq. simpl.
           exists 0%nat. split; [reflexivity|]. split; [lia|].
           intros (q & Hin & Hrej). right.
           destruct Hin as [<- | Hin].
           ++ exfalso. unfold rejects in Hrej. simpl in Hrej. congruence.
           ++ destruct Hin as [<- | [<- | [<- | [<- | [<- | []]]]]];
                [exists (mkPending domain "SOA" ThenSendRecords)
                |exists (mkPending domain "A" ThenSendRecords)
                |exists (mkPending domain "AAAA" ThenSendRecords)
                |exists (mkPending domain "MX" ThenMX)
                |exists (mkPending domain "TXT" ThenTXT)];
                (split; [simpl; auto 10|exact Hrej]).
    + apply Dead. exact Hns.
  - (* Dead *) destruct l1; discriminate Hl.
  - (* NoDelegation *) destruct l1; discriminate Hl.
  - (* Roots *)
    assert (Hp : In p (rootPendings domain)).
    { rewrite Forall_forall in Hfl. apply Hfl. rewrite Hl.
      apply in_or_app. right. left. reflexivity. }
    apply rootPendings_queries in Hp. destruct Hp as [Hnn Hpq].
    assert (Hfl' : Forall (fun p => In p (rootPendings domain)) (l1 ++ l2)).
    { rewrite Hl in Hfl. apply Forall_app in Hfl. destruct Hfl as [Hf1 Hf2].
      apply Forall_app. split; [exact Hf1|]. inversion Hf2; assumption. }
    unfold accounted in Hacc. rewrite Hl in Hacc.
    destruct (getDnsRecords (p_name p) (p_type p) (resolver options))
      as [records|] eqn:Hout.
    + assert (Hres : ~ rejects options (queryOf p)).
      { unfold rejects, queryOf. simpl. congruence. }
      destruct (handler_as_reqDone (p_then p) (with_inflight (l1 ++ l2) st)
                                   records Hnn) as (st2 & HI & ->).
      destruct HI as (Hc & Hr & Hcl' & Hi & Hq' & added & Ha & Hnd' & Hd').
      simpl in Hc, Hr, Hcl', Hi, Hq', Ha, Hd'.
      destruct (Z.eq_dec (runningChecks st2) 1) as [H1|H1].
      * pose proof (reqDone_drain domain st2 H1)
          as (F1 & F2 & F3 & F4 & F5 & F6 & F7 & F8).
        rewrite <- Hr, H1 in Hacc.
        destruct (accounted_last _ _ _ _ Hacc Hres) as (-> & -> & Hall).
        simpl in Hi.
        apply Subs with (ns := ns); try assumption.
        -- rewrite F5, Hc, Hchk. simpl.
           apply (fresh_NoDup (subdomainsExtra st2) []). constructor.
        -- rewrite F8, F5, Hq', Hiss, Hc, Hchk. reflexivity.
        -- rewrite F7, F8, Hi. simpl. apply Forall_forall.
           intros p' Hp'. apply in_map_iff in Hp'.
           destruct Hp' as (s & <- & Hs). split; [reflexivity|].
           apply in_or_app. right.
           change (queryOf (subPending domain s)) with (subQuery domain s).
           apply in_map. exact Hs.
        -- unfold accounted. rewrite F6, F7, F8, Hi, Hq'. simpl.
           apply accounted_drained. exact Hall.
        -- rewrite F4, F6, Hcl', Hcl.
           destruct (fresh (subdomainsChecked st2) (subdomainsExtra st2));
             simpl; split; intros; try reflexivity; try discriminate; lia.
      * rewrite (reqDone_step domain st2 H1).
        pose proof (accounted_resolve _ _ _ _ _ Hacc Hres) as Hacc'.
        apply Roots with (ns := ns) (inferred := inferred ++ added); simpl;
          try congruence.
        -- rewrite Ha, Hq, app_assoc. reflexivity.
        -- apply NoDup_app; [exact Hnd|exact Hnd'|].
           intros s Hs1 Hs2. apply (Hd' s Hs2). rewrite Hq.
           apply in_or_app. right. exact Hs1.
        -- intros s Hs Hin. apply in_app_or in Hs. destruct Hs as [Hs|Hs].
           ++ exact (Hdisj s Hs Hin).
           ++ apply (Hd' s Hs). rewrite Hq. apply in_or_app. left. exact Hin.
        -- rewrite Hi. exact Hfl'.
        -- rewrite Hr in *. destruct Hacc' as (k & Hk & _). lia.
        -- unfold accounted. simpl. rewrite Hr, Hi, Hq'. exact Hacc'.
    + assert (Hrej : rejects options (queryOf p)) by exact Hout.
      apply Roots with (ns := ns) (inferred := inferred); simpl; try assumption.
      unfold accounted. simpl.
      apply accounted_reject with (p := p); try assumption.
      rewrite Hiss. exact Hpq.
  - (* Subs *)
    assert (Hp : p_then p = ThenSendRecords /\ In (queryOf p) (issued st)).
    { rewrite Forall_forall in Hfl. apply Hfl. rewrite Hl.
      apply in_or_app. right. left. reflexivity. }
    destruct Hp as [Hth Hpq].
    assert (Hfl' : Forall (fun p => p_then p = ThenSendRecords
                                    /\ In (queryOf p) (issued st)) (l1 ++ l2)).
    { rewrite Hl in Hfl. apply Forall_app in Hfl. destruct Hfl as [Hf1 Hf2].
      apply Forall_app. split; [exact Hf1|]. inversion Hf2; assumption. }
    unfold accounted in Hacc. rewrite Hl in Hacc.
    destruct (getDnsRecords (p_name p) (p_type p) (resolver options))
      as [records|] eqn:Hout.
    + assert (Hres : ~ rejects options (queryOf p)).
      { unfold rejects, queryOf. simpl. congruence. }
      rewrite Hth. simpl. unfold sendRecords.
      pose proof (sendRecord_fold_control (with_inflight (l1 ++ l2) st) records)
        as (Hc & Hx & Hr & Hcl' & Hi & Hq').
      set (st2 := fold_left (sendRecord domain) records
                            (with_inflight (l1 ++ l2) st)) in *.
      simpl in Hc, Hx, Hr, Hcl', Hi, Hq'.
      destruct (Z.eq_dec (runningChecks st2) 1) as [H1|H1].
      * pose proof (reqDone_drain domain st2 H1)
          as (F1 & F2 & F3 & F4 & F5 & F6 & F7 & F8).
        rewrite Hx, Hq in F4, F5, F6, F7, F8. simpl in F4, F5, F6, F7, F8.
        rewrite app_nil_r in F5, F7, F8.
        rewrite <- Hr, H1 in Hacc.
        destruct (accounted_last _ _ _ _ Hacc Hres) as (-> & -> & Hall).
        simpl in Hi.
        apply Subs with (ns := ns); try assumption.
        -- rewrite F5, Hc. exact Hnd.
        -- rewrite F8, F5, Hq', Hc. exact Hiss.
        -- rewrite F7, Hi. constructor.
        -- unfold accounted. rewrite F6, F7, F8, Hi, Hq'.
           pose proof (accounted_drained (issued st) [] Hall) as Hd.
           simpl in Hd. rewrite app_nil_r in Hd. exact Hd.
        -- rewrite F4, F6. split; reflexivity.
      * rewrite (reqDone_step domain st2 H1).
        pose proof (accounted_resolve _ _ _ _ _ Hacc Hres) as Hacc'.
        apply Subs with (ns := ns); try assumption.
        -- simpl. congruence.
        -- simpl. congruence.
        -- simpl subdomainsChecked. simpl issued. congruence.
        -- simpl inflight. simpl issued. rewrite Hi, Hq'. exact Hfl'.
        -- unfold accounted. simpl. rewrite Hr, Hi, Hq'. exact Hacc'.
        -- simpl closed. simpl runningChecks. rewrite Hcl', Hr in *. split.
           ++ intros Hcl. apply Hclosed in Hcl.
              destruct Hacc as (k & Hk & _).
              rewrite length_app in Hk. simpl in Hk. lia.
           ++ intros Hz. lia.
    + assert (Hrej : rejects options (queryOf p)) by exact Hout.
      apply Subs with (ns := ns); simpl; try assumption.
      unfold accounted. simpl.
      apply accounted_reject with (p := p); assumption.
Qed.

(** Every state of a run is in one of the stages. *)
Lemma exec_Phase (schedule : list nat) :
  forall st, Phase domain options st ->
             Phase domain options (exec domain options schedule st).
Proof.
  unfold exec. induction schedule as [|i schedule IH]; intros st HP; simpl.
  - exact HP.
  - apply IH. apply settle_Phase. exact HP.
Qed.

Lemma run_Phase (schedule : list nat) :
  Phase domain options (exec domain options schedule (start domain options)).
Proof. apply exec_Phase. apply Boot. Qed.

End Protocol.

(** ** Every run comes to rest *)

Section Rest.

Context `{Externals}.
Variable domain : string.
Variable options : GetAllDnsRecordsOptions.

Lemma exec_repeat_S (n : nat) (st : Run) :
  exec domain options (repeat 0%nat (S n)) st
  = exec domain options (repeat 0%nat n) (settle domain options st 0).
Proof. reflexivity. Qed.

(** What the settlement of the first promise in flight leaves in flight:
    the other promises, and the lookups that its callback started. *)
Lemma settle_head (st : Run) (p : Pending) (l : list Pending) :
  inflight st = p :: l ->
  p_then p <> ThenNS ->
  exists news,
    inflight (settle domain options st 0) = l ++ map (subPending domain) news
    /\ subdomainsChecked (settle domain options st 0)
       = subdomainsChecked st ++ news.
Proof.
  intros Hl Hnn. unfold settle. rewrite Hl. simpl.
  change (remove_nth 0 (p :: l)) with l.
  destruct (getDnsRecords (p_name p) (p_type p) (resolver options)) as [rs|].
  - destruct (handler_as_reqDone domain (p_then p) (with_inflight l st) rs Hnn)
      as (st2 & HI & ->).
    destruct HI as (Hc & Hr & Hcl & Hi & Hq & _).
    simpl in Hc, Hi.
    destruct (Z.eq_dec (runningChecks st2) 1) as [H1|H1].
    + destruct (reqDone_drain domain st2 H1)
        as (_ & _ & _ & _ & F5 & _ & F7 & _).
      exists (fresh (subdomainsChecked st2) (subdomainsExtra st2)).
      rewrite F5, F7, Hc, Hi. auto.
    + rewrite (reqDone_step domain st2 H1). exists []. simpl.
      rewrite Hc, Hi, !app_nil_r. auto.
  - exists []. simpl. rewrite !app_nil_r. auto.
Qed.

(** Once the queue has been emptied, every settlement takes one promise
    out of flight. *)
Lemma subs_rest (m : nat) :
  forall st,
    subdomainsExtra st = [] ->
    Forall (fun p => p_then p = ThenSendRecords) (inflight st) ->
    List.length (inflight st) = m ->
    quiescent (exec domain options (repeat 0%nat m) st).
Proof.
  induction m as [|m IH]; intros st Hq Hfl Hlen.
  - apply length_zero_iff_nil in Hlen. exact Hlen.
  - destruct (inflight st) as [|p l] eqn:Hl; [discriminate Hlen|].
    injection Hlen as Hlen.
    pose proof (Forall_inv Hfl) as Hp. pose proof (Forall_inv_tail Hfl) as Hfl'.
    simpl in Hp. rewrite exec_repeat_S.
    assert (Hst : subdomainsExtra (settle domain options st 0) = []
                  /\ inflight (settle domain options st 0) = l).
    { unfold settle. rewrite Hl. simpl.
      change (remove_nth 0 (p :: l)) with l.
      destruct (getDnsRecords (p_name p) (p_type p) (resolver options)) as [rs|];
        [|simpl; auto].
      rewrite Hp. simpl. unfold sendRecords.
      pose proof (sendRecord_fold_control domain (with_inflight l st) rs)
        as (Hc & Hx & Hr & Hcl & Hi & Hq').
      simpl in Hc, Hx, Hr, Hcl, Hi, Hq'.
      set (st2 := fold_left (sendRecord domain) rs (with_inflight l st)) in *.
      destruct (Z.eq_dec (runningChecks st2) 1) as [H1|H1].
      - destruct (reqDone_drain domain st2 H1)
          as (_ & _ & F3 & _ & _ & _ & F7 & _).
        rewrite Hx, Hq in F7. simpl in F7. rewrite app_nil_r in F7.
        split; [exact F3|]. rewrite F7. exact Hi.
      - rewrite (reqDone_step domain st2 H1). simpl. split; congruence. }
    destruct Hst as [Hq1 Hi1].
    apply IH; [exact Hq1| |].
    + rewrite Hi1. exact Hfl'.
    + rewrite Hi1. exact Hlen.
Qed.

Lemma roots_rest (m : nat) :
  forall st,
    Phase domain options st ->
    Forall (fun p => p_then p <> ThenNS) (inflight st) ->
    List.length (inflight st) = m ->
    exists n, quiescent (exec domain options (repeat 0%nat n) st).
Proof.
  induction m as [|m IH]; intros st HP Hfl Hlen.
  - exists 0%nat. apply length_zero_iff_nil in Hlen. exact Hlen.
  - pose proof (settle_Phase domain options st 0 HP) as HP'.
    destruct HP as [ | Hrej | Hns
                     | st ns inferred Hns Hne Hchk Hcl Hiss Hq Hnd Hdisj Hfl0 Hrc Hacc
                     | st ns Hns Hne Hq Hnd Hiss Hfl0 Hacc Hclosed].
    + exfalso. simpl in Hfl. apply (Forall_inv Hfl). reflexivity.
    + discriminate Hlen.
    + discriminate Hlen.
    + destruct (inflight st) as [|p l] eqn:Hl; [discriminate Hlen|].
      injection Hlen as Hlen.
      pose proof (Forall_inv Hfl) as Hp. pose proof (Forall_inv_tail Hfl) as Hfl'.
      simpl in Hp.
      destruct (settle_head st p l Hl Hp) as (news & Hi & Hc).
      assert (Hnext : exists n,
                 quiescent (exec domain options (repeat 0%nat n)
                                 (settle domain options st 0))).
      { remember (settle domain options st 0) as st' eqn:Hst'.
        destruct HP' as [ | Hrej' | Hns'
                          | st' ns' inferred' Hns' Hne' Hchk' Hcl' Hiss' Hq' Hnd'
                                Hdisj' Hfl1 Hrc' Hacc'
                          | st' ns' Hns' Hne' Hq' Hnd' Hiss' Hfl1 Hacc' Hclosed'].
        - exfalso. simpl in Hi.
          destruct l as [|q l]; simpl in Hi.
          + destruct news; simpl in Hi; [discriminate Hi|].
            unfold subPending in Hi. discriminate Hi.
          + assert (Hq0 : q = mkPending domain "NS" ThenNS) by congruence.
            rewrite Hq0 in Hfl'. apply (Forall_inv Hfl'). reflexivity.
        - exists 0%nat. unfold quiescent. reflexivity.
        - exists 0%nat. unfold quiescent. reflexivity.
        - assert (Hnews : news = []).
          { rewrite Hc, Hchk in Hchk'. exact Hchk'. }
          subst news. simpl in Hi. rewrite app_nil_r in Hi.
          apply (IH st').
          + eapply Roots; eassumption.
          + rewrite Hi. exact Hfl'.
          + rewrite Hi. exact Hlen.
        - exists (List.length (inflight st')).
          apply subs_rest; [exact Hq'| |reflexivity].
          eapply Forall_impl; [|exact Hfl1]. intros q [Hq0 _]. exact Hq0. }
      destruct Hnext as [n Hn]. exists (S n). rewrite exec_repeat_S. exact Hn.
    + exists (List.length (inflight st)).
      apply subs_rest; [exact Hq| |reflexivity].
      eapply Forall_impl; [|exact Hfl0]. intros q [Hq0 _]. exact Hq0.
Qed.

(** From every state of a run, settling the first promise in flight again
    and again leaves none in flight after finitely many settlements. *)
Lemma comes_to_rest (st : Run) :
  Phase domain options st ->
  exists n, quiescent (exec domain options (repeat 0%nat n) st).
Proof.
  intros HP.
  assert (Hfree : forall st',
             Phase domain options st' ->
             Forall (fun p => p_then p <> ThenNS) (inflight st') ->
             exists n, quiescent (exec domain options (repeat 0%nat n) st')).
  { intros st' HP' Hf. apply (roots_rest (List.length (inflight st')) st'); auto. }
  pose proof (settle_Phase domain options st 0 HP) as HP'.
  destruct HP as [ | Hrej | Hns
                   | st ns inferred Hns Hne Hchk Hcl Hiss Hq Hnd Hdisj Hfl0 Hrc Hacc
                   | st ns Hns Hne Hq Hnd Hiss Hfl0 Hacc Hclosed].
  - assert (Hnext : exists n,
               quiescent (exec domain options (repeat 0%nat n)
                               (settle domain options (start domain options) 0))).
    { apply Hfree; [exact HP'|].
      unfold settle. simpl.
      destruct (getDnsRecords domain "NS" (resolver options)) as [[|r ns]|];
        try (simpl; constructor).
      unfold runHandler, onNS.
      change (0 <? List.length (r :: ns))%nat with true. cbv iota.
      match goal with
      | |- context [inferNS domain ?s ?l] =>
          pose proof (inferNS_Inferred domain s l) as HI;
          set (st1 := inferNS domain s l) in *
      end.
      destruct HI as (_ & _ & _ & Hi & _). simpl in Hi.
      simpl. rewrite Hi. simpl.
      repeat (apply Forall_cons; [simpl; discriminate|]). apply Forall_nil. }
    destruct Hnext as [n Hn]. exists (S n). rewrite exec_repeat_S. exact Hn.
  - exists 0%nat. unfold quiescent. reflexivity.
  - exists 0%nat. unfold quiescent. reflexivity.
  - apply Hfree; [eapply Roots; eassumption|].
    eapply Forall_impl; [|exact Hfl0]. intros p Hp.
    apply (rootPendings_queries domain) in Hp. tauto.
  - apply Hfree; [eapply Subs; eassumption|].
    eapply Forall_impl; [|exact Hfl0]. intros p [Hp _]. rewrite Hp. discriminate.
Qed.

End Rest.

(** ** The log of the calls to [getDnsRecords] *)

Lemma string_length_app (s t : string) :
  String.length (s ++ t) = (String.length s + String.length t)%nat.
Proof. induction s as [|a s IH]; simpl; [reflexivity|]. rewrite IH. reflexivity. Qed.

Lemma string_app_inv_tail (s1 s2 t : string) :
  (s1 ++ t)%string = (s2 ++ t)%string -> s1 = s2.
Proof.
  revert s2. induction s1 as [|a s1 IH]; intros [|b s2]; simpl; intros Heq.
  - reflexivity.
  - apply (f_equal String.length) in Heq. simpl in Heq.
    rewrite string_length_app in Heq. lia.
  - apply (f_equal String.length) in Heq. simpl in Heq.
    rewrite string_length_app in Heq. lia.
  - injection Heq as -> Heq. f_equal. apply IH. exact Heq.
Qed.

Lemma subQuery_inj (domain s1 s2 : string) :
  subQuery domain s1 = subQuery domain s2 -> s1 = s2.
Proof.
  unfold subQuery. intros [= Heq].
  apply (string_app_inv_tail s1 s2 ("." ++ domain)). exact Heq.
Qed.

Lemma subQuery_not_root (domain s t : string) : subQuery domain s <> (domain, t).
Proof.
  unfold subQuery. intros [= Heq _].
  apply (f_equal String.length) in Heq.
  rewrite string_length_app in Heq. simpl in Heq. lia.
Qed.

Lemma NoDup_subQueries (domain : string) (labels : list string) :
  NoDup labels -> NoDup (map (subQuery domain) labels).
Proof.
  induction 1 as [|s labels Hs Hnd IH]; simpl; constructor; [|exact IH].
  intros Hin. apply in_map_iff in Hin. destruct Hin as (s' & Heq & Hs').
  apply subQuery_inj in Heq. subst. contradiction.
Qed.

Lemma NoDup_rootQueries (domain : string) : NoDup (rootQueries domain).
Proof.
  unfold rootQueries.
  repeat (constructor;
          [simpl; intros Hin;
           repeat (destruct Hin as [Hin | Hin]; [discriminate Hin|]);
           exact Hin|]).
  constructor.
Qed.

(** A call for a subdomain is never one of the calls for the domain, and
    no two calls of a run are for the same name and type. *)
Lemma NoDup_calls (domain : string) (roots : list (string * string))
      (labels : list string) :
  roots = [(domain, "NS")] \/ roots = rootQueries domain ->
  NoDup labels ->
  NoDup (roots ++ map (subQuery domain) labels).
Proof.
  intros Hroots Hnd.
  apply NoDup_app.
  - destruct Hroots as [-> | ->]; [|apply NoDup_rootQueries].
    constructor; [intros []|constructor].
  - apply NoDup_subQueries. exact Hnd.
  - intros q Hq Hin. apply in_map_iff in Hin. destruct Hin as (s & <- & _).
    assert (Hd : exists t, subQuery domain s = (domain, t)).
    { destruct Hroots as [-> | ->]; simpl in Hq;
        repeat (destruct Hq as [Hq | Hq]; [eexists; symmetry; exact Hq|]);
        contradiction. }
    destruct Hd as [t Ht]. exact (subQuery_not_root _ _ _ Ht).
Qed.

Lemma NoDup_filter_one {A : Type} (f : A -> bool) (l : list A) :
  NoDup l ->
  (forall x y, f x = true -> f y = true -> x = y) ->
  (List.length (filter f l) <= 1)%nat.
Proof.
  intros Hnd Hf. induction Hnd as [|a l Ha Hnd IH]; simpl; [lia|].
  destruct (f a) eqn:Hfa; [|exact IH]. simpl.
  destruct (filter f l) as [|b rest] eqn:Hfl; [simpl; lia|].
  exfalso. apply Ha.
  assert (Hb : In b (filter f l)) by (rewrite Hfl; left; reflexivity).
  apply filter_In in Hb. destruct Hb as [Hb Hfb].
  rewrite (Hf a b Hfa Hfb). exact Hb.
Qed.

(** ** The statements on the run *)

Section RunStatements.

Context `{Externals}.
Variable domain : string.
Variable options : GetAllDnsRecordsOptions.

Lemma stream_started (schedule : list nat) (st : Run) :
  getAllDnsRecordsStream domain options schedule = Some st ->
  isDomain domain = true
  /\ st = exec (toASCII domain) options schedule (start (toASCII domain) options).
Proof.
  unfold getAllDnsRecordsStream.
  destruct (isDomain domain); simpl; [|discriminate].
  intros [= <-]. auto.
Qed.

Lemma stream_Phase (schedule : list nat) (st : Run) :
  getAllDnsRecordsStream domain options schedule = Some st ->
  Phase (toASCII domain) options st.
Proof.
  intros Hs. apply stream_started in Hs. destruct Hs as [_ ->].
  apply run_Phase.
Qed.

(** The outcome of [getAllDnsRecords] in terms of the state of the run. *)
Lemma getAllDnsRecords_outcome (schedule : list nat) (st : Run) :
  getAllDnsRecordsStream domain options schedule = Some st ->
  getAllDnsRecords domain options schedule =
  match readAll (written st) with
  | None => Rejected
  | Some records =>
      if closed st then
        Resolved (detectWildcardRecords domain records defaultPercent)
      else Pending_
  end.
Proof. intros Hs. unfold getAllDnsRecords. rewrite Hs. reflexivity. Qed.

(** A run can be continued until nothing is in flight. *)
Lemma stream_continued (schedule : list nat) (st : Run) :
  getAllDnsRecordsStream domain options schedule = Some st ->
  exists n st',
    getAllDnsRecordsStream domain options (schedule ++ repeat 0%nat n) = Some st'
    /\ st' = exec (toASCII domain) options (repeat 0%nat n) st
    /\ quiescent st'.
Proof.
  intros Hs. pose proof (stream_Phase _ _ Hs) as HP.
  destruct (comes_to_rest (toASCII domain) options st HP) as [n Hn].
  exists n. eexists. split; [|split; [reflexivity|exact Hn]].
  destruct (stream_started _ _ Hs) as [Hd ->].
  unfold getAllDnsRecordsStream, exec. rewrite Hd, fold_left_app. reflexivity.
Qed.

(** At rest, when no call has rejected, the stream is closed. *)
Lemma rest_closed (st : Run) :
  Phase (toASCII domain) options st ->
  (forall q, In q (issued st) -> ~ rejects options q) ->
  quiescent st ->
  closed st = true.
Proof.
  intros HP Hall Hquiet. unfold quiescent in Hquiet.
  destruct HP as [ | Hrej | Hns
                   | st ns inferred Hns Hne Hchk Hcl Hiss Hq Hnd Hdisj Hfl Hrc Hacc
                   | st ns Hns Hne Hq Hnd Hiss Hfl Hacc Hclosed].
  - discriminate Hquiet.
  - exfalso. apply (Hall (toASCII domain, "NS")); [left; reflexivity|exact Hrej].
  - reflexivity.
  - exfalso. destruct Hacc as (k & Hk & Hpos & _).
    rewrite Hquiet in Hk. simpl in Hk.
    destruct Hpos as (q & Hin & Hrej); [lia|]. exact (Hall q Hin Hrej).
  - apply Hclosed. destruct Hacc as (k & Hk & Hpos & _).
    rewrite Hquiet in Hk. simpl in Hk.
    destruct k as [|k]; [exact Hk|].
    exfalso. destruct Hpos as (q & Hin & Hrej); [lia|]. exact (Hall q Hin Hrej).
Qed.

(** When the promise of a query rejects, nothing runs. *)
Lemma settle_rejected (st : Run) (i : nat) (p : Pending) :
  nth_error (inflight st) i = Some p ->
  rejects options (queryOf p) ->
  settle (toASCII domain) options st i
  = with_inflight (remove_nth i (inflight st)) st.
Proof.
  intros Hn Hrej. unfold settle. rewrite Hn.
  unfold rejects, queryOf in Hrej. simpl in Hrej. rewrite Hrej. reflexivity.
Qed.

(** C5: when the NS query of a valid domain returns no record,
    [getAllDnsRecords] resolves with the empty list as soon as that
    promise settles; in every run the NS query is the only call made, and
    a run that has come to rest has resolved with the empty list. *)
Theorem no_delegation_resolves_empty :
  isDomain domain = true ->
  getDnsRecords (toASCII domain) "NS" (resolver options) = Some [] ->
  getAllDnsRecords domain options [0%nat] = Resolved []
  /\ forall schedule,
      exists st,
        getAllDnsRecordsStream domain options schedule = Some st
        /\ issued st = [(toASCII domain, "NS")]
        /\ (quiescent st ->
            getAllDnsRecords domain options schedule = Resolved []).
Proof.
  intros Hdom Hns. split.
  - unfold getAllDnsRecords, getAllDnsRecordsStream. rewrite Hdom. simpl.
    unfold settle. simpl. rewrite Hns. reflexivity.
  - intros schedule.
    assert (Hs : getAllDnsRecordsStream domain options schedule
                 = Some (exec (toASCII domain) options schedule
                              (start (toASCII domain) options))).
    { unfold getAllDnsRecordsStream. rewrite Hdom. reflexivity. }
    eexists. split; [exact Hs|].
    rewrite (getAllDnsRecords_outcome _ _ Hs).
    pose proof (stream_Phase _ _ Hs) as HP.
    remember (exec (toASCII domain) options schedule
                   (start (toASCII domain) options)) as st eqn:Hst.
    clear Hst Hs.
    destruct HP as [ | Hrej | _ | st ns inferred Hns' Hne | st ns Hns' Hne ].
    + split; [reflexivity|]. intros Hq. discriminate Hq.
    + unfold rejects in Hrej. simpl in Hrej. congruence.
    + split; [reflexivity|]. intros _. reflexivity.
    + rewrite Hns in Hns'. injection Hns' as <-. contradiction.
    + rewrite Hns in Hns'. injection Hns' as <-. contradiction.
Qed.

(** C6 (amended): in every run the labels looked up are pairwise
    different, every call to [getDnsRecords] is for a different name and
    type, so at most one A query is made for any [label.domain]; inference
    appends a label to the queue only when the queue does not hold it, so
    the labels it adds are pairwise different and none is a well-known or
    a caller-supplied one.  The queue starts with the caller-supplied
    labels followed by the well-known ones, as they are. *)
Theorem candidate_looked_up_once (schedule : list nat) (st : Run) :
  getAllDnsRecordsStream domain options schedule = Some st ->
  NoDup (subdomainsChecked st)
  /\ NoDup (issued st)
  /\ (forall label,
        (List.length
           (filter (fun q => String.eqb (fst q) (label ++ "." ++ toASCII domain)
                             && String.eqb (snd q) "A")
                   (issued st)) <= 1)%nat)
  /\ (exists roots,
        (roots = [(toASCII domain, "NS")] \/ roots = rootQueries (toASCII domain))
        /\ issued st
           = roots ++ map (subQuery (toASCII domain)) (subdomainsChecked st))
  /\ (subdomainsExtra st = []
      \/ exists inferred,
          subdomainsExtra st
          = (subdomains options ++ subdomainsRecords) ++ inferred
          /\ NoDup inferred
          /\ forall s, In s inferred ->
                       ~ In s (subdomains options ++ subdomainsRecords))
  /\ (forall st0 value,
        Inferred st0 (addSubdomain (toASCII domain) st0 value)).
Proof.
  intros Hs.
  assert (Hshape :
            NoDup (subdomainsChecked st)
            /\ (exists roots,
                   (roots = [(toASCII domain, "NS")]
                    \/ roots = rootQueries (toASCII domain))
                   /\ issued st
                      = roots ++ map (subQuery (toASCII domain)) (subdomainsChecked st))
            /\ (subdomainsExtra st = []
                \/ exists inferred,
                    subdomainsExtra st
                    = (subdomains options ++ subdomainsRecords) ++ inferred
                    /\ NoDup inferred
                    /\ forall s, In s inferred ->
                                 ~ In s (subdomains options ++ subdomainsRecords))).
  { pose proof (stream_Phase _ _ Hs) as HP.
    destruct HP as [ | Hrej | Hns
                     | st ns inferred Hns Hne Hchk Hcl Hiss Hq Hnd Hdisj Hfl Hrc Hacc
                     | st ns Hns Hne Hq Hnd Hiss Hfl Hacc Hclosed].
    - simpl. split; [constructor|]. split.
      + exists [(toASCII domain, "NS")]. auto.
      + right. exists []. rewrite app_nil_r.
        split; [reflexivity|]. split; [constructor|contradiction].
    - simpl. split; [constructor|]. split.
      + exists [(toASCII domain, "NS")]. auto.
      + right. exists []. rewrite app_nil_r.
        split; [reflexivity|]. split; [constructor|contradiction].
    - simpl. split; [constructor|]. split.
      + exists [(toASCII domain, "NS")]. auto.
      + right. exists []. rewrite app_nil_r.
        split; [reflexivity|]. split; [constructor|contradiction].
    - rewrite Hchk. split; [constructor|]. split.
      + exists (rootQueries (toASCII domain)). split; [auto|].
        rewrite Hiss. simpl. reflexivity.
      + right. exists inferred. auto.
    - split; [exact Hnd|]. split.
      + exists (rootQueries (toASCII domain)). auto.
      + left. exact Hq. }
  destruct Hshape as (Hnd & (roots & Hroots & Hiss) & Hqueue).
  assert (Hcalls : NoDup (issued st)).
  { rewrite Hiss. apply NoDup_calls; assumption. }
  split; [exact Hnd|]. split; [exact Hcalls|]. split; [|split; [|split]].
  - intros label. apply NoDup_filter_one; [exact Hcalls|].
    intros [n1 t1] [n2 t2]. simpl. intros H1 H2.
    apply andb_true_iff in H1. apply andb_true_iff in H2.
    destruct H1 as [H1 H1']. destruct H2 as [H2 H2'].
    apply String.eqb_eq in H1, H1', H2, H2'. congruence.
  - exists roots. auto.
  - exact Hqueue.
  - intros st0 value. apply addSubdomain_Inferred.
Qed.

End RunStatements.

(** ** The dedup sink *)

Lemma sink_fold {A : Type} (f : Run -> A -> Run) (l : list A) :
  (forall st x, sink (f st x) = sink st) ->
  forall st, sink (fold_left f l st) = sink st.
Proof.
  intros Hf. induction l as [|x l IH]; intros st; simpl; [reflexivity|].
  rewrite IH. apply Hf.
Qed.

Lemma addSubdomain_sink (domain : string) (st : Run) (value : string) :
  sink (addSubdomain domain st value) = sink st.
Proof.
  unfold addSubdomain.
  repeat match goal with
         | |- context [if ?b then _ else _] => destruct b
         end; reflexivity.
Qed.

Lemma inferSPF_sink (domain : string) (st : Run) (spf : string) :
  sink (inferSPF domain st spf) = sink st.
Proof.
  unfold inferSPF.
  repeat match goal with
         | |- context [if ?b then _ else _] => destruct b
         end; try apply addSubdomain_sink; reflexivity.
Qed.

Lemma inferMX_sink (domain : string) (st : Run) (records : list DnsRecord) :
  sink (inferMX domain st records) = sink st.
Proof.
  unfold inferMX. apply sink_fold. clear st. intros st r.
  destruct (JS.includes (data r) domain); [|reflexivity].
  destruct (1 <? _)%nat; [apply addSubdomain_sink|reflexivity].
Qed.

Lemma inferTXT_sink (domain : string) (st : Run) (records : list DnsRecord) :
  sink (inferTXT domain st records) = sink st.
Proof.
  unfold inferTXT. apply sink_fold. clear st. intros st r.
  destruct (_ && _); [|reflexivity].
  apply sink_fold. apply inferSPF_sink.
Qed.

Lemma reqDone_sink (domain : string) (st : Run) :
  sink (reqDone domain st) = sink st.
Proof.
  destruct (Z.eq_dec (runningChecks st) 1) as [H1|H1].
  - destruct (reqDone_drain domain st H1) as (F1 & F2 & _).
    unfold sink. rewrite F1, F2. reflexivity.
  - rewrite (reqDone_step domain st H1). reflexivity.
Qed.

Section Sink.

Variable P : DnsRecord -> Prop.
Variable domain : string.

Lemma SinkOk_same (st st' : Run) :
  sink st' = sink st -> SinkOk P domain st -> SinkOk P domain st'.
Proof.
  unfold sink. intros [= Hh Hw] (accepted & Ha & Hi & Hn & Hf).
  exists accepted. rewrite Hh, Hw. auto.
Qed.

Lemma sendRecord_SinkOk (st : Run) (r : DnsRecord) :
  P r -> SinkOk P domain st -> SinkOk P domain (sendRecord domain st r).
Proof.
  intros HPr (accepted & Ha & Hi & Hn & Hf).
  unfold sendRecord, writer_write.
  destruct (JS.arr_includes (recordsHashes st) (recordHash r)) eqn:Hinc; simpl;
    [exists accepted; auto|].
  destruct (JS.endsWith (name r) domain) eqn:Hend; simpl;
    [|exists accepted; auto].
  apply arr_includes_false in Hinc.
  destruct (closed st).
  - exists accepted. simpl. repeat split; auto.
    intros h Hh. apply in_or_app. left. apply Hi. exact Hh.
  - exists (accepted ++ [r]). simpl. split; [|split; [|split]].
    + rewrite Ha, map_app. reflexivity.
    + rewrite map_app. simpl. intros h Hh.
      apply in_app_or in Hh. apply in_or_app.
      destruct Hh as [Hh|Hh]; [left; apply Hi; exact Hh|right; exact Hh].
    + rewrite map_app. simpl. apply NoDup_app; [exact Hn| |].
      * constructor; [intros []|constructor].
      * intros h Hh [<- | []]. apply Hinc. apply Hi. exact Hh.
    + apply Forall_app. split; [exact Hf|]. constructor; [auto|constructor].
Qed.

Lemma sendRecord_fold_SinkOk (records : list DnsRecord) :
  Forall P records ->
  forall st, SinkOk P domain st ->
             SinkOk P domain (fold_left (sendRecord domain) records st).
Proof.
  induction 1 as [|r records Hr Hrs IH]; intros st Hst; simpl; [exact Hst|].
  apply IH. apply sendRecord_SinkOk; assumption.
Qed.

Lemma inferNS_SinkOk (records : list DnsRecord) :
  Forall P records ->
  forall st, SinkOk P domain st -> SinkOk P domain (inferNS domain st records).
Proof.
  unfold inferNS.
  induction 1 as [|r records Hr Hrs IH]; intros st Hst; simpl; [exact Hst|].
  apply IH. destruct (JS.includes (data r) domain).
  - eapply SinkOk_same; [apply addSubdomain_sink|].
    apply sendRecord_SinkOk; assumption.
  - apply sendRecord_SinkOk; assumption.
Qed.

Lemma runHandler_SinkOk (h : Handler) (st : Run) (records : list DnsRecord) :
  Forall P records -> SinkOk P domain st ->
  SinkOk P domain (runHandler domain h st records).
Proof.
  intros Hrs Hst. destruct h; simpl.
  - unfold onNS. destruct (0 <? List.length records)%nat.
    + eapply SinkOk_same; [|apply (inferNS_SinkOk records Hrs st Hst)].
      reflexivity.
    + eapply SinkOk_same; [|exact Hst]. reflexivity.
  - unfold sendRecords. eapply SinkOk_same; [apply reqDone_sink|].
    apply sendRecord_fold_SinkOk; assumption.
  - unfold onMX, sendRecords. eapply SinkOk_same; [apply reqDone_sink|].
    apply sendRecord_fold_SinkOk; [assumption|].
    eapply SinkOk_same; [apply inferMX_sink|exact Hst].
  - unfold onTXT, sendRecords. eapply SinkOk_same; [apply reqDone_sink|].
    apply sendRecord_fold_SinkOk; [assumption|].
    eapply SinkOk_same; [apply inferTXT_sink|exact Hst].
Qed.

Context `{Externals}.
Variable options : GetAllDnsRecordsOptions.

Hypothesis resolver_P :
  forall n t records,
    resolver options n t = Some records -> Forall P records.

Lemma settle_SinkOk (st : Run) (i : nat) :
  SinkOk P domain st -> SinkOk P domain (settle domain options st i).
Proof.
  intros Hst. unfold settle.
  destruct (nth_error (inflight st) i) as [p|]; [|exact Hst].
  destruct (getDnsRecords (p_name p) (p_type p) (resolver options))
    as [records|] eqn:Hout.
  - apply runHandler_SinkOk.
    + unfold getDnsRecords in Hout.
      destruct (negb (isDomain (p_name p))); [discriminate|].
      exact (resolver_P _ _ _ Hout).
    + eapply SinkOk_same; [|exact Hst]. reflexivity.
  - eapply SinkOk_same; [|exact Hst]. reflexivity.
Qed.

Lemma run_SinkOk (schedule : list nat) :
  SinkOk P domain (exec domain options schedule (start domain options)).
Proof.
  assert (Hgen : forall st, SinkOk P domain st ->
                            SinkOk P domain (exec domain options schedule st)).
  { unfold exec. induction schedule as [|i schedule IH]; intros st Hst; simpl.
    - exact Hst.
    - apply IH. apply settle_SinkOk. exact Hst. }
  apply Hgen. exists []. simpl.
  repeat split; try constructor. intros h [].
Qed.

End Sink.

(** *** The identity of a record and its hash *)

Lemma recordHash_identity (r r' : DnsRecord) :
  identity r = identity r' -> recordHash r = recordHash r'.
Proof. unfold identity, recordHash. intros [= -> -> ->]. reflexivity. Qed.

Lemma NoDup_hash_identity (l : list DnsRecord) :
  NoDup (map recordHash l) -> NoDup (map identity l).
Proof.
  induction l as [|r l IH]; simpl; intros Hnd; [constructor|].
  inversion Hnd as [|? ? Hr Hl]; subst. constructor; [|apply IH; exact Hl].
  intros Hin. apply Hr. apply in_map_iff in Hin.
  destruct Hin as (r' & Heq & Hr'). apply in_map_iff.
  exists r'. split; [apply recordHash_identity; exact Heq|exact Hr'].
Qed.

Section SinkStatements.

Context `{Externals}.
Variable domain : string.
Variable options : GetAllDnsRecordsOptions.

Lemma sendRecord_suppressed_name (st0 : Run) (r : DnsRecord) :
  JS.endsWith (name r) (toASCII domain) = false ->
  sendRecord (toASCII domain) st0 r = st0.
Proof.
  intros Hend. unfold sendRecord. rewrite Hend, andb_false_r. reflexivity.
Qed.

Lemma sendRecord_suppressed_duplicate (st0 : Run) (r r' : DnsRecord) :
  In (recordHash r') (recordsHashes st0) ->
  identity r = identity r' ->
  sendRecord (toASCII domain) st0 r = st0.
Proof.
  intros Hin Hid. unfold sendRecord.
  rewrite (recordHash_identity r r' Hid).
  apply arr_includes_In in Hin. rewrite Hin. reflexivity.
Qed.

(** C4 (amended): the records written to the stream have pairwise
    different (name, type, data); a record with the name, type and data of
    a record whose hash is recorded is suppressed, whatever its ttl.  When
    the names, types and data that the resolver returns hold no tab and
    no lone surrogate, and no name starts with a byte order mark, the
    result of [getAllDnsRecords] has no two records with the same
    (name, type, data). *)
Theorem sink_never_repeats_identity (schedule : list nat) (st : Run) :
  getAllDnsRecordsStream domain options schedule = Some st ->
  (exists accepted,
      written st = map wire accepted /\ NoDup (map identity accepted))
  /\ (forall st0 r r',
         In (recordHash r') (recordsHashes st0) ->
         identity r = identity r' ->
         sendRecord (toASCII domain) st0 r = st0)
  /\ ((forall n t records,
          resolver options n t = Some records ->
          Forall (fun r => tabFreeRecord r = true /\ intact r = true)
                 records) ->
      forall records,
        getAllDnsRecords domain options schedule = Resolved records ->
        NoDup (map identity records)).
Proof.
  intros Hs. split; [|split].
  - destruct (stream_started _ _ _ _ Hs) as [_ ->].
    destruct (run_SinkOk (fun _ => True) (toASCII domain) options
                         (fun _ _ rs _ => proj2 (Forall_forall _ rs) (fun _ _ => I))
                         schedule)
      as (accepted & Ha & _ & Hn & _).
    exists accepted. split; [exact Ha|].
    apply NoDup_hash_identity. exact Hn.
  - apply sendRecord_suppressed_duplicate.
  - intros Htab records Hres.
    rewrite (getAllDnsRecords_outcome _ _ _ _ Hs) in Hres.
    destruct (stream_started _ _ _ _ Hs) as [_ Hst].
    destruct (run_SinkOk (fun r => tabFreeRecord r = true /\ intact r = true)
                         (toASCII domain) options Htab schedule)
      as (accepted & Ha & _ & Hn & Hf).
    rewrite <- Hst in Ha. rewrite Ha in Hres.
    rewrite readAll_intact in Hres
      by (eapply Forall_impl; [|exact Hf]; intros r [_ Hr]; exact Hr).
    destruct (closed st); [|discriminate]. injection Hres as <-.
    rewrite detect_collapse. apply collapse_NoDup.
    + intros r r'. apply wildcardEvidence_sameGroup.
    + apply NoDup_hash_identity. exact Hn.
Qed.

End SinkStatements.

(** ** A call that rejects *)

Section RejectionStatement.

Context `{Externals}.
Variable domain : string.
Variable options : GetAllDnsRecordsOptions.

(** C1 (amended): a query whose promise rejects is not counted as a
    query without records.  No callback runs for it, so [runningChecks]
    is not decremented; as long as some call of the run has rejected,
    [runningChecks] stays positive, the stream is not closed and
    [getAllDnsRecords] does not resolve: it is pending, or it has rejected
    because a line of the stream is not read back, which does not happen
    when the names and types that the resolver returns hold no tab.  Every
    run comes to rest after finitely many settlements; when it is at rest
    and every call has resolved, the stream is closed and
    [getAllDnsRecords] has settled, resolved when the names and types hold
    no tab. *)
Theorem rejected_query_blocks_completion (schedule : list nat) (st : Run) :
  getAllDnsRecordsStream domain options schedule = Some st ->
  (forall i p,
      nth_error (inflight st) i = Some p ->
      rejects options (queryOf p) ->
      let st' := settle (toASCII domain) options st i in
      runningChecks st' = runningChecks st
      /\ written st' = written st
      /\ closed st' = closed st)
  /\ ((exists q, In q (issued st) /\ rejects options q) ->
      (1 <= runningChecks st)%Z
      /\ closed st = false
      /\ (getAllDnsRecords domain options schedule = Pending_
          \/ getAllDnsRecords domain options schedule = Rejected)
      /\ ((forall n t records,
              resolver options n t = Some records ->
              Forall (fun r => tabFree (name r) = true
                               /\ tabFree (type r) = true) records) ->
          getAllDnsRecords domain options schedule = Pending_))
  /\ ((forall q, In q (issued st) -> ~ rejects options q) ->
      quiescent st ->
      closed st = true
      /\ getAllDnsRecords domain options schedule <> Pending_
      /\ ((forall n t records,
              resolver options n t = Some records ->
              Forall (fun r => tabFree (name r) = true
                               /\ tabFree (type r) = true) records) ->
          exists records,
            getAllDnsRecords domain options schedule = Resolved records))
  /\ (exists n st',
        getAllDnsRecordsStream domain options (schedule ++ repeat 0%nat n)
        = Some st'
        /\ quiescent st').
Proof.
  intros Hs.
  assert (Hread : (forall n t records,
                      resolver options n t = Some records ->
                      Forall (fun r => tabFree (name r) = true
                                       /\ tabFree (type r) = true) records) ->
                  exists records, readAll (written st) = Some records).
  { intros Htab. destruct (stream_started _ _ _ _ Hs) as [_ Hst].
    destruct (run_SinkOk (fun r => tabFree (name r) = true
                                   /\ tabFree (type r) = true)
                         (toASCII domain) options Htab schedule)
      as (accepted & Ha & _ & _ & Hf).
    rewrite <- Hst in Ha. rewrite Ha.
    eexists. apply readAll_carried.
    eapply Forall_impl; [|exact Hf]. intros r [_ Hr]. exact Hr. }
  split; [|split; [|split]].
  - intros i p Hn Hrej. simpl.
    rewrite (settle_rejected _ _ st i p Hn Hrej). repeat split; reflexivity.
  - intros Hex.
    assert (Hrc : (1 <= runningChecks st)%Z /\ closed st = false).
    { pose proof (stream_Phase _ _ _ _ Hs) as HP.
      destruct HP as [ | Hrej | Hns
                       | st ns inferred Hns Hne Hchk Hcl Hiss Hq Hnd Hdisj Hfl Hrc Hacc
                       | st ns Hns Hne Hq Hnd Hiss Hfl Hacc Hclosed].
      + simpl. split; [lia|reflexivity].
      + simpl. split; [lia|reflexivity].
      + exfalso. destruct Hex as (q & Hin & Hrej). simpl in Hin.
        destruct Hin as [<- | []]. unfold rejects in Hrej. simpl in Hrej.
        congruence.
      + split; assumption.
      + destruct Hacc as (k & Hk & Hpos & Hq3).
        assert (Hrc : (1 <= runningChecks st)%Z).
        { destruct (Hq3 Hex) as [Hkpos | (p & Hp & _)]; [lia|].
          destruct (inflight st); [contradiction|]. simpl in Hk. lia. }
        split; [exact Hrc|].
        destruct (closed st) eqn:Hcl; [|reflexivity].
        assert (Hz : runningChecks st = 0%Z) by (apply Hclosed; reflexivity).
        lia. }
    destruct Hrc as [Hrc Hcl]. split; [exact Hrc|]. split; [exact Hcl|].
    rewrite (getAllDnsRecords_outcome _ _ _ _ Hs), Hcl. split.
    + destruct (readAll (written st)); [left|right]; reflexivity.
    + intros Htab. destruct (Hread Htab) as [records ->]. reflexivity.
  - intros Hall Hquiet.
    assert (Hcl : closed st = true)
      by (apply (rest_closed domain options);
          [apply (stream_Phase _ _ _ _ Hs)|exact Hall|exact Hquiet]).
    split; [exact Hcl|].
    rewrite (getAllDnsRecords_outcome _ _ _ _ Hs), Hcl. split.
    + destruct (readAll (written st)); discriminate.
    + intros Htab. destruct (Hread Htab) as [records ->].
      eexists. reflexivity.
  - destruct (stream_continued _ _ _ _ Hs) as (n & st' & Hs' & _ & Hq).
    exists n, st'. auto.
Qed.

End RejectionStatement.

(** ** Labels inferred from the MX records *)

Section Progress.

Variable domain : string.

Lemma Progress_trans (st1 st2 st3 : Run) :
  Progress domain st1 st2 -> Progress domain st2 st3 -> Progress domain st1 st3.
Proof.
  intros (Hi1 & Hf1 & Hc1 & Hq1 & Hm1) (Hi2 & Hf2 & Hc2 & Hq2 & Hm2).
  unfold Progress. repeat split.
  - eapply incl_tran; eassumption.
  - eapply incl_tran; eassumption.
  - auto.
  - intros Hc s Hs Hne.
    destruct (Hq1 Hc s Hs Hne) as [Hin | Hin].
    + apply Hq2; auto.
    + right. apply Hi2. exact Hin.
  - intros Hin. destruct (Hm2 Hin) as [Hin2 | Hin2]; [|right; exact Hin2].
    destruct (Hm1 Hin2) as [Hin1 | Hin1]; [left; exact Hin1|].
    right. apply Hf2. exact Hin1.
Qed.

Lemma Inferred_Progress (st st' : Run) :
  Inferred st st' -> Progress domain st st'.
Proof.
  intros (Hc & Hr & Hcl & Hi & Hq & added & Ha & _ & _).
  unfold Progress, CheckedCalled. rewrite Hc, Hi, Hq, Ha.
  repeat split; auto using incl_refl.
  intros _ s Hs _. left. apply in_or_app. left. exact Hs.
Qed.

Lemma reqDone_Progress (st : Run) : Progress domain st (reqDone domain st).
Proof.
  destruct (Z.eq_dec (runningChecks st) 1) as [H1|H1].
  - destruct (reqDone_drain domain st H1)
      as (F1 & F2 & F3 & F4 & F5 & F6 & F7 & F8).
    unfold Progress, CheckedCalled. rewrite F3, F5, F7, F8.
    repeat split.
    + apply incl_appl, incl_refl.
    + apply incl_appl, incl_refl.
    + intros Hc s Hs. apply in_app_or in Hs. apply in_or_app.
      destruct Hs as [Hs|Hs]; [left; apply Hc; exact Hs|].
      right. apply in_map. exact Hs.
    + intros Hc s Hs Hne. right.
      pose proof (fresh_covers (subdomainsExtra st) (subdomainsChecked st)
                               s Hs Hne) as Hcov.
      apply in_app_or in Hcov. apply in_or_app.
      destruct Hcov as [Hcov|Hcov]; [left; apply Hc; exact Hcov|].
      right. apply in_map. exact Hcov.
    + intros Hin. apply in_app_or in Hin.
      destruct Hin as [Hin|Hin]; [left; exact Hin|].
      apply in_map_iff in Hin. destruct Hin as (s & Heq & _).
      unfold subQuery in Heq. discriminate Heq.
  - rewrite (reqDone_step domain st H1).
    unfold Progress, CheckedCalled. simpl.
    repeat split; auto using incl_refl.
Qed.

Lemma onNS_Progress (st : Run) (ns : list DnsRecord) :
  Progress domain st (onNS domain st ns).
Proof.
  unfold onNS. destruct (0 <? List.length ns)%nat.
  - eapply Progress_trans;
      [apply Inferred_Progress, (inferNS_Inferred domain st ns)|].
    set (st1 := inferNS domain st ns).
    unfold Progress, CheckedCalled. simpl. repeat split.
    + repeat apply incl_appl. apply incl_refl.
    + repeat apply incl_appl. apply incl_refl.
    + intros Hc s Hs. repeat (apply in_or_app; left). apply Hc. exact Hs.
    + intros _ s Hs _. left. exact Hs.
    + intros _. right. apply in_or_app. left. apply in_or_app. right.
      left. reflexivity.
  - unfold Progress, CheckedCalled. simpl.
    repeat split; auto using incl_refl.
Qed.

Lemma runHandler_Progress (h : Handler) (st : Run) (records : list DnsRecord) :
  Progress domain st (runHandler domain h st records).
Proof.
  destruct h; simpl.
  - apply onNS_Progress.
  - unfold sendRecords. eapply Progress_trans; [|apply reqDone_Progress].
    apply Inferred_Progress, sendRecord_fold_Inferred.
  - unfold onMX, sendRecords. eapply Progress_trans; [|apply reqDone_Progress].
    apply Inferred_Progress.
    eapply Inferred_trans; [apply inferMX_Inferred|apply sendRecord_fold_Inferred].
  - unfold onTXT, sendRecords. eapply Progress_trans; [|apply reqDone_Progress].
    apply Inferred_Progress.
    eapply Inferred_trans; [apply inferTXT_Inferred|apply sendRecord_fold_Inferred].
Qed.

End Progress.

Section MailExchanger.

Context `{Externals}.
Variable options : GetAllDnsRecordsOptions.
Variable records : list DnsRecord.
Variable r : DnsRecord.

Hypothesis mx_resolves :
  getDnsRecords "example.com" "MX" (resolver options) = Some records.
Hypothesis mx_record : In r records.
Hypothesis mx_data : data r = "10 mail.example.com.".

Lemma addSubdomain_mail (st : Run) :
  In "mail" (subdomainsExtra (addSubdomain "example.com" st "mail.example.com.")).
Proof.
  change (addSubdomain "example.com" st "mail.example.com.")
    with (if negb (JS.arr_includes (subdomainsExtra st) "mail")
          then with_subdomainsExtra (subdomainsExtra st ++ ["mail"]) st
          else st).
  destruct (JS.arr_includes (subdomainsExtra st) "mail") eqn:Hin; simpl.
  - apply arr_includes_In. exact Hin.
  - apply in_or_app. right. left. reflexivity.
Qed.

Lemma Inferred_queue (st st' : Run) (s : string) :
  Inferred st st' -> In s (subdomainsExtra st) -> In s (subdomainsExtra st').
Proof.
  intros (_ & _ & _ & _ & _ & added & Ha & _ & _) Hs.
  rewrite Ha. apply in_or_app. left. exact Hs.
Qed.

(** The MX callback proposes the label of the mail exchanger. *)
Lemma inferMX_mail_in (rs : list DnsRecord) :
  In r rs ->
  forall st, In "mail" (subdomainsExtra (inferMX "example.com" st rs)).
Proof.
  clear mx_resolves mx_record. unfold inferMX.
  induction rs as [|r0 rs IH]; intros Hr st; [contradiction|].
  simpl. destruct Hr as [-> | Hin].
  - rewrite mx_data.
    change (JS.includes "10 mail.example.com." "example.com") with true.
    cbv iota.
    change (JS.split " " "10 mail.example.com.")
      with ["10"; "mail.example.com."].
    change (1 <? List.length ["10"; "mail.example.com."])%nat with true.
    cbv iota.
    change (JS.at_ ["10"; "mail.example.com."] 1) with "mail.example.com.".
    eapply Inferred_queue; [|apply addSubdomain_mail].
    apply Inferred_fold. clear. intros st r0.
    destruct (JS.includes (data r0) "example.com"); [|apply Inferred_refl].
    destruct (1 <? _)%nat; [apply addSubdomain_Inferred|apply Inferred_refl].
  - apply IH. exact Hin.
Qed.

Lemma inferMX_mail (st : Run) :
  In "mail" (subdomainsExtra (inferMX "example.com" st records)).
Proof. apply inferMX_mail_in. exact mx_record. Qed.

Lemma settle_Tracked (st : Run) (i : nat) :
  CheckedCalled "example.com" st ->
  (In ("example.com", "MX") (issued st) -> Tracked "example.com" "mail" st) ->
  let st' := settle "example.com" options st i in
  CheckedCalled "example.com" st'
  /\ (In ("example.com", "MX") (issued st') -> Tracked "example.com" "mail" st').
Proof.
  intros Hcc Htr. simpl. unfold settle.
  destruct (nth_error (inflight st) i) as [p|] eqn:Hnth; [|auto].
  destruct (remove_nth_split _ _ _ Hnth) as (l1 & l2 & Hl & ->).
  set (st0 := with_inflight (l1 ++ l2) st).
  assert (Hcc0 : CheckedCalled "example.com" st0) by exact Hcc.
  destruct (getDnsRecords (p_name p) (p_type p) (resolver options))
    as [rs|] eqn:Hout.
  - pose proof (runHandler_Progress "example.com" (p_then p) st0 rs)
      as (Hi & Hf & Hc & Hq & Hm).
    split; [apply Hc; exact Hcc0|].
    intros Hin. destruct (Hm Hin) as [Hin0 | Hfly]; [|left; exact Hfly].
    destruct (Htr Hin0) as [Hfly | [Hwait | Hcalled]].
    + rewrite Hl in Hfly. apply in_app_or in Hfly.
      destruct Hfly as [Hfly | [-> | Hfly]].
      * left. apply Hf. simpl. apply in_or_app. left. exact Hfly.
      * simpl in Hout. rewrite mx_resolves in Hout. injection Hout as <-.
        simpl runHandler. unfold onMX, sendRecords.
        pose proof (inferMX_mail st0) as Hmail.
        pose proof (sendRecord_fold_Inferred "example.com"
                      (inferMX "example.com" st0 records) records) as HI.
        pose proof (Inferred_queue _ _ _ HI Hmail) as Hmail'.
        pose proof (Inferred_trans _ _ _
                      (inferMX_Inferred "example.com" st0 records) HI) as HI0.
        destruct (reqDone_Progress "example.com"
                    (fold_left (sendRecord "example.com") records
                               (inferMX "example.com" st0 records)))
          as (_ & _ & _ & Hq' & _).
        destruct (Hq' (proj1 (proj2 (proj2 (Inferred_Progress "example.com" _ _ HI0))) Hcc0)
                      "mail" Hmail') as [Hw | Hc'];
          [discriminate|right; left; exact Hw|right; right; exact Hc'].
      * left. apply Hf. simpl. apply in_or_app. right. exact Hfly.
    + destruct (Hq Hcc0 "mail" Hwait) as [Hw | Hc'];
        [discriminate|right; left; exact Hw|right; right; exact Hc'].
    + right. right. apply Hi. exact Hcalled.
  - split; [exact Hcc0|]. intros Hin.
    destruct (Htr Hin) as [Hfly | [Hwait | Hcalled]].
    + rewrite Hl in Hfly. apply in_app_or in Hfly.
      destruct Hfly as [Hfly | [-> | Hfly]].
      * left. simpl. apply in_or_app. left. exact Hfly.
      * simpl in Hout. rewrite mx_resolves in Hout. discriminate Hout.
      * left. simpl. apply in_or_app. right. exact Hfly.
    + right. left. exact Hwait.
    + right. right. exact Hcalled.
Qed.

Lemma run_Tracked (schedule : list nat) :
  let st := exec "example.com" options schedule (start "example.com" options) in
  CheckedCalled "example.com" st
  /\ (In ("example.com", "MX") (issued st) -> Tracked "example.com" "mail" st).
Proof.
  simpl.
  assert (Hgen : forall st,
             CheckedCalled "example.com" st
             /\ (In ("example.com", "MX") (issued st) ->
                 Tracked "example.com" "mail" st) ->
             CheckedCalled "example.com"
                           (exec "example.com" options schedule st)
             /\ (In ("example.com", "MX")
                    (issued (exec "example.com" options schedule st)) ->
                 Tracked "example.com" "mail"
                         (exec "example.com" options schedule st))).
  { unfold exec. induction schedule as [|i schedule IH]; intros st Hst; simpl.
    - exact Hst.
    - apply IH. destruct Hst as [Hcc Htr]. apply settle_Tracked; assumption. }
  apply Hgen. split.
  - intros s [].
  - simpl. intros [Heq | []]. discriminate Heq.
Qed.

End MailExchanger.

Section MailExchangerStatement.

Context `{Externals}.
Variable domain : string.
Variable options : GetAllDnsRecordsOptions.

Lemma closed_mail_called (st : Run) :
  Phase "example.com" options st ->
  Tracked "example.com" "mail" st ->
  In ("example.com", "MX") (issued st) ->
  closed st = true ->
  In ("mail.example.com", "A") (issued st).
Proof.
  intros HP Htr Hin Hcl.
  destruct HP as [ | Hrej | Hns
                   | st ns inferred Hns Hne Hchk Hcl' Hiss Hq Hnd Hdisj Hfl Hrc Hacc
                   | st ns Hns Hne Hq Hnd Hiss Hfl Hacc Hclosed].
  - discriminate Hcl.
  - discriminate Hcl.
  - simpl in Hin. destruct Hin as [Hin | []]. discriminate Hin.
  - congruence.
  - apply Hclosed in Hcl. destruct Hacc as (k & Hk & _).
    rewrite Hcl in Hk.
    assert (Hfly : inflight st = []).
    { destruct (inflight st); [reflexivity|]. simpl in Hk. lia. }
    destruct Htr as [Hp | [Hw | Hc]].
    + rewrite Hfly in Hp. contradiction.
    + rewrite Hq in Hw. contradiction.
    + exact Hc.
Qed.

(** C8: on [example.com], when the MX query returns a record whose data
    is ["10 mail.example.com."], the MX callback leaves the bare label
    [mail] in the queue of candidates; from the call of the MX query on,
    its promise is in flight, or [mail] waits in the queue, or the A query
    for [mail.example.com] has been called; when the stream is closed, that
    A query has been called; and the run comes to rest after finitely many
    settlements, with the stream closed and that A query called when no
    call has rejected. *)
Theorem mx_target_is_looked_up (schedule : list nat) (st : Run)
        (records : list DnsRecord) (r : DnsRecord) :
  toASCII domain = "example.com" ->
  getAllDnsRecordsStream domain options schedule = Some st ->
  getDnsRecords "example.com" "MX" (resolver options) = Some records ->
  In r records ->
  data r = "10 mail.example.com." ->
  (forall st0, In "mail" (subdomainsExtra (inferMX "example.com" st0 records)))
  /\ (In ("example.com", "MX") (issued st) ->
      Tracked "example.com" "mail" st)
  /\ (In ("example.com", "MX") (issued st) ->
      closed st = true ->
      In ("mail.example.com", "A") (issued st))
  /\ (exists n st',
        getAllDnsRecordsStream domain options (schedule ++ repeat 0%nat n)
        = Some st'
        /\ quiescent st'
        /\ ((forall q, In q (issued st') -> ~ rejects options q) ->
            In ("example.com", "MX") (issued st') ->
            closed st' = true /\ In ("mail.example.com", "A") (issued st'))).
Proof.
  intros Hascii Hs Hmx Hr Hdata.
  assert (Hgen : forall sched st1,
             getAllDnsRecordsStream domain options sched = Some st1 ->
             Phase "example.com" options st1
             /\ (In ("example.com", "MX") (issued st1) ->
                 Tracked "example.com" "mail" st1)).
  { intros sched st1 Hs1.
    pose proof (stream_Phase _ _ _ _ Hs1) as HP.
    destruct (stream_started _ _ _ _ Hs1) as [_ Hst].
    rewrite Hascii in HP, Hst.
    pose proof (run_Tracked options records r Hmx Hr Hdata sched) as Htr.
    simpl in Htr. rewrite <- Hst in Htr. destruct Htr as [_ Htr].
    split; assumption. }
  destruct (Hgen _ _ Hs) as [HP Htr].
  split; [|split; [|split]].
  - intros st0. apply inferMX_mail_in with (r := r); assumption.
  - exact Htr.
  - intros Hin Hcl. apply closed_mail_called; auto.
  - destruct (stream_continued _ _ _ _ Hs) as (n & st' & Hs' & _ & Hquiet).
    exists n, st'. split; [exact Hs'|]. split; [exact Hquiet|].
    intros Hall Hin. destruct (Hgen _ _ Hs') as [HP' Htr'].
    assert (Hcl : closed st' = true).
    { apply (rest_closed domain options); [|exact Hall|exact Hquiet].
      rewrite Hascii. exact HP'. }
    split; [exact Hcl|]. apply closed_mail_called; auto.
Qed.

End MailExchangerStatement.

(** ** The statements on concrete runs *)

(** The result of the run in which every query resolves. *)
Example run_answers :
  @getAllDnsRecords Example.ext "example.com" Example.options Example.fifo
  = Resolved
      [Example.rec "example.com" "NS" "ns1.example.com.";
       Example.rec "example.com" "NS" "ns2.example.net.";
       Example.rec "example.com" "SOA"
                   "ns1.example.com. admin.example.com. 1 7200 3600 1209600 300";
       Example.rec "example.com" "A" "93.184.216.34";
       Example.rec "example.com" "MX" "10 mail.example.com.";
       Example.rec "mail.example.com" "A" "93.184.216.35"].
Proof. vm_compute. reflexivity. Qed.

(** C1, as stated, fails: when the promise of the SOA query rejects, the
    run comes to rest with [runningChecks] at 1 and the stream open, and
    [getAllDnsRecords] stays pending. *)
Lemma rejected_soa_counterexample :
  @getDnsRecords Example.ext "example.com" "SOA"
                 (resolver Example.optionsSoaRejects) = None
  /\ quiescent (Example.settled Example.optionsSoaRejects)
  /\ runningChecks (Example.settled Example.optionsSoaRejects) = 1%Z
  /\ closed (Example.settled Example.optionsSoaRejects) = false
  /\ @getAllDnsRecords Example.ext "example.com" Example.optionsSoaRejects
                       Example.fifo = Pending_.
Proof. repeat split; vm_compute; reflexivity. Qed.

(** The run in which the SOA promise rejects: the counter stays positive and
    the stream open; and the run in which every query resolves: at rest,
    the stream is closed. *)
Lemma rejected_query_blocks_completion_witness :
  @getAllDnsRecordsStream Example.ext "example.com" Example.optionsSoaRejects
                          Example.fifo
  = Some (Example.settled Example.optionsSoaRejects)
  /\ (1 <= runningChecks (Example.settled Example.optionsSoaRejects))%Z
  /\ closed (Example.settled Example.optionsSoaRejects) = false
  /\ quiescent (Example.settled Example.options)
  /\ closed (Example.settled Example.options) = true.
Proof.
  assert (Hs : @getAllDnsRecordsStream Example.ext "example.com"
                 Example.optionsSoaRejects Example.fifo
               = Some (Example.settled Example.optionsSoaRejects))
    by (vm_compute; reflexivity).
  assert (Hs' : @getAllDnsRecordsStream Example.ext "example.com"
                  Example.options Example.fifo
                = Some (Example.settled Example.options))
    by (vm_compute; reflexivity).
  assert (Hquiet : quiescent (Example.settled Example.options))
    by (vm_compute; reflexivity).
  split; [exact Hs|].
  destruct (@rejected_query_blocks_completion Example.ext "example.com"
              Example.optionsSoaRejects Example.fifo _ Hs) as (_ & Hrej & _ & _).
  destruct Hrej as (Hrc & Hcl & _).
  - exists ("example.com", "SOA"). split; [vm_compute; auto 10|reflexivity].
  - split; [exact Hrc|]. split; [exact Hcl|]. split; [exact Hquiet|].
    destruct (@rejected_query_blocks_completion Example.ext "example.com"
                Example.options Example.fifo _ Hs') as (_ & _ & Hall & _).
    apply Hall; [|exact Hquiet].
    intros q Hin. vm_compute in Hin.
    repeat (destruct Hin as [<- | Hin]; [vm_compute; discriminate|]).
    contradiction.
Defined.

(** C3: the run on [example.com] with a resolver whose answer to the NS
    query holds a record named [notexample.com].  [sendRecord] asks for the
    domain at the end of the name and for no dot before it: the line of
    the record is written to the stream and the record is in the result of
    [getAllDnsRecords], though its name is not the domain and does not end
    with [.example.com], the suffix without which [addSubdomain] takes no
    label from a name. *)
Theorem outside_name_is_emitted :
  @getDnsRecords Example.ext "example.com" "NS" (resolver Example.optionsOutside)
  = Some [Example.rec "example.com" "NS" "ns1.example.net."; Example.outsider]
  /\ In (wire Example.outsider)
        (written (Example.settled Example.optionsOutside))
  /\ @getAllDnsRecords Example.ext "example.com" Example.optionsOutside
                       Example.fifo
     = Resolved [Example.rec "example.com" "NS" "ns1.example.net.";
                 Example.outsider]
  /\ name Example.outsider <> "example.com"
  /\ JS.endsWith (name Example.outsider) ".example.com" = false
  /\ JS.endsWith (name Example.outsider) "example.com" = true
  /\ forall st, addSubdomain "example.com" st (name Example.outsider) = st.
Proof.
  split; [vm_compute; reflexivity|].
  split; [vm_compute; right; left; reflexivity|].
  split; [vm_compute; reflexivity|].
  split; [discriminate|].
  split; [reflexivity|]. split; [reflexivity|].
  intros st. reflexivity.
Qed.

(** The answers of [Example.answers] hold no tab, and the stream carries
    them as they are. *)
Lemma answers_intact (n t : string) (records : list DnsRecord) :
  Example.answers n t = Some records ->
  Forall (fun r => tabFreeRecord r = true /\ intact r = true) records.
Proof.
  unfold Example.answers.
  repeat match goal with
         | |- context [if ?b then _ else _] => destruct b
         end;
    intros [= <-]; repeat constructor.
Qed.

(** C4, as stated, fails: two TXT records whose data differ after a tab are
    both accepted by the sink, and both come back from their lines with
    the data cut at the tab: the result holds the same record twice. *)
Lemma tab_duplicates_counterexample :
  @getAllDnsRecords Example.ext "example.com" Example.optionsTabs Example.fifo
  = Resolved [Example.rec "example.com" "NS" "ns1.example.net.";
              Example.rec "example.com" "TXT" "v";
              Example.rec "example.com" "TXT" "v"]
  /\ ~ NoDup (map identity
                  [Example.rec "example.com" "NS" "ns1.example.net.";
                   Example.rec "example.com" "TXT" "v";
                   Example.rec "example.com" "TXT" "v"]).
Proof.
  split; [vm_compute; reflexivity|].
  intros Hnd. simpl in Hnd.
  inversion Hnd as [|? ? _ Hnd1]; subst.
  inversion Hnd1 as [|? ? Hnot _]; subst.
  apply Hnot. left. reflexivity.
Qed.

(** The run in which every query resolves: the records written, and the
    records of the result, have pairwise different identities. *)
Lemma sink_never_repeats_identity_witness :
  @getAllDnsRecordsStream Example.ext "example.com" Example.options Example.fifo
  = Some (Example.settled Example.options)
  /\ (exists accepted,
         written (Example.settled Example.options) = map wire accepted
         /\ NoDup (map identity accepted))
  /\ exists records,
      @getAllDnsRecords Example.ext "example.com" Example.options Example.fifo
      = Resolved records
      /\ NoDup (map identity records).
Proof.
  assert (Hs : @getAllDnsRecordsStream Example.ext "example.com"
                 Example.options Example.fifo
               = Some (Example.settled Example.options))
    by (vm_compute; reflexivity).
  split; [exact Hs|].
  destruct (@sink_never_repeats_identity Example.ext "example.com"
              Example.options Example.fifo _ Hs) as (Hsink & _ & Hres).
  split; [exact Hsink|].
  eexists. split; [exact run_answers|].
  apply Hres; [exact answers_intact|exact run_answers].
Defined.

(** The same with a byte order mark: the two NS records have different
    names and are both written; the reader decodes both lines to the same
    record. *)
Example mark_duplicates :
  @getAllDnsRecords Example.ext "example.com" Example.optionsMark Example.fifo
  = Resolved [Example.rec "example.com" "NS" "ns1.example.net.";
              Example.rec "example.com" "NS" "ns1.example.net."]
  /\ List.length (written (Example.settled Example.optionsMark)) = 2%nat.
Proof. split; vm_compute; reflexivity. Qed.

(** The run on a domain without NS record. *)
Lemma no_delegation_resolves_empty_witness :
  @isDomain Example.ext "example.com" = true
  /\ @getDnsRecords Example.ext "example.com" "NS"
                    (resolver Example.optionsNoDelegation) = Some []
  /\ @getAllDnsRecords Example.ext "example.com" Example.optionsNoDelegation
                       [0%nat] = Resolved [].
Proof.
  assert (Hd : @isDomain Example.ext "example.com" = true)
    by (vm_compute; reflexivity).
  assert (Hns : @getDnsRecords Example.ext "example.com" "NS"
                  (resolver Example.optionsNoDelegation) = Some [])
    by (vm_compute; reflexivity).
  split; [exact Hd|]. split; [exact Hns|].
  exact (proj1 (@no_delegation_resolves_empty Example.ext "example.com"
                  Example.optionsNoDelegation Hd Hns)).
Defined.

(** C6, as stated, fails: the caller supplies the label [www], which is
    also a well-known one, and the queue of the run holds it twice from the
    start. *)
Lemma seed_label_queued_twice_counterexample :
  subdomains Example.options = ["www"]
  /\ In "www" (@subdomainsRecords Example.ext)
  /\ subdomainsExtra (@start Example.ext "example.com" Example.options)
     = ["www"; "www"; "mail"; "ftp"; "api"; "blog"; "shop"]
  /\ ~ NoDup (subdomainsExtra (@start Example.ext "example.com"
                                      Example.options)).
Proof.
  split; [reflexivity|]. split; [left; reflexivity|].
  split; [reflexivity|].
  intros Hnd. inversion Hnd as [|? ? Hnot _]; subst.
  apply Hnot. left. reflexivity.
Qed.

(** The run in which every query resolves: no label is looked up twice, no
    call is made twice. *)
Lemma candidate_looked_up_once_witness :
  @getAllDnsRecordsStream Example.ext "example.com" Example.options Example.fifo
  = Some (Example.settled Example.options)
  /\ NoDup (subdomainsChecked (Example.settled Example.options))
  /\ NoDup (issued (Example.settled Example.options)).
Proof.
  assert (Hs : @getAllDnsRecordsStream Example.ext "example.com"
                 Example.options Example.fifo
               = Some (Example.settled Example.options))
    by (vm_compute; reflexivity).
  split; [exact Hs|].
  destruct (@candidate_looked_up_once Example.ext "example.com"
              Example.options Example.fifo _ Hs) as (Hc & Hi & _).
  split; assumption.
Defined.

(** The run in which every query resolves: the stream is closed and the A
    query for [mail.example.com] has been called. *)
Lemma mx_target_is_looked_up_witness :
  @toASCII Example.ext "example.com" = "example.com"
  /\ @getAllDnsRecordsStream Example.ext "example.com" Example.options
                             Example.fifo
     = Some (Example.settled Example.options)
  /\ @getDnsRecords Example.ext "example.com" "MX" (resolver Example.options)
     = Some [Example.rec "example.com" "MX" "10 mail.example.com."]
  /\ closed (Example.settled Example.options) = true
  /\ In ("mail.example.com", "A") (issued (Example.settled Example.options)).
Proof.
  assert (Hs : @getAllDnsRecordsStream Example.ext "example.com"
                 Example.options Example.fifo
               = Some (Example.settled Example.options))
    by (vm_compute; reflexivity).
  assert (Hmx : @getDnsRecords Example.ext "example.com" "MX"
                  (resolver Example.options)
                = Some [Example.rec "example.com" "MX" "10 mail.example.com."])
    by (vm_compute; reflexivity).
  assert (Hcl : closed (Example.settled Example.options) = true)
    by (vm_compute; reflexivity).
  split; [reflexivity|]. split; [exact Hs|]. split; [exact Hmx|].
  split; [exact Hcl|].
  destruct (@mx_target_is_looked_up Example.ext "example.com" Example.options
              Example.fifo _ _
              (Example.rec "example.com" "MX" "10 mail.example.com.")
              eq_refl Hs Hmx (or_introl eq_refl) eq_refl) as (_ & _ & Hcalled & _).
  apply Hcalled; [vm_compute; auto 10|exact Hcl].
Defined.

(** Twenty of twenty [A] records on one address, the well-known list having
    six labels: one wildcard record is left. *)
Lemma detectWildcardRecords_classifies_witness :
  exists t,
    filter (fun r => String.eqb (type r) "A")
           (@detectWildcardRecords Example.ext "example.com" Example.twenty
                                   defaultPercent)
    = [mkDnsRecord "*.example.com" "A" t "203.0.113.7"].
Proof.
  destruct (@detectWildcardRecords_classifies Example.ext "example.com"
              Example.twenty defaultPercent) as (_ & _ & _ & _ & Hall).
  apply (Hall "203.0.113.7").
  - intros r Hr _. vm_compute in Hr.
    repeat (destruct Hr as [<- | Hr]; [reflexivity|]). contradiction.
  - vm_compute. lia.
  - vm_compute. lia.
  - unfold defaultPercent, Qle. simpl. lia.
Defined.

Example twenty_of_twenty :
  @detectWildcardRecords Example.ext "example.com" Example.twenty defaultPercent
  = [mkDnsRecord "*.example.com" "A" (JS.Num 300) "203.0.113.7"].
Proof. vm_compute. reflexivity. Qed.

(** A sixth field is dropped. *)
Lemma parseDnsRecord_throws_iff_witness :
  parseDnsRecord (wire (Example.rec "example.com" "A" "93.184.216.34")) <> None
  /\ parseDnsRecord
       (wire (Example.rec "example.com" "A" "93.184.216.34") ++ JS.TAB ++ "more")
     = Some (Example.rec "example.com" "A" "93.184.216.34").
Proof.
  assert (Hok : parseDnsRecord (wire (Example.rec "example.com" "A" "93.184.216.34"))
                <> None) by (vm_compute; discriminate).
  split; [exact Hok|].
  destruct (parseDnsRecord_throws_iff
              (wire (Example.rec "example.com" "A" "93.184.216.34")))
    as (_ & _ & Hmore).
  rewrite (Hmore "more" Hok). vm_compute. reflexivity.
Defined.

(* ================================================================= *)
(** * Further properties *)

(** ** Strings: substrings, suffixes and first occurrences *)

Lemma substring_0_0 (s : string) : String.substring 0 0 s = "".
Proof. destruct s; reflexivity. Qed.

Lemma substring_0_app (s t : string) :
  String.substring 0 (String.length s) (s ++ t) = s.
Proof.
  induction s as [|a s IH]; simpl.
  - apply substring_0_0.
  - rewrite IH. reflexivity.
Qed.

Lemma substring_all (s : string) : String.substring 0 (String.length s) s = s.
Proof. induction s as [|a s IH]; simpl; [reflexivity|]. rewrite IH. reflexivity. Qed.

Lemma substring_skip_app (s t : string) (n m : nat) :
  String.substring (String.length s + n) m (s ++ t) = String.substring n m t.
Proof. induction s as [|a s IH]; simpl; [reflexivity|]. exact IH. Qed.

Lemma substring_app_tail (s t : string) :
  String.substring (String.length s) (String.length t) (s ++ t) = t.
Proof.
  rewrite <- (Nat.add_0_r (String.length s)), substring_skip_app.
  apply substring_all.
Qed.

Lemma substring_split (k : nat) :
  forall s, (k <= String.length s)%nat ->
            s = (String.substring 0 k s
                 ++ String.substring k (String.length s - k) s)%string.
Proof.
  induction k as [|k IH]; intros s Hk.
  - rewrite substring_0_0, Nat.sub_0_r, substring_all. reflexivity.
  - destruct s as [|a s]; simpl in *; [lia|].
    rewrite <- IH by lia. reflexivity.
Qed.

Lemma endsWith_app (p suf : string) : JS.endsWith (p ++ suf) suf = true.
Proof.
  unfold JS.endsWith. rewrite string_length_app.
  replace (String.length suf <=? String.length p + String.length suf)%nat
    with true by (symmetry; apply Nat.leb_le; lia).
  replace (String.length p + String.length suf - String.length suf)%nat
    with (String.length p) by lia.
  rewrite substring_app_tail. apply String.eqb_refl.
Qed.

Lemma endsWith_inv (s suf : string) :
  JS.endsWith s suf = true -> exists p, s = (p ++ suf)%string.
Proof.
  unfold JS.endsWith.
  destruct (String.length suf <=? String.length s)%nat eqn:Hle; [|discriminate].
  apply Nat.leb_le in Hle. intros Heq. apply String.eqb_eq in Heq.
  exists (String.substring 0 (String.length s - String.length suf) s).
  rewrite (substring_split (String.length s - String.length suf) s) at 1 by lia.
  replace (String.length s - (String.length s - String.length suf))%nat
    with (String.length suf) by lia.
  rewrite Heq. reflexivity.
Qed.

Lemma endsWith_longer (s suf : string) :
  (String.length s < String.length suf)%nat -> JS.endsWith s suf = false.
Proof.
  intros Hlt. unfold JS.endsWith.
  replace (String.length suf <=? String.length s)%nat with false
    by (symmetry; apply Nat.leb_gt; lia).
  reflexivity.
Qed.

Lemma slice_0_m1_app (s : string) : JS.slice_0_m1 (s ++ ".") = s.
Proof.
  unfold JS.slice_0_m1. rewrite string_length_app. simpl.
  replace (String.length s + 1 - 1)%nat with (String.length s) by lia.
  apply substring_0_app.
Qed.



Lemma string_app_assoc (a b c : string) :
  ((a ++ b) ++ c)%string = (a ++ (b ++ c))%string.
Proof. induction a as [|x a IH]; simpl; [reflexivity|]. rewrite IH. reflexivity. Qed.




(** [s.includes(sub)] holds when [sub] occurs in [s]. *)
Lemma includes_app (a sub b : string) : JS.includes (a ++ sub ++ b) sub = true.
Proof.
  unfold JS.includes.
  destruct (String.index 0 sub (a ++ sub ++ b)) eqn:Hi; [reflexivity|].
  destruct sub as [|x sub]; [reflexivity|].
  exfalso.
  apply (String.index_correct3 0 (String.length a) _ _ Hi);
    [discriminate|lia|].
  rewrite <- (Nat.add_0_r (String.length a)), substring_skip_app.
  apply substring_0_app.
Qed.

Lemma endsWith_cons (x c : ascii) (s : string) :
  s <> "" ->
  JS.endsWith (String x s) (String c "") = JS.endsWith s (String c "").
Proof.
  intros Hs. destruct s as [|y s]; [congruence|].
  unfold JS.endsWith. simpl String.length.
  replace (S (S (String.length s)) - 1)%nat with (S (S (String.length s) - 1))
    by lia.
  reflexivity.
Qed.

Lemma endsWith_app_char (a b : string) (c : ascii) :
  b <> "" ->
  JS.endsWith (a ++ b) (String c "") = JS.endsWith b (String c "").
Proof.
  intros Hb. induction a as [|x a IH]; [reflexivity|].
  simpl String.append. rewrite endsWith_cons; [exact IH|].
  destruct a; simpl; [exact Hb|discriminate].
Qed.

(** A name in the form with a final dot does not end with a domain given
    without it. *)
Lemma endsWith_dot_mismatch (s domain : string) :
  domain <> "" ->
  JS.endsWith domain "." = false ->
  JS.endsWith s "." = true ->
  JS.endsWith s domain = false.
Proof.
  intros Hne Hd Hs. destruct (JS.endsWith s domain) eqn:He; [|reflexivity].
  apply endsWith_inv in He. destruct He as (p & ->).
  rewrite (endsWith_app_char p domain "." Hne) in Hs. congruence.
Qed.

Lemma sepFree_app (c : ascii) (a b : string) :
  sepFree c (a ++ b) = sepFree c a && sepFree c b.
Proof.
  unfold sepFree. induction a as [|x a IH]; simpl; [reflexivity|].
  rewrite IH. apply andb_assoc.
Qed.

(** ** [addSubdomain]: the label of a name under the domain *)



Lemma substring_length_le (s : string) :
  forall n m, (String.length (String.substring n m s) <= String.length s)%nat.
Proof.
  induction s as [|a s IH]; intros [|n] [|m]; simpl; try lia.
  - specialize (IH 0%nat m). lia.
  - specialize (IH n 0%nat). lia.
  - specialize (IH n (S m)). lia.
Qed.

(** X14: a target that is the domain itself, with or without a final dot,
    proposes no label: [addSubdomain] leaves the state as it is. *)
Theorem domain_itself_proposes_no_label (domain : string) (st : Run) :
  addSubdomain domain st domain = st
  /\ addSubdomain domain st (domain ++ ".") = st.
Proof.
  assert (Hlong : JS.endsWith domain ("." ++ domain) = false).
  { apply endsWith_longer. simpl. lia. }
  split; unfold addSubdomain.
  - destruct (JS.endsWith domain ".") eqn:Hd.
    + rewrite endsWith_longer; [reflexivity|].
      unfold JS.slice_0_m1. simpl.
      pose proof (substring_length_le domain 0 (String.length domain - 1)).
      lia.
    + rewrite Hlong. reflexivity.
  - rewrite endsWith_app, slice_0_m1_app, Hlong. reflexivity.
Qed.

(** ** The data of a record read back from its line *)

(** X18: a record whose name and type hold no tab character is always read
    back from its line, with its name, ttl and type, and with its data cut
    at the first tab. *)
Theorem parseDnsRecord_cuts_data (r : DnsRecord) :
  tabFree (name r) = true ->
  tabFree (type r) = true ->
  parseDnsRecord (wire r)
  = Some {| name := name r; type := type r; ttl := ttl r;
            data := JS.at_ (JS.split JS.tab (data r)) 0 |}.
Proof.
  intros Hn Ht. unfold parseDnsRecord.
  rewrite (split_wire_fields r Hn Ht).
  destruct (JS.split JS.tab (data r)) as [|h t] eqn:Hs;
    [destruct (split_not_nil JS.tab (data r) Hs)|].
  unfold JS.at_. cbn [app List.length nth Nat.ltb Nat.leb].
  rewrite String.eqb_refl, Number_String. reflexivity.
Qed.

(** ** Wildcard detection: what it leaves alone *)

Lemma Qnat_half_le_inv (m n : nat) :
  (Qnat m / 2 <= Qnat n)%Q -> (m <= 2 * n)%nat.
Proof.
  unfold Qnat, Qle, Qdiv, Qmult, Qinv. simpl. lia.
Qed.

Lemma Qnat_ratio_le (a : Z) (b : positive) (g n : nat) :
  (1 <= n)%nat ->
  (a # b <= Qnat g / Qnat n)%Q ->
  (a * Z.of_nat n <= Z.of_nat g * Zpos b)%Z.
Proof.
  intros Hn. destruct n as [|n]; [lia|].
  unfold Qnat, Qle, Qdiv, Qmult, Qinv. simpl. lia.
Qed.

Lemma collapse_unchanged (domain : string) (ev : DnsRecord -> bool)
      (records : list DnsRecord) :
  (forall r, In r records -> ev r = false) ->
  forall found, collapse domain ev found records = records.
Proof.
  induction records as [|r records IH]; intros Hev found; simpl; [reflexivity|].
  rewrite (Hev r (or_introl eq_refl)), IH; [reflexivity|].
  intros r' Hr'. apply Hev. right. exact Hr'.
Qed.

Lemma recordTypeLength_pos (records : list DnsRecord) (r : DnsRecord) :
  In r records -> (1 <= recordTypeLength records r)%nat.
Proof.
  intros Hr. unfold recordTypeLength.
  assert (Hin : In r (filter (fun r0 => type r0 =? type r) records)).
  { apply filter_In. split; [exact Hr|apply String.eqb_refl]. }
  destruct (filter _ records); [contradiction|simpl; lia].
Qed.

(** Every record of the input has its type and data in the result, in
    the record itself or in a wildcard record. *)
Lemma detect_keeps_input `{Externals} (domain : string)
      (records : list DnsRecord) (percent : Q) (r : DnsRecord) :
  In r records ->
  exists o, In o (detectWildcardRecords domain records percent)
            /\ type o = type r /\ data o = data r
            /\ (o = r \/ name o = ("*." ++ domain)%string).
Proof.
  intros Hr. destruct (wildcardEvidence records percent r) eqn:Hev.
  - destruct (out_group domain records percent r Hr Hev) as (r0 & _ & Hf).
    assert (Hin : In (asWildcard domain r0)
                     (filter (sameGroup r)
                             (detectWildcardRecords domain records percent))).
    { rewrite Hf. left. reflexivity. }
    apply filter_In in Hin. destruct Hin as [Hin Hsame].
    apply sameGroup_true in Hsame. destruct Hsame as [Ht Hd].
    exists (asWildcard domain r0).
    split; [exact Hin|]. split; [exact Ht|]. split; [exact Hd|].
    right. reflexivity.
  - exists r. split; [|auto].
    assert (Hin : In r (filter (fun r => negb (wildcardEvidence records percent r))
                               records)).
    { apply filter_In. rewrite Hev. auto. }
    rewrite <- (out_kept domain records percent) in Hin.
    apply filter_In in Hin. tauto.
Qed.

Section WildcardEdges.

Context `{Externals}.
Variable domain : string.
Variable records : list DnsRecord.

(** X15: when, for every address-bearing type, the records of the type are
    fewer than half the well-known subdomains, [detectWildcardRecords]
    returns its input unchanged, whatever the threshold. *)
Theorem small_record_sets_are_unchanged (percent : Q) :
  (forall r, In r records -> isAddressType (type r) = true ->
             (2 * recordTypeLength records r
              < List.length subdomainsRecords)%nat) ->
  detectWildcardRecords domain records percent = records.
Proof.
  intros Hsmall. rewrite detect_collapse. apply collapse_unchanged.
  intros r Hr. destruct (wildcardEvidence records percent r) eqn:Hev;
    [exfalso|reflexivity].
  apply evidence_iff in Hev. destruct Hev as (Ha & _ & Hhalf).
  apply Qnat_half_le_inv in Hhalf. specialize (Hsmall r Hr Ha). lia.
Qed.

(** X16: with the default threshold and a list of at least 13 well-known
    subdomains, records of which no two address-bearing ones share type and
    data are returned unchanged. *)
Theorem distinct_data_is_unchanged :
  (13 <= List.length subdomainsRecords)%nat ->
  (forall r, In r records -> isAddressType (type r) = true ->
             (groupSize records r <= 1)%nat) ->
  detectWildcardRecords domain records defaultPercent = records.
Proof.
  intros Hlen Hone. rewrite detect_collapse. apply collapse_unchanged.
  intros r Hr. destruct (wildcardEvidence records defaultPercent r) eqn:Hev;
    [exfalso|reflexivity].
  apply evidence_iff in Hev. destruct Hev as (Ha & Hratio & Hhalf).
  apply Qnat_half_le_inv in Hhalf.
  apply Qnat_ratio_le in Hratio; [|apply recordTypeLength_pos; exact Hr].
  specialize (Hone r Hr Ha). lia.
Qed.

(** X17: wildcard detection keeps the pairs of type and data: a pair
    occurs in the result exactly when it occurs in the input. *)
Theorem detectWildcardRecords_keeps_type_and_data (percent : Q) (t d : string) :
  (exists o, In o (detectWildcardRecords domain records percent)
             /\ type o = t /\ data o = d)
  <-> (exists r, In r records /\ type r = t /\ data r = d).
Proof.
  split.
  - intros (o & Ho & Ht & Hd).
    destruct (out_origin domain records percent o Ho) as (r & Hr & [-> | ->]).
    + exists r. auto.
    + exists r. auto.
  - intros (r & Hr & Ht & Hd).
    destruct (detect_keeps_input domain records percent r Hr)
      as (o & Ho & Ht' & Hd' & _).
    exists o. split; [exact Ho|]. split; congruence.
Qed.

End WildcardEdges.

(** ** Domain name validation *)

Lemma all_impl (p q : ascii -> bool) (s : string) :
  (forall c, p c = true -> q c = true) ->
  Validation.all p s = true -> Validation.all q s = true.
Proof.
  intros Hpq. unfold Validation.all.
  induction s as [|a s IH]; simpl; [reflexivity|].
  intros Hs. apply andb_prop in Hs. destruct Hs as [Ha Hs].
  rewrite (Hpq a Ha), (IH Hs). reflexivity.
Qed.

Lemma all_app (p : ascii -> bool) (s t : string) :
  Validation.all p (s ++ t) = Validation.all p s && Validation.all p t.
Proof.
  unfold Validation.all. induction s as [|a s IH]; simpl; [reflexivity|].
  rewrite IH. apply andb_assoc.
Qed.

Lemma xnTest_chars (s : string) :
  Validation.xnTest s = true ->
  Validation.all (fun c => Validation.isLetter c || Validation.isDigit c
                           || Validation.isDash c) s = true.
Proof.
  destruct s as [|x [|n rest]]; try discriminate. simpl.
  intros Hs. repeat (apply andb_prop in Hs; destruct Hs as [Hs ?]).
  unfold Validation.all in *. simpl.
  assert (Hx : Validation.isLetter x = true).
  { apply orb_prop in Hs. destruct Hs as [Hs | Hs];
      apply Ascii.eqb_eq in Hs; subst x; reflexivity. }
  assert (Hn : Validation.isLetter n = true).
  { match goal with
    | Hn : (Ascii.eqb n _ || Ascii.eqb n _) = true |- _ =>
        apply orb_prop in Hn; destruct Hn as [Hn | Hn];
        apply Ascii.eqb_eq in Hn; subst n; reflexivity
    end. }
  rewrite Hx, Hn. simpl. assumption.
Qed.

Lemma tldTest_chars (s : string) :
  Validation.tldTest s = true -> Validation.all nameChar s = true.
Proof.
  unfold Validation.tldTest. intros Hs. apply orb_prop in Hs.
  destruct Hs as [Hs | Hs].
  - repeat (apply andb_prop in Hs; destruct Hs as [Hs ?]).
    eapply all_impl; [|exact Hs].
    intros c Hc. unfold nameChar. rewrite Hc. reflexivity.
  - eapply all_impl; [|apply xnTest_chars; exact Hs].
    intros c Hc. unfold nameChar. rewrite Hc. reflexivity.
Qed.

Lemma labelTest_chars (s : string) :
  Validation.labelTest s = true ->
  Validation.all (fun c => Validation.isLetter c || Validation.isDigit c
                           || Validation.isDash c || Ascii.eqb c "_") s = true.
Proof.
  unfold Validation.labelTest. intros Hs. apply orb_prop in Hs.
  destruct Hs as [Hs | Hs].
  - repeat (apply andb_prop in Hs; destruct Hs as [Hs ?]). exact Hs.
  - eapply all_impl; [|apply xnTest_chars; exact Hs].
    intros c Hc. rewrite Hc. reflexivity.
Qed.

Lemma labelTest_nameChars (s : string) :
  Validation.labelTest s = true -> Validation.all nameChar s = true.
Proof.
  intros Hs. eapply all_impl; [|apply labelTest_chars; exact Hs].
  intros c Hc. unfold nameChar. rewrite Hc. reflexivity.
Qed.

Lemma labelTest_dotFree (s : string) :
  Validation.labelTest s = true -> sepFree "." s = true.
Proof.
  intros Hs. apply labelTest_chars in Hs.
  unfold sepFree. unfold Validation.all in Hs.
  induction (list_ascii_of_string s) as [|a l IH]; simpl in *; [reflexivity|].
  apply andb_prop in Hs. destruct Hs as [Ha Hs]. rewrite (IH Hs), andb_true_r.
  destruct (Ascii.eqb a ".") eqn:Hdot; [|reflexivity].
  apply Ascii.eqb_eq in Hdot. subst a. discriminate Ha.
Qed.

(** The characters of a string are those of its fields and the separator. *)
Lemma split_all (q : ascii -> bool) (c : ascii) (s : string) :
  q c = true ->
  Forall (fun f => Validation.all q f = true) (JS.split c s) ->
  Validation.all q s = true.
Proof.
  intros Hc. unfold Validation.all.
  induction s as [|a s IH]; simpl; [reflexivity|].
  destruct (Ascii.eqb a c) eqn:Hac.
  - apply Ascii.eqb_eq in Hac. subst a. intros Hf.
    rewrite Hc. simpl. apply IH. apply Forall_inv_tail in Hf. exact Hf.
  - destruct (JS.split c s) as [|h t] eqn:Hs.
    + destruct (split_not_nil c s Hs).
    + intros Hf. pose proof (Forall_inv Hf) as Hh. simpl in Hh.
      apply andb_prop in Hh. destruct Hh as [Ha Hh].
      rewrite Ha. simpl. apply IH. constructor; [exact Hh|].
      apply Forall_inv_tail in Hf. exact Hf.
Qed.

Lemma every_from_app (p : string -> nat -> bool) (l1 l2 : list string) :
  forall k,
    Validation.every_from p k (l1 ++ l2)
    = Validation.every_from p k l1
      && Validation.every_from p (k + List.length l1) l2.
Proof.
  induction l1 as [|x l1 IH]; intros k; simpl.
  - rewrite Nat.add_0_r. reflexivity.
  - rewrite IH, andb_assoc. replace (S k + List.length l1)%nat
      with (k + S (List.length l1))%nat by lia. reflexivity.
Qed.

Lemma every_from_Forall (p : string -> nat -> bool) (l : list string) :
  forall k,
    Validation.every_from p k l = true ->
    Forall (fun label => exists i, p label i = true) l.
Proof.
  induction l as [|x l IH]; intros k Hl; [constructor|].
  simpl in Hl. apply andb_prop in Hl. destruct Hl as [Hx Hl].
  constructor; [exists k; exact Hx|]. apply (IH (S k)). exact Hl.
Qed.

Lemma sepFree_false_occurs (c : ascii) (s : string) :
  sepFree c s = false -> exists a b, s = (a ++ String c b)%string.
Proof.
  unfold sepFree. induction s as [|x s IH]; simpl; [discriminate|].
  destruct (Ascii.eqb x c) eqn:Hx; simpl.
  - intros _. apply Ascii.eqb_eq in Hx. subst x. exists "", s. reflexivity.
  - intros Hs. destruct (IH Hs) as (a & b & ->).
    exists (String x a), b. reflexivity.
Qed.

Lemma substring_strip (s : string) :
  String.substring 0 (String.length (s ++ ".") - 1) (s ++ ".") = s.
Proof.
  rewrite string_length_app. simpl.
  replace (String.length s + 1 - 1)%nat with (String.length s) by lia.
  apply substring_0_app.
Qed.

(** The name without its final dot. *)
Lemma strip_dot (s : string) :
  JS.endsWith s "." = true ->
  s = (String.substring 0 (String.length s - 1) s ++ ".")%string.
Proof.
  intros Hs. destruct (endsWith_inv s "." Hs) as (p & ->).
  rewrite string_length_app. simpl.
  replace (String.length p + 1 - 1)%nat with (String.length p) by lia.
  rewrite substring_0_app. reflexivity.
Qed.

(** The fields of a string hold characters of the string. *)
Lemma all_split (q : ascii -> bool) (c : ascii) (s : string) :
  Validation.all q s = true ->
  Forall (fun f => Validation.all q f = true) (JS.split c s).
Proof.
  unfold Validation.all.
  induction s as [|a s IH]; simpl; [repeat constructor|].
  intros Hs. apply andb_prop in Hs. destruct Hs as [Ha Hs].
  specialize (IH Hs).
  destruct (Ascii.eqb a c); [constructor; [reflexivity|exact IH]|].
  destruct (JS.split c s) as [|h t].
  - repeat constructor. simpl. rewrite Ha. reflexivity.
  - inversion IH as [|? ? Hh Ht]; subst.
    constructor; [|exact Ht]. simpl. rewrite Ha. exact Hh.
Qed.

(** The characters that the label test accepts are plain. *)
Lemma labelChar_plain (c : ascii) :
  Validation.isLetter c || Validation.isDigit c || Validation.isDash c
  || Ascii.eqb c "_" = true ->
  plainChar c = true.
Proof.
  intros Hc. unfold plainChar.
  destruct (Ascii.eqb c "@") eqn:Hat.
  { apply Ascii.eqb_eq in Hat. subst c. discriminate Hc. }
  rewrite andb_true_r.
  apply orb_prop in Hc. destruct Hc as [Hc | Hc].
  - unfold Validation.isLetter, Validation.isDigit, Validation.isDash in Hc.
    apply orb_prop in Hc. destruct Hc as [Hc | Hc].
    + apply orb_prop in Hc. destruct Hc as [Hc | Hc].
      * apply orb_prop in Hc.
        destruct Hc as [Hc | Hc]; apply andb_prop in Hc;
          destruct Hc as [Hlo Hhi];
          apply Nat.leb_le in Hlo; apply Nat.leb_le in Hhi;
          apply andb_true_intro; split; apply Nat.leb_le; lia.
      * apply andb_prop in Hc. destruct Hc as [Hlo Hhi].
        apply Nat.leb_le in Hlo. apply Nat.leb_le in Hhi.
        apply andb_true_intro; split; apply Nat.leb_le; lia.
    + apply Ascii.eqb_eq in Hc. subst c. reflexivity.
  - apply Ascii.eqb_eq in Hc. subst c. reflexivity.
Qed.

Lemma labelTest_plain (s : string) :
  Validation.labelTest s = true -> plainAscii s = true.
Proof.
  intros Hs. unfold plainAscii.
  eapply all_impl; [|apply labelTest_chars; exact Hs].
  exact labelChar_plain.
Qed.

(** The name without its final dot is made of characters of the name. *)
Lemma all_stripped (q : ascii -> bool) (s : string) :
  Validation.all q s = true ->
  Validation.all q (if JS.endsWith s "."
                    then String.substring 0 (String.length s - 1) s
                    else s) = true.
Proof.
  intros Hs. destruct (JS.endsWith s ".") eqn:Hdot; [|exact Hs].
  rewrite (strip_dot s Hdot), all_app in Hs.
  apply andb_prop in Hs. destruct Hs as [Hs _]. exact Hs.
Qed.

Section ValidationStatements.

Context `{Externals}.

(** X19: a name in the form with a final dot is a domain name exactly
    when the name without it is. *)
Theorem isDomain_ignores_final_dot (domain : string) :
  JS.endsWith domain "." = false ->
  isDomain (domain ++ ".") = isDomain domain.
Proof.
  intros Hd. unfold isDomain. rewrite endsWith_app, Hd.
  rewrite string_length_app. simpl.
  replace (String.length domain + 1 - 1)%nat with (String.length domain) by lia.
  rewrite substring_0_app. reflexivity.
Qed.

(** [toASCII] on the strings of printable ASCII without at sign. *)
Hypothesis toASCII_plain : forall s, plainAscii s = true -> toASCII s = s.

Lemma isTld_chars (label : string) :
  plainAscii label = true ->
  isTld label = true -> Validation.all nameChar label = true.
Proof.
  unfold isTld. intros Hp.
  destruct (JS.startsWith label ".") eqn:Hdot.
  - unfold JS.startsWith in Hdot.
    destruct label as [|a rest]; [discriminate Hdot|].
    change (String.prefix "." (String a rest))
      with (if ascii_dec "." a then String.prefix "" rest else false) in Hdot.
    revert Hdot. destruct (ascii_dec "." a) as [<-|]; [intros _|discriminate].
    replace (String.substring 1 (String.length (String "." rest) - 1)
                              (String "." rest)) with rest
      by (simpl; rewrite Nat.sub_0_r, substring_all; reflexivity).
    assert (Hrest : plainAscii rest = true).
    { unfold plainAscii, Validation.all in *. simpl in Hp. exact Hp. }
    rewrite (toASCII_plain rest Hrest). intros Hr.
    apply tldTest_chars in Hr. unfold Validation.all in *. simpl. exact Hr.
  - rewrite (toASCII_plain label Hp). apply tldTest_chars.
Qed.

(** X20: [toASCII] leaving the strings of printable ASCII without at sign
    as they are, such a name that [isDomain] accepts holds only letters,
    digits, dashes, underscores and dots, and at least one dot. *)
Theorem isDomain_characters (domain : string) :
  plainAscii domain = true ->
  isDomain domain = true ->
  Validation.all nameChar domain = true
  /\ JS.includes domain "." = true.
Proof.
  intros Hplain. unfold isDomain.
  pose proof (all_stripped plainChar domain Hplain) as Hps.
  set (stripped := if JS.endsWith domain "."
                   then String.substring 0 (String.length domain - 1) domain
                   else domain) in *.
  rewrite (toASCII_plain stripped Hps).
  intros Hd. apply andb_prop in Hd. destruct Hd as [Hlen Hevery].
  assert (Hstripped : Validation.all nameChar stripped = true
                      /\ JS.includes stripped "." = true).
  { split.
    - apply (split_all nameChar "."); [reflexivity|].
      apply every_from_Forall in Hevery.
      pose proof (all_split plainChar "." stripped Hps) as Hfields.
      apply Forall_rev in Hfields.
      rewrite <- (rev_involutive (JS.split "." stripped)).
      apply Forall_rev.
      rewrite Forall_forall in Hevery, Hfields. apply Forall_forall.
      intros label Hin. destruct (Hevery label Hin) as [[|i] Hi].
      + apply isTld_chars; [apply (Hfields label Hin)|exact Hi].
      + apply andb_prop in Hi. destruct Hi as [_ Hi].
        apply labelTest_nameChars. exact Hi.
    - rewrite length_rev in Hlen. apply Nat.ltb_lt in Hlen.
      destruct (sepFree "." stripped) eqn:Hfree.
      + rewrite (split_field "." stripped Hfree) in Hlen. simpl in Hlen. lia.
      + destruct (sepFree_false_occurs "." stripped Hfree) as (a & b & ->).
        apply (includes_app a "." b). }
  destruct Hstripped as [Hall Hinc]. unfold stripped in *.
  destruct (JS.endsWith domain ".") eqn:Hdot; [|auto].
  rewrite (strip_dot domain Hdot). split.
  - rewrite all_app, Hall. reflexivity.
  - apply (includes_app (String.substring 0 (String.length domain - 1) domain)
                        "." "").
Qed.

(** X21: [toASCII] leaving the strings of printable ASCII without at sign
    as they are, a well-formed label put before a valid domain name of such
    characters gives a valid domain name: the lookup of such a label is
    never refused by the validation of [getDnsRecords]. *)
Theorem isDomain_sublabel (domain label : string) (kind : string)
        (lookup : Resolver) :
  plainAscii domain = true ->
  isDomain domain = true ->
  labelOk label = true ->
  isDomain (label ++ "." ++ domain) = true
  /\ getDnsRecords (label ++ "." ++ domain) kind lookup
     = lookup (label ++ "." ++ domain)%string kind.
Proof.
  intros Hplain Hd Hl.
  assert (Hgoal : isDomain (label ++ "." ++ domain) = true).
  { unfold labelOk in Hl.
    pose proof Hl as Hl'. apply andb_prop in Hl'. destruct Hl' as [_ Htest].
    pose proof (labelTest_dotFree label Htest) as Hfree.
    pose proof (labelTest_plain label Htest) as Hlabel.
    pose proof (all_stripped plainChar domain Hplain) as Hps.
    assert (Hne : domain <> "").
    { intros ->.
      assert (Hempty : isDomain "" = false)
        by (unfold isDomain; simpl; rewrite (toASCII_plain "" eq_refl);
            reflexivity).
      congruence. }
    unfold isDomain in *.
    assert (Hstrip :
              (if JS.endsWith (label ++ "." ++ domain) "."
               then String.substring
                      0 (String.length (label ++ "." ++ domain) - 1)
                      (label ++ "." ++ domain)
               else (label ++ "." ++ domain)%string)
              = (label ++ "."
                       ++ (if JS.endsWith domain "."
                           then String.substring
                                  0 (String.length domain - 1) domain
                           else domain))%string).
    { replace (label ++ "." ++ domain)%string
        with ((label ++ ".") ++ domain)%string
        by (rewrite string_app_assoc; reflexivity).
      rewrite (endsWith_app_char (label ++ ".") domain "." Hne).
      destruct (JS.endsWith domain ".") eqn:Hdot.
      - destruct (endsWith_inv domain "." Hdot) as (p & ->).
        rewrite <- string_app_assoc, !substring_strip.
        rewrite string_app_assoc. reflexivity.
      - rewrite string_app_assoc. reflexivity. }
    rewrite Hstrip.
    set (stripped := if JS.endsWith domain "."
                     then String.substring 0 (String.length domain - 1) domain
                     else domain) in *.
    assert (Hwhole : plainAscii (label ++ "." ++ stripped) = true).
    { unfold plainAscii in *. rewrite !all_app, Hlabel, Hps. reflexivity. }
    rewrite (toASCII_plain stripped Hps) in Hd.
    rewrite (toASCII_plain _ Hwhole).
    change (label ++ "." ++ stripped)%string
      with (label ++ String "." stripped)%string.
    rewrite (split_field_sep "." label stripped Hfree).
    simpl rev. apply andb_prop in Hd. destruct Hd as [Hlen Hevery].
    rewrite length_app, every_from_app, Hevery. simpl.
    apply Nat.ltb_lt in Hlen.
    destruct (List.length (rev (JS.split "." stripped))) as [|k] eqn:Hk;
      [lia|].
    rewrite Hl. simpl. rewrite andb_true_r. apply Nat.ltb_lt. lia. }
  split; [exact Hgoal|].
  unfold getDnsRecords. rewrite Hgoal. reflexivity.
Qed.

End ValidationStatements.

(** ** The types of the registry resolvers *)

Lemma typeName_cases (n : Z) :
  In (n, typeName n) dnsTypeNumbers
  \/ typeName n = JS.String_ (JS.Num n).
Proof.
  unfold typeName, dnsTypeNumbers, typeOfNumber.
  repeat match goal with
         | |- context [(?k =? n)%Z] =>
             destruct (Z.eqb_spec k n) as [<- | ?];
             [left; simpl; auto 20|]
         end.
  right. reflexivity.
Qed.

Lemma String_no_letter (z : Z) : startsWithLetter (JS.String_ (JS.Num z)) = false.
Proof.
  unfold JS.String_, NilZero.string_of_int.
  destruct z as [|p|p]; simpl; [reflexivity| |reflexivity].
  unfold NilZero.string_of_uint.
  destruct (Pos.to_uint p); reflexivity.
Qed.

Lemma String_inj (n m : Z) :
  JS.String_ (JS.Num n) = JS.String_ (JS.Num m) -> n = m.
Proof.
  intros Heq. apply (f_equal JS.Number_) in Heq.
  rewrite !Number_String in Heq. congruence.
Qed.

Lemma table_letters (n : Z) (s : string) :
  In (n, s) dnsTypeNumbers -> startsWithLetter s = true.
Proof.
  intros Hin. simpl in Hin.
  repeat (destruct Hin as [[= <- <-] | Hin]; [reflexivity|]). contradiction.
Qed.

Lemma table_inj (n m : Z) (s : string) :
  In (n, s) dnsTypeNumbers -> In (m, s) dnsTypeNumbers -> n = m.
Proof.
  assert (Hnd : NoDup (map snd dnsTypeNumbers)).
  { simpl.
    repeat (constructor;
            [simpl; intros Hin;
             repeat (destruct Hin as [Hin | Hin]; [discriminate Hin|]);
             exact Hin|]).
    constructor. }
  revert Hnd. generalize dnsTypeNumbers as table.
  induction table as [|[k v] table IH]; simpl; [contradiction|].
  intros Hnd Hn Hm. inversion Hnd as [|x l Hnotin Hnd']; subst.
  destruct Hn as [Hn | Hn], Hm as [Hm | Hm].
  - congruence.
  - exfalso. apply Hnotin. apply (in_map snd) in Hm.
    injection Hn as _ ->. exact Hm.
  - exfalso. apply Hnotin. apply (in_map snd) in Hn.
    injection Hm as _ ->. exact Hn.
  - apply IH; assumption.
Qed.

(** X22: the registry resolvers name the types injectively: two different
    type numbers never give the same type string, and a type string is
    address-bearing exactly for the numbers 1, 5 and 28. *)
Theorem typeName_injective (n m : Z) :
  (typeName n = typeName m -> n = m)
  /\ (isAddressType (typeName n) = true <-> n = 1%Z \/ n = 5%Z \/ n = 28%Z).
Proof.
  split.
  - intros Heq.
    destruct (typeName_cases n) as [Hn | Hn], (typeName_cases m) as [Hm | Hm].
    + rewrite Heq in Hn. exact (table_inj n m _ Hn Hm).
    + apply table_letters in Hn. rewrite Heq, Hm, String_no_letter in Hn.
      discriminate Hn.
    + apply table_letters in Hm. rewrite <- Heq, Hn, String_no_letter in Hm.
      discriminate Hm.
    + rewrite Hn, Hm in Heq. apply String_inj. exact Heq.
  - split.
    + intros Ha. apply isAddressType_cases in Ha.
      destruct (typeName_cases n) as [Hn | Hn].
      * simpl in Hn.
        repeat (destruct Hn as [[= <- Hn] | Hn];
                [try (left; reflexivity);
                 try (right; left; reflexivity);
                 try (right; right; reflexivity);
                 rewrite <- Hn in Ha;
                 destruct Ha as [Ha | [Ha | Ha]]; discriminate Ha|]).
        contradiction.
      * pose proof (String_no_letter n) as Hl. rewrite <- Hn in Hl.
        destruct Ha as [Ha | [Ha | Ha]]; rewrite Ha in Hl; discriminate Hl.
    + intros [-> | [-> | ->]]; reflexivity.
Qed.

(** ** Candidates are looked up *)

Section Tracking.

Context `{Externals}.
Variable domain : string.
Variable options : GetAllDnsRecordsOptions.
Variable label : string.

Hypothesis label_named : label <> "".

Lemma runHandler_Waiting (h : Handler) (st : Run) (records : list DnsRecord) :
  CheckedCalled domain st -> Waiting domain label st ->
  CheckedCalled domain (runHandler domain h st records)
  /\ Waiting domain label (runHandler domain h st records).
Proof.
  intros Hcc Hw.
  destruct (runHandler_Progress domain h st records) as (Hi & _ & Hc & Hq & _).
  split; [apply Hc; exact Hcc|].
  destruct Hw as [Hw | Hw].
  - exact (Hq Hcc label Hw label_named).
  - right. apply Hi. exact Hw.
Qed.

Lemma settle_Waiting (st : Run) (i : nat) :
  CheckedCalled domain st -> Waiting domain label st ->
  CheckedCalled domain (settle domain options st i)
  /\ Waiting domain label (settle domain options st i).
Proof.
  intros Hcc Hw. unfold settle.
  destruct (nth_error (inflight st) i) as [p|]; [|auto].
  destruct (getDnsRecords (p_name p) (p_type p) (resolver options)) as [rs|];
    [|auto].
  apply runHandler_Waiting; assumption.
Qed.

Lemma exec_Waiting (schedule : list nat) :
  forall st,
    CheckedCalled domain st -> Waiting domain label st ->
    CheckedCalled domain (exec domain options schedule st)
    /\ Waiting domain label (exec domain options schedule st).
Proof.
  unfold exec. induction schedule as [|i schedule IH]; intros st Hcc Hw; simpl.
  - auto.
  - destruct (settle_Waiting st i Hcc Hw) as [Hcc' Hw']. apply IH; assumption.
Qed.

(** The promise [src], once resolved, leaves the label in the queue. *)
Variable src : Pending.
Variable answer : list DnsRecord.

Hypothesis src_resolves :
  getDnsRecords (p_name src) (p_type src) (resolver options) = Some answer.

Hypothesis src_proposes :
  forall st0,
    exists st2,
      Inferred st0 st2
      /\ runHandler domain (p_then src) st0 answer = reqDone domain st2
      /\ In label (subdomainsExtra st2).



End Tracking.

Section FirstCheck.

Context `{Externals}.
Variable domain : string.
Variable options : GetAllDnsRecordsOptions.


Variable ns : list DnsRecord.
Hypothesis ns_resolves :
  getDnsRecords domain "NS" (resolver options) = Some ns.
Hypothesis ns_some : ns <> [].


Lemma closed_called (label : string) (src : Pending) (st : Run) :
  Phase domain options st ->
  Awaited domain label src st ->
  closed st = true ->
  In (subQuery domain label) (issued st).
Proof.
  intros HP Htr Hcl.
  destruct HP as [ | Hrej | Hns
                   | st ns' inferred Hns Hne Hchk Hcl' Hiss Hq Hnd Hdisj Hfl Hrc Hacc
                   | st ns' Hns Hne Hq Hnd Hiss Hfl Hacc Hclosed].
  - discriminate Hcl.
  - discriminate Hcl.
  - rewrite ns_resolves in Hns. congruence.
  - congruence.
  - apply Hclosed in Hcl. destruct Hacc as (k & Hk & _).
    rewrite Hcl in Hk.
    assert (Hfly : inflight st = []).
    { destruct (inflight st); [reflexivity|]. simpl in Hk. lia. }
    destruct Htr as [Hp | [Hw | Hc]].
    + rewrite Hfly in Hp. contradiction.
    + rewrite Hq in Hw. contradiction.
    + exact Hc.
Qed.

(** A stream that is closed has seen every call resolve. *)
Lemma closed_none_rejected (st : Run) :
  Phase domain options st ->
  closed st = true ->
  forall q, In q (issued st) -> ~ rejects options q.
Proof.
  intros HP Hcl q Hin Hrej.
  destruct HP as [ | Hrej' | Hns
                   | st ns' inferred Hns Hne Hchk Hcl' Hiss Hq Hnd Hdisj Hfl Hrc Hacc
                   | st ns' Hns Hne Hq Hnd Hiss Hfl Hacc Hclosed].
  - discriminate Hcl.
  - discriminate Hcl.
  - simpl in Hin. destruct Hin as [<- | []].
    unfold rejects in Hrej. simpl in Hrej. congruence.
  - congruence.
  - apply Hclosed in Hcl. destruct Hacc as (k & Hk & _ & Hq3).
    rewrite Hcl in Hk.
    destruct (Hq3 (ex_intro _ q (conj Hin Hrej))) as [Hk0 | (p & Hp & _)];
      [lia|].
    destruct (inflight st); [contradiction|]. simpl in Hk. lia.
Qed.

End FirstCheck.











Section CandidateStatements.

Context `{Externals}.
Variable domain : string.
Variable options : GetAllDnsRecordsOptions.

Lemma start_CheckedCalled :
  CheckedCalled (toASCII domain) (start (toASCII domain) options).
Proof. intros s []. Qed.


(** X6: every caller-supplied or well-known label that is not empty waits
    in the queue or has had its lookup called, at every point of every run;
    once the stream of a domain with NS records is closed, the A query for
    [label.domain] has been called. *)
Theorem seed_labels_are_looked_up (schedule : list nat) (st : Run)
        (ns : list DnsRecord) (label : string) :
  getAllDnsRecordsStream domain options schedule = Some st ->
  getDnsRecords (toASCII domain) "NS" (resolver options) = Some ns ->
  ns <> [] ->
  In label (subdomains options ++ subdomainsRecords) ->
  label <> "" ->
  Waiting (toASCII domain) label st
  /\ (closed st = true -> In (subQuery (toASCII domain) label) (issued st)).
Proof.
  intros Hs Hns Hne Hin Hlab.
  pose proof (stream_Phase _ _ _ _ Hs) as HP.
  destruct (stream_started _ _ _ _ Hs) as [_ Hst].
  assert (Hw : Waiting (toASCII domain) label st).
  { rewrite Hst.
    apply (exec_Waiting (toASCII domain) options label Hlab schedule);
      [apply start_CheckedCalled|].
    left. exact Hin. }
  split; [exact Hw|]. intros Hcl.
  apply (closed_called (toASCII domain) options ns Hns Hne label
                       (mkPending "" "" ThenNS));
    [exact HP|right; exact Hw|exact Hcl].
Qed.

(** X7: a caller-supplied or well-known label whose lookup rejects (the
    name [label.domain] is not a valid domain name, or the resolver fails on
    it) keeps the stream of a domain with NS records open in every run:
    [getAllDnsRecords] never resolves. *)
Theorem rejected_seed_never_resolves (schedule : list nat) (st : Run)
        (ns : list DnsRecord) (label : string) :
  getAllDnsRecordsStream domain options schedule = Some st ->
  getDnsRecords (toASCII domain) "NS" (resolver options) = Some ns ->
  ns <> [] ->
  In label (subdomains options ++ subdomainsRecords) ->
  label <> "" ->
  rejects options (subQuery (toASCII domain) label) ->
  closed st = false
  /\ forall records, getAllDnsRecords domain options schedule <> Resolved records.
Proof.
  intros Hs Hns Hne Hin Hlab Hrej.
  pose proof (stream_Phase _ _ _ _ Hs) as HP.
  destruct (stream_started _ _ _ _ Hs) as [_ Hst].
  assert (Hcl : closed st = false).
  { destruct (closed st) eqn:Hcl; [exfalso|reflexivity].
    assert (Hw : Waiting (toASCII domain) label st).
    { rewrite Hst.
      apply (exec_Waiting (toASCII domain) options label Hlab schedule);
        [apply start_CheckedCalled|].
      left. exact Hin. }
    pose proof (closed_called (toASCII domain) options ns Hns Hne label
                              (mkPending "" "" ThenNS) st HP
                              (or_intror Hw) Hcl) as Hcalled.
    exact (closed_none_rejected (toASCII domain) options st HP Hcl _
                                Hcalled Hrej). }
  split; [exact Hcl|].
  intros records. rewrite (getAllDnsRecords_outcome _ _ _ _ Hs), Hcl.
  destruct (readAll (written st)); discriminate.
Qed.





End CandidateStatements.

(** ** The lines of the stream *)

Lemma SinkOk_weaken (P Q : DnsRecord -> Prop) (domain : string) (st : Run) :
  (forall r, P r -> Q r) -> SinkOk P domain st -> SinkOk Q domain st.
Proof.
  intros HPQ (accepted & Ha & Hi & Hn & Hf).
  exists accepted. repeat split; auto.
  eapply Forall_impl; [|exact Hf]. intros r [He Hp]. auto.
Qed.

Section Provenance.

Context `{Externals}.
Variable domain : string.
Variable options : GetAllDnsRecordsOptions.

Lemma inflight_issued (st : Run) :
  Phase domain options st ->
  forall p, In p (inflight st) -> In (queryOf p) (issued st).
Proof.
  intros HP p Hp.
  destruct HP as [ | Hrej | Hns
                   | st ns inferred Hns Hne Hchk Hcl Hiss Hq Hnd Hdisj Hfl Hrc Hacc
                   | st ns Hns Hne Hq Hnd Hiss Hfl Hacc Hclosed].
  - simpl in Hp. destruct Hp as [<- | []]. left. reflexivity.
  - contradiction.
  - contradiction.
  - rewrite Hiss. rewrite Forall_forall in Hfl.
    apply (rootPendings_queries domain p (Hfl p Hp)).
  - rewrite Forall_forall in Hfl. apply (Hfl p Hp).
Qed.

Lemma settle_issued (st : Run) (i : nat) :
  incl (issued st) (issued (settle domain options st i)).
Proof.
  unfold settle.
  destruct (nth_error (inflight st) i) as [p|]; [|apply incl_refl].
  destruct (getDnsRecords (p_name p) (p_type p) (resolver options)) as [rs|];
    [|apply incl_refl].
  destruct (runHandler_Progress domain (p_then p)
              (with_inflight (remove_nth i (inflight st)) st) rs) as (Hi & _).
  exact Hi.
Qed.

Lemma settle_answered (st : Run) (i : nat) :
  Phase domain options st ->
  SinkOk (answeredIn options st) domain st ->
  SinkOk (answeredIn options (settle domain options st i)) domain
         (settle domain options st i).
Proof.
  intros HP Hst.
  apply SinkOk_weaken with (P := answeredIn options st).
  { intros r (q & records & Hq & Hans & Hr).
    exists q, records. split; [apply settle_issued; exact Hq|auto]. }
  unfold settle.
  destruct (nth_error (inflight st) i) as [p|] eqn:Hnth; [|exact Hst].
  destruct (getDnsRecords (p_name p) (p_type p) (resolver options))
    as [rs|] eqn:Hout.
  - apply runHandler_SinkOk.
    + apply Forall_forall. intros r Hr.
      exists (queryOf p), rs. split; [|split; [exact Hout|exact Hr]].
      apply (inflight_issued st HP). eapply nth_error_In. exact Hnth.
    + eapply SinkOk_same; [|exact Hst]. reflexivity.
  - eapply SinkOk_same; [|exact Hst]. reflexivity.
Qed.

Lemma run_answered (schedule : list nat) :
  let st := exec domain options schedule (start domain options) in
  SinkOk (answeredIn options st) domain st.
Proof.
  simpl.
  assert (Hgen : forall st,
             Phase domain options st ->
             SinkOk (answeredIn options st) domain st ->
             SinkOk (answeredIn options (exec domain options schedule st))
                    domain (exec domain options schedule st)).
  { unfold exec. induction schedule as [|i schedule IH]; intros st HP Hst; simpl.
    - exact Hst.
    - apply IH; [apply settle_Phase; exact HP|apply settle_answered; assumption]. }
  apply Hgen; [apply Boot|].
  exists []. simpl. repeat split; try constructor. intros h [].
Qed.

(** A closed stream is at rest. *)
Lemma closed_quiet (st : Run) :
  Phase domain options st -> closed st = true -> inflight st = [].
Proof.
  intros HP Hcl.
  destruct HP as [ | Hrej | Hns
                   | st ns inferred Hns Hne Hchk Hcl' Hiss Hq Hnd Hdisj Hfl Hrc Hacc
                   | st ns Hns Hne Hq Hnd Hiss Hfl Hacc Hclosed].
  - discriminate Hcl.
  - discriminate Hcl.
  - reflexivity.
  - congruence.
  - apply Hclosed in Hcl. destruct Hacc as (k & Hk & _).
    rewrite Hcl in Hk. destruct (inflight st); [reflexivity|].
    simpl in Hk. lia.
Qed.

Lemma exec_quiet (schedule : list nat) (st : Run) :
  inflight st = [] -> exec domain options schedule st = st.
Proof.
  intros Hq. unfold exec.
  induction schedule as [|i schedule IH]; simpl; [reflexivity|].
  replace (settle domain options st i) with st; [exact IH|].
  unfold settle. rewrite Hq. destruct i; reflexivity.
Qed.

Lemma exec_app (s1 s2 : list nat) (st : Run) :
  exec domain options (s1 ++ s2) st
  = exec domain options s2 (exec domain options s1 st).
Proof. unfold exec. apply fold_left_app. Qed.

(** The counter is never below the number of promises in flight. *)
Lemma Phase_counter (st : Run) :
  Phase domain options st ->
  (Z.of_nat (List.length (inflight st)) <= runningChecks st)%Z
  /\ (runningChecks st = 0%Z -> closed st = true).
Proof.
  intros HP.
  destruct HP as [ | Hrej | Hns
                   | st ns inferred Hns Hne Hchk Hcl' Hiss Hq Hnd Hdisj Hfl Hrc Hacc
                   | st ns Hns Hne Hq Hnd Hiss Hfl Hacc Hclosed].
  - simpl. split; [lia|discriminate].
  - simpl. split; [lia|discriminate].
  - simpl. split; [lia|reflexivity].
  - destruct Hacc as (k & Hk & _). split; lia.
  - destruct Hacc as (k & Hk & _). split; [lia|apply Hclosed].
Qed.

End Provenance.

Section StreamStatements.

Context `{Externals}.
Variable domain : string.
Variable options : GetAllDnsRecordsOptions.

(** X3: every line of the stream is the line of a record that the resolver
    returned for a query the run has made: nothing is invented. *)
Theorem stream_lines_were_answered (schedule : list nat) (st : Run) :
  getAllDnsRecordsStream domain options schedule = Some st ->
  exists accepted,
    written st = map wire accepted
    /\ Forall (fun r =>
                 exists n t records,
                   In (n, t) (issued st)
                   /\ isDomain n = true
                   /\ resolver options n t = Some records
                   /\ In r records)
              accepted.
Proof.
  intros Hs. destruct (stream_started _ _ _ _ Hs) as [_ ->].
  destruct (run_answered (toASCII domain) options schedule)
    as (accepted & Ha & _ & _ & Hf).
  exists accepted. split; [exact Ha|].
  eapply Forall_impl; [|exact Hf].
  intros r [_ ([n t] & records & Hq & Hans & Hr)].
  exists n, t, records. simpl in Hans. unfold getDnsRecords in Hans.
  destruct (isDomain n); [|discriminate]. auto.
Qed.

(** X4: when the resolver returns names and types without tab character,
    [getAllDnsRecords] never rejects on a valid domain.  In every run it is
    pending while the stream is open, and once the stream is closed it has
    resolved with the result of the wildcard detection on the records
    written, each as the stream carries it (U+FFFD for a lone surrogate,
    no byte order mark at the start of the name) and with its data cut at
    its first tab; a record that the stream carries as it is and whose
    data holds no tab is read back as it was written. *)
Theorem getAllDnsRecords_never_rejects (schedule : list nat) :
  isDomain domain = true ->
  (forall n t records,
      resolver options n t = Some records ->
      Forall (fun r => tabFree (name r) = true /\ tabFree (type r) = true)
             records) ->
  exists st accepted,
    getAllDnsRecordsStream domain options schedule = Some st
    /\ written st = map wire accepted
    /\ getAllDnsRecords domain options schedule
       = (if closed st
          then Resolved (detectWildcardRecords
                           domain
                           (map (fun a => readBack (carried a)) accepted)
                           defaultPercent)
          else Pending_)
    /\ forall r, In r accepted ->
                 intact r = true -> tabFree (data r) = true ->
                 readBack (carried r) = r.
Proof.
  intros Hd Htab.
  assert (Hs : getAllDnsRecordsStream domain options schedule
               = Some (exec (toASCII domain) options schedule
                            (start (toASCII domain) options))).
  { unfold getAllDnsRecordsStream. rewrite Hd. reflexivity. }
  destruct (run_SinkOk (fun r => tabFree (name r) = true
                                 /\ tabFree (type r) = true)
                       (toASCII domain) options Htab schedule)
    as (accepted & Ha & _ & _ & Hf).
  eexists. exists accepted. split; [exact Hs|]. split; [exact Ha|]. split.
  - rewrite (getAllDnsRecords_outcome _ _ _ _ Hs), Ha.
    rewrite readAll_carried; [reflexivity|].
    eapply Forall_impl; [|exact Hf]. intros r [_ Hr]. exact Hr.
  - intros r _ Hi Hdata. rewrite (intact_carried r Hi).
    apply readBack_tabFree. exact Hdata.
Qed.

(** X12: when the domain is given without a final dot and the resolver
    returns names with a final dot, every record is suppressed: nothing is
    written in any run, and the result of [getAllDnsRecords] is empty. *)
Theorem dotted_names_are_suppressed (schedule : list nat) (st : Run) :
  getAllDnsRecordsStream domain options schedule = Some st ->
  toASCII domain <> "" ->
  JS.endsWith (toASCII domain) "." = false ->
  (forall n t records,
      resolver options n t = Some records ->
      Forall (fun r => JS.endsWith (name r) "." = true) records) ->
  written st = []
  /\ forall records,
      getAllDnsRecords domain options schedule = Resolved records ->
      records = [].
Proof.
  intros Hs Hne Hdot Hnames.
  destruct (stream_started _ _ _ _ Hs) as [_ Hst].
  destruct (run_SinkOk (fun r => JS.endsWith (name r) "." = true)
                       (toASCII domain) options Hnames schedule)
    as (accepted & Ha & _ & _ & Hf).
  rewrite <- Hst in Ha.
  assert (Hnone : accepted = []).
  { destruct accepted as [|r accepted]; [reflexivity|exfalso].
    apply Forall_inv in Hf. destruct Hf as [Hend Hr].
    rewrite (endsWith_dot_mismatch (name r) (toASCII domain) Hne Hdot Hr)
      in Hend.
    discriminate Hend. }
  rewrite Hnone in Ha. split; [exact Ha|].
  intros records. rewrite (getAllDnsRecords_outcome _ _ _ _ Hs), Ha. simpl.
  destruct (closed st); [|discriminate].
  intros [= <-]. reflexivity.
Qed.

(** X5: a closed stream is final: no promise is in flight, and whatever is
    scheduled afterwards changes nothing: no line, no call, no state. *)
Theorem closed_stream_is_final (schedule more : list nat) (st : Run) :
  getAllDnsRecordsStream domain options schedule = Some st ->
  closed st = true ->
  quiescent st
  /\ getAllDnsRecordsStream domain options (schedule ++ more) = Some st
  /\ getAllDnsRecords domain options (schedule ++ more)
     = getAllDnsRecords domain options schedule.
Proof.
  intros Hs Hcl.
  pose proof (stream_Phase _ _ _ _ Hs) as HP.
  pose proof (closed_quiet _ _ _ HP Hcl) as Hq.
  destruct (stream_started _ _ _ _ Hs) as [Hd Hst].
  assert (Hs' : getAllDnsRecordsStream domain options (schedule ++ more)
                = Some st).
  { unfold getAllDnsRecordsStream. rewrite Hd. simpl.
    rewrite exec_app, <- Hst, (exec_quiet _ _ more st Hq). reflexivity. }
  split; [exact Hq|]. split; [exact Hs'|].
  rewrite (getAllDnsRecords_outcome _ _ _ _ Hs),
    (getAllDnsRecords_outcome _ _ _ _ Hs').
  reflexivity.
Qed.

(** X13: in every run the counter [runningChecks] is at least the number
    of promises in flight, hence never negative, and the stream is closed
    whenever it is [0]. *)
Theorem runningChecks_covers_inflight (schedule : list nat) (st : Run) :
  getAllDnsRecordsStream domain options schedule = Some st ->
  (Z.of_nat (List.length (inflight st)) <= runningChecks st)%Z
  /\ (0 <= runningChecks st)%Z
  /\ (runningChecks st = 0%Z -> closed st = true /\ quiescent st).
Proof.
  intros Hs. pose proof (stream_Phase _ _ _ _ Hs) as HP.
  destruct (Phase_counter _ _ _ HP) as [Hle Hz].
  split; [exact Hle|]. split; [lia|].
  intros H0. split; [apply Hz; exact H0|].
  unfold quiescent. destruct (inflight st); [reflexivity|].
  simpl in Hle. lia.
Qed.

End StreamStatements.

(** ** No record is lost *)

Lemma sendRecord_sink (domain : string) (st : Run) (r : DnsRecord) :
  closed st = false ->
  sink (sendRecord domain st r) = sinkSend domain (sink st) r.
Proof.
  intros Hcl. unfold sendRecord, sinkSend, writer_write. simpl.
  destruct (negb (JS.arr_includes (recordsHashes st) (recordHash r))
            && JS.endsWith (name r) domain); [|reflexivity].
  simpl. rewrite Hcl. reflexivity.
Qed.

Lemma sendRecord_fold_sink (domain : string) (records : list DnsRecord) :
  forall st,
    closed st = false ->
    sink (fold_left (sendRecord domain) records st)
    = fold_left (sinkSend domain) records (sink st).
Proof.
  induction records as [|r records IH]; intros st Hcl; simpl; [reflexivity|].
  rewrite IH, sendRecord_sink by
      (try (destruct (sendRecord_Inferred domain st r) as (_ & _ & -> & _));
       exact Hcl).
  reflexivity.
Qed.

Lemma inferNS_sink (domain : string) (records : list DnsRecord) :
  forall st,
    closed st = false ->
    sink (inferNS domain st records)
    = fold_left (sinkSend domain) records (sink st).
Proof.
  unfold inferNS.
  induction records as [|r records IH]; intros st Hcl; simpl; [reflexivity|].
  assert (Hstep : forall st1,
             Inferred (sendRecord domain st r) st1 ->
             sink st1 = sink (sendRecord domain st r) ->
             sink (fold_left
                     (fun st r =>
                        if JS.includes (data r) domain
                        then addSubdomain domain (sendRecord domain st r) (data r)
                        else sendRecord domain st r) records st1)
             = fold_left (sinkSend domain) records (sinkSend domain (sink st) r)).
  { intros st1 (_ & _ & Hc1 & _) Hs1. rewrite IH.
    - rewrite Hs1, sendRecord_sink by exact Hcl. reflexivity.
    - rewrite Hc1.
      destruct (sendRecord_Inferred domain st r) as (_ & _ & -> & _).
      exact Hcl. }
  destruct (JS.includes (data r) domain).
  - apply Hstep; [apply addSubdomain_Inferred|apply addSubdomain_sink].
  - apply Hstep; [apply Inferred_refl|reflexivity].
Qed.

(** The hashes and the lines after a callback are those of the records of
    the answer, sent one after the other. *)
Lemma runHandler_sink (domain : string) (h : Handler) (st : Run)
      (records : list DnsRecord) :
  closed st = false ->
  sink (runHandler domain h st records)
  = fold_left (sinkSend domain) records (sink st).
Proof.
  intros Hcl. destruct h; simpl.
  - unfold onNS. destruct records as [|r records]; [reflexivity|].
    change (0 <? List.length (r :: records))%nat with true. cbv iota.
    rewrite <- (inferNS_sink domain (r :: records) st Hcl). reflexivity.
  - unfold sendRecords. rewrite reqDone_sink.
    apply sendRecord_fold_sink. exact Hcl.
  - unfold onMX, sendRecords. rewrite reqDone_sink, sendRecord_fold_sink.
    + rewrite inferMX_sink. reflexivity.
    + destruct (inferMX_Inferred domain st records) as (_ & _ & -> & _).
      exact Hcl.
  - unfold onTXT, sendRecords. rewrite reqDone_sink, sendRecord_fold_sink.
    + rewrite inferTXT_sink. reflexivity.
    + destruct (inferTXT_Inferred domain st records) as (_ & _ & -> & _).
      exact Hcl.
Qed.

(** A callback adds promises at the end of the promises in flight, and
    their queries at the end of the calls. *)
Lemma runHandler_calls (domain : string) (h : Handler) (st : Run)
      (records : list DnsRecord) :
  exists added,
    inflight (runHandler domain h st records) = inflight st ++ added
    /\ issued (runHandler domain h st records)
       = issued st ++ map queryOf added.
Proof.
  destruct h.
  - simpl. unfold onNS. destruct (0 <? List.length records)%nat.
    + destruct (inferNS_Inferred domain st records)
        as (_ & _ & _ & Hi & Hq & _).
      exists (rootPendings domain). simpl. rewrite Hi, Hq.
      rewrite <- !app_assoc. split; reflexivity.
    + exists []. simpl. rewrite !app_nil_r. split; reflexivity.
  - destruct (handler_as_reqDone domain ThenSendRecords st records)
      as (st2 & (_ & _ & _ & Hi & Hq & _) & ->); [discriminate|].
    destruct (Z.eq_dec (runningChecks st2) 1) as [H1|H1].
    + destruct (reqDone_drain domain st2 H1)
        as (_ & _ & _ & _ & _ & _ & F7 & F8).
      exists (map (subPending domain)
                  (fresh (subdomainsChecked st2) (subdomainsExtra st2))).
      rewrite F7, F8, Hi, Hq, map_map. split; reflexivity.
    + rewrite (reqDone_step domain st2 H1). exists []. simpl.
      rewrite Hi, Hq, !app_nil_r. split; reflexivity.
  - destruct (handler_as_reqDone domain ThenMX st records)
      as (st2 & (_ & _ & _ & Hi & Hq & _) & ->); [discriminate|].
    destruct (Z.eq_dec (runningChecks st2) 1) as [H1|H1].
    + destruct (reqDone_drain domain st2 H1)
        as (_ & _ & _ & _ & _ & _ & F7 & F8).
      exists (map (subPending domain)
                  (fresh (subdomainsChecked st2) (subdomainsExtra st2))).
      rewrite F7, F8, Hi, Hq, map_map. split; reflexivity.
    + rewrite (reqDone_step domain st2 H1). exists []. simpl.
      rewrite Hi, Hq, !app_nil_r. split; reflexivity.
  - destruct (handler_as_reqDone domain ThenTXT st records)
      as (st2 & (_ & _ & _ & Hi & Hq & _) & ->); [discriminate|].
    destruct (Z.eq_dec (runningChecks st2) 1) as [H1|H1].
    + destruct (reqDone_drain domain st2 H1)
        as (_ & _ & _ & _ & _ & _ & F7 & F8).
      exists (map (subPending domain)
                  (fresh (subdomainsChecked st2) (subdomainsExtra st2))).
      rewrite F7, F8, Hi, Hq, map_map. split; reflexivity.
    + rewrite (reqDone_step domain st2 H1). exists []. simpl.
      rewrite Hi, Hq, !app_nil_r. split; reflexivity.
Qed.

Lemma sinkSend_fold (domain : string) (records : list DnsRecord) :
  forall accepted,
    exists more,
      fold_left (sinkSend domain) records
                (map recordHash accepted, map wire accepted)
      = (map recordHash (accepted ++ more), map wire (accepted ++ more))
      /\ incl more records
      /\ forall r, In r records -> JS.endsWith (name r) domain = true ->
                   In (recordHash r) (map recordHash (accepted ++ more)).
Proof.
  induction records as [|r records IH]; intros accepted.
  - exists []. rewrite app_nil_r.
    split; [reflexivity|]. split; [apply incl_refl|contradiction].
  - simpl. unfold sinkSend at 2. simpl.
    destruct (JS.arr_includes (map recordHash accepted) (recordHash r))
      eqn:Hinc; simpl.
    + destruct (IH accepted) as (more & Heq & Hsub & Hcov). exists more.
      split; [exact Heq|]. split; [apply incl_tl; exact Hsub|].
      intros r' [<- | Hr'] Hend.
      * rewrite map_app. apply in_or_app. left.
        apply arr_includes_In. exact Hinc.
      * apply Hcov; assumption.
    + destruct (JS.endsWith (name r) domain) eqn:Hend.
      * destruct (IH (accepted ++ [r])) as (more & Heq & Hsub & Hcov).
        exists (r :: more).
        replace (accepted ++ r :: more) with ((accepted ++ [r]) ++ more)
          by (rewrite <- app_assoc; reflexivity).
        rewrite (map_app recordHash accepted [r]),
          (map_app wire accepted [r]) in Heq.
        split; [exact Heq|].
        split; [apply incl_cons; [left; reflexivity|apply incl_tl; exact Hsub]|].
        intros r' [<- | Hr'] Hend'.
        -- apply in_map. apply in_or_app. left.
           apply in_or_app. right. left. reflexivity.
        -- apply Hcov; assumption.
      * destruct (IH accepted) as (more & Heq & Hsub & Hcov). exists more.
        split; [exact Heq|]. split; [apply incl_tl; exact Hsub|].
        intros r' [<- | Hr'] Hend'; [congruence|].
        apply Hcov; assumption.
Qed.

Section Completeness.

Context `{Externals}.
Variable domain : string.
Variable options : GetAllDnsRecordsOptions.

Lemma settle_Complete (st : Run) (i : nat) :
  Phase domain options st ->
  Complete domain options st ->
  Complete domain options (settle domain options st i).
Proof.
  intros HP [(accepted & Hsink & Hprov) Hcov]. unfold settle.
  destruct (nth_error (inflight st) i) as [p|] eqn:Hnth;
    [|split; [exists accepted; auto|exact Hcov]].
  destruct (remove_nth_split _ _ _ Hnth) as (l1 & l2 & Hl & ->).
  set (st0 := with_inflight (l1 ++ l2) st).
  assert (Hfly : forall p', In p' (inflight st) ->
                            p' = p \/ In p' (inflight st0)).
  { intros p' Hp'. rewrite Hl in Hp'. apply in_app_or in Hp'.
    destruct Hp' as [Hp' | [Hp' | Hp']].
    - right. simpl. apply in_or_app. left. exact Hp'.
    - left. symmetry. exact Hp'.
    - right. simpl. apply in_or_app. right. exact Hp'. }
  destruct (getDnsRecords (p_name p) (p_type p) (resolver options))
    as [rs|] eqn:Hout.
  - assert (Hcl : closed st0 = false).
    { destruct (closed st) eqn:Hc; [|exact Hc].
      pose proof (closed_quiet domain options st HP Hc) as Hq.
      rewrite Hq in Hnth. destruct i; discriminate Hnth. }
    pose proof (runHandler_sink domain (p_then p) st0 rs Hcl) as Hs.
    change (sink st0) with (sink st) in Hs. rewrite Hsink in Hs.
    destruct (sinkSend_fold domain rs accepted) as (more & Heq & Hsub & Hnew).
    rewrite Heq in Hs.
    destruct (runHandler_calls domain (p_then p) st0 rs)
      as (added & Hi & Hq).
    assert (Hhashes : recordsHashes (runHandler domain (p_then p) st0 rs)
                      = map recordHash (accepted ++ more)).
    { unfold sink in Hs. congruence. }
    assert (Hold : recordsHashes st = map recordHash accepted).
    { unfold sink in Hsink. congruence. }
    split.
    { exists (accepted ++ more). split; [exact Hs|].
      apply Forall_app. split; [exact Hprov|].
      apply Forall_forall. intros a Ha.
      exists (p_name p), (p_type p), rs. split; [|apply Hsub; exact Ha].
      unfold getDnsRecords in Hout.
      destruct (negb (isDomain (p_name p))); [discriminate|exact Hout]. }
    intros q Hqin. rewrite Hq in Hqin. apply in_app_or in Hqin.
    destruct Hqin as [Hqin | Hqin].
    + destruct (Hcov q Hqin) as [(p' & Hp' & <-) | [Hrej | (rs' & Hrs' & Hin)]].
      * destruct (Hfly p' Hp') as [-> | Hp0].
        -- right. right. exists rs. split; [exact Hout|].
           rewrite Hhashes. exact Hnew.
        -- left. exists p'. split; [|reflexivity].
           rewrite Hi. apply in_or_app. left. exact Hp0.
      * right. left. exact Hrej.
      * right. right. exists rs'. split; [exact Hrs'|].
        intros r Hr Hend. rewrite Hhashes, map_app. apply in_or_app. left.
        rewrite <- Hold. apply Hin; assumption.
    + apply in_map_iff in Hqin. destruct Hqin as (p' & <- & Hp').
      left. exists p'. split; [|reflexivity].
      rewrite Hi. apply in_or_app. right. exact Hp'.
  - split; [exists accepted; auto|].
    intros q Hqin.
    destruct (Hcov q Hqin) as [(p' & Hp' & <-) | [Hrej | Hrs]].
    + destruct (Hfly p' Hp') as [-> | Hp0].
      * right. left. exact Hout.
      * left. exists p'. split; [exact Hp0|reflexivity].
    + right. left. exact Hrej.
    + right. right. exact Hrs.
Qed.

Lemma run_Complete (schedule : list nat) :
  Complete domain options (exec domain options schedule (start domain options)).
Proof.
  assert (Hgen : forall st,
             Phase domain options st ->
             Complete domain options st ->
             Complete domain options (exec domain options schedule st)).
  { unfold exec. induction schedule as [|i schedule IH]; intros st HP Hst; simpl.
    - exact Hst.
    - apply IH; [apply settle_Phase; exact HP|apply settle_Complete; assumption]. }
  apply Hgen; [apply Boot|]. split.
  - exists []. split; [reflexivity|constructor].
  - intros q [<- | []]. left.
    exists (mkPending domain "NS" ThenNS). split; [left; reflexivity|reflexivity].
Qed.

End Completeness.

Section CompletenessStatement.

Context `{Externals}.
Variable domain : string.
Variable options : GetAllDnsRecordsOptions.

(** X1: no record is lost.  In every run the hashes recorded are exactly
    those of the records written; and for every call that has resolved,
    each record of its answer whose name ends with the domain has been
    written, unless a record with the same hash was written before it.  In
    a closed stream this holds for every call of the run. *)
Theorem stream_is_complete (schedule : list nat) (st : Run) :
  getAllDnsRecordsStream domain options schedule = Some st ->
  exists accepted,
    written st = map wire accepted
    /\ recordsHashes st = map recordHash accepted
    /\ forall q records r,
        In q (issued st) ->
        (closed st = true \/ forall p, In p (inflight st) -> queryOf p <> q) ->
        getDnsRecords (fst q) (snd q) (resolver options) = Some records ->
        In r records ->
        JS.endsWith (name r) (toASCII domain) = true ->
        exists a, In a accepted /\ recordHash a = recordHash r.
Proof.
  intros Hs. pose proof (stream_Phase _ _ _ _ Hs) as HP.
  destruct (stream_started _ _ _ _ Hs) as [_ Hst].
  pose proof (run_Complete (toASCII domain) options schedule) as HC.
  rewrite <- Hst in HC. destruct HC as [(accepted & Hsink & _) Hcov].
  unfold sink in Hsink. injection Hsink as Hh Hw.
  exists accepted. split; [exact Hw|]. split; [exact Hh|].
  intros q records r Hq Hsettled Hans Hr Hend.
  assert (Hnofly : forall p, In p (inflight st) -> queryOf p <> q).
  { destruct Hsettled as [Hcl | Hno]; [|exact Hno].
    rewrite (closed_quiet _ _ _ HP Hcl). intros p []. }
  destruct (Hcov q Hq) as [(p & Hp & Hpq) | [Hrej | (rs & Hrs & Hin)]].
  - destruct (Hnofly p Hp Hpq).
  - unfold rejects in Hrej. congruence.
  - assert (rs = records) by congruence. subst rs.
    specialize (Hin r Hr Hend). rewrite Hh in Hin.
    apply in_map_iff in Hin. destruct Hin as (a & Ha & Hain).
    exists a. auto.
Qed.

End CompletenessStatement.

Section ResultStatement.

Context `{Externals}.
Variable domain : string.
Variable options : GetAllDnsRecordsOptions.

(** X2: the result of [getAllDnsRecords] is complete.  When the resolver
    returns no tab character and no lone surrogate, no name that starts
    with a byte order mark, and the promise has resolved, every record of
    the answer to any call of the run whose name ends with the domain is
    accounted for in the result: a record of the same hash was written, and
    the result holds a record with the type and data of that record, kept
    as it was or folded into a wildcard record. *)
Theorem result_is_complete (schedule : list nat) (st : Run)
        (result : list DnsRecord) :
  getAllDnsRecordsStream domain options schedule = Some st ->
  (forall n t records,
      resolver options n t = Some records ->
      Forall (fun r => tabFreeRecord r = true /\ intact r = true) records) ->
  getAllDnsRecords domain options schedule = Resolved result ->
  forall q records r,
    In q (issued st) ->
    getDnsRecords (fst q) (snd q) (resolver options) = Some records ->
    In r records ->
    JS.endsWith (name r) (toASCII domain) = true ->
    exists a o,
      recordHash a = recordHash r
      /\ In o result /\ type o = type a /\ data o = data a
      /\ (o = a \/ name o = ("*." ++ domain)%string).
Proof.
  intros Hs Htab Hres q records r Hq Hans Hr Hend.
  pose proof (stream_Phase _ _ _ _ Hs) as HP.
  destruct (stream_started _ _ _ _ Hs) as [_ Hst].
  pose proof (run_Complete (toASCII domain) options schedule) as HC.
  rewrite <- Hst in HC. destruct HC as [(accepted & Hsink & Hprov) Hcov].
  unfold sink in Hsink. injection Hsink as Hh Hw.
  assert (Hfree : Forall (fun a => tabFreeRecord a = true /\ intact a = true)
                         accepted).
  { eapply Forall_impl; [|exact Hprov].
    intros a (n & t & rs & Hrs & Ha).
    pose proof (Htab n t rs Hrs) as Hall. rewrite Forall_forall in Hall.
    apply Hall. exact Ha. }
  rewrite (getAllDnsRecords_outcome _ _ _ _ Hs), Hw,
    (readAll_intact accepted Hfree) in Hres.
  destruct (closed st) eqn:Hcl; [|discriminate Hres].
  injection Hres as <-.
  destruct (Hcov q Hq) as [(p & Hp & Hpq) | [Hrej | (rs & Hrs & Hin)]].
  - rewrite (closed_quiet _ _ _ HP Hcl) in Hp. contradiction.
  - unfold rejects in Hrej. congruence.
  - assert (rs = records) by congruence. subst rs.
    specialize (Hin r Hr Hend). rewrite Hh in Hin.
    apply in_map_iff in Hin. destruct Hin as (a & Ha & Hain).
    destruct (detect_keeps_input domain accepted defaultPercent a Hain)
      as (o & Ho & Hot & Hod & Hname).
    exists a, o. auto.
Qed.

End ResultStatement.

(** ** The queries on the domain itself come first *)

Section RootFailure.

Context `{Externals}.
Variable domain : string.
Variable options : GetAllDnsRecordsOptions.

Lemma onNS_checked (st : Run) (ns : list DnsRecord) :
  subdomainsChecked (onNS domain st ns) = subdomainsChecked st.
Proof.
  unfold onNS. destruct (0 <? List.length ns)%nat; [|reflexivity].
  destruct (inferNS_Inferred domain st ns) as (Hc & _).
  simpl. exact Hc.
Qed.

(** A settlement that marks labels as checked is the settlement of the last
    promise counted, and this promise resolves. *)
Lemma settle_drains (st : Run) (i : nat) :
  subdomainsChecked (settle domain options st i) <> subdomainsChecked st ->
  exists p,
    nth_error (inflight st) i = Some p
    /\ p_then p <> ThenNS
    /\ runningChecks st = 1%Z
    /\ ~ rejects options (queryOf p).
Proof.
  unfold settle. intros Hchg.
  destruct (nth_error (inflight st) i) as [p|] eqn:Hnth; [|congruence].
  exists p. split; [reflexivity|].
  destruct (getDnsRecords (p_name p) (p_type p) (resolver options))
    as [rs|] eqn:Hout; [|simpl in Hchg; congruence].
  set (st0 := with_inflight (remove_nth i (inflight st)) st) in *.
  assert (Hh : p_then p <> ThenNS).
  { intros Heq. rewrite Heq in Hchg. simpl in Hchg.
    rewrite onNS_checked in Hchg. apply Hchg. reflexivity. }
  split; [exact Hh|].
  destruct (handler_as_reqDone domain (p_then p) st0 rs Hh)
    as (st2 & (Hc & Hr & _) & Heq).
  rewrite Heq in Hchg.
  split.
  - destruct (Z.eq_dec (runningChecks st2) 1) as [H1|H1].
    + rewrite <- H1, Hr. reflexivity.
    + rewrite (reqDone_step domain st2 H1) in Hchg. simpl in Hchg.
      rewrite Hc in Hchg. exfalso. apply Hchg. reflexivity.
  - unfold rejects, queryOf. simpl. rewrite Hout. discriminate.
Qed.

Lemma settle_roots_resolved (st : Run) (i : nat) :
  Phase domain options st ->
  (subdomainsChecked st <> [] ->
   forall q, In q (rootQueries domain) -> ~ rejects options q) ->
  subdomainsChecked (settle domain options st i) <> [] ->
  forall q, In q (rootQueries domain) -> ~ rejects options q.
Proof.
  intros HP Hinv Hne.
  destruct (list_eq_dec string_dec
              (subdomainsChecked (settle domain options st i))
              (subdomainsChecked st)) as [Heq | Hchg].
  - apply Hinv. rewrite <- Heq. exact Hne.
  - destruct (settle_drains st i Hchg) as (p & Hnth & Hh & Hrc & Hres).
    destruct (remove_nth_split _ _ _ Hnth) as (l1 & l2 & Hl & _).
    pose proof (nth_error_In _ _ Hnth) as Hp.
    destruct HP as [ | Hrej | Hns
                     | st ns inferred Hns Hnn Hchk Hcl Hiss Hq Hnd Hdisj Hfl Hrc' Hacc
                     | st ns Hns Hnn Hq Hnd Hiss Hfl Hacc Hclosed].
    + simpl in Hp. destruct Hp as [<- | []]. exfalso. apply Hh. reflexivity.
    + contradiction.
    + contradiction.
    + unfold accounted in Hacc. rewrite Hrc, Hl in Hacc.
      destruct (accounted_last options l1 l2 p _ Hacc Hres) as (_ & _ & Hall).
      intros q Hq'. apply Hall. rewrite Hiss. exact Hq'.
    + unfold accounted in Hacc. rewrite Hrc, Hl in Hacc.
      destruct (accounted_last options l1 l2 p _ Hacc Hres) as (_ & _ & Hall).
      intros q Hq'. apply Hall. rewrite Hiss. apply in_or_app. left. exact Hq'.
Qed.

Lemma run_roots_resolved (schedule : list nat) :
  let st := exec domain options schedule (start domain options) in
  subdomainsChecked st <> [] ->
  forall q, In q (rootQueries domain) -> ~ rejects options q.
Proof.
  simpl.
  assert (Hgen : forall st,
             Phase domain options st ->
             (subdomainsChecked st <> [] ->
              forall q, In q (rootQueries domain) -> ~ rejects options q) ->
             subdomainsChecked (exec domain options schedule st) <> [] ->
             forall q, In q (rootQueries domain) -> ~ rejects options q).
  { unfold exec. induction schedule as [|i schedule IH]; intros st HP Hinv; simpl.
    - exact Hinv.
    - apply IH; [apply settle_Phase; exact HP|].
      apply settle_roots_resolved; assumption. }
  apply Hgen; [apply Boot|]. simpl. congruence.
Qed.

Lemma Phase_calls (st : Run) :
  Phase domain options st ->
  issued st = [(domain, "NS")]
  \/ issued st = rootQueries domain
                 ++ map (subQuery domain) (subdomainsChecked st).
Proof.
  intros HP.
  destruct HP as [ | Hrej | Hns
                   | st ns inferred Hns Hnn Hchk Hcl Hiss Hq Hnd Hdisj Hfl Hrc' Hacc
                   | st ns Hns Hnn Hq Hnd Hiss Hfl Hacc Hclosed].
  - left. reflexivity.
  - left. reflexivity.
  - left. reflexivity.
  - right. rewrite Hiss, Hchk. simpl. reflexivity.
  - right. exact Hiss.
Qed.

End RootFailure.

Section RootFailureStatement.

Context `{Externals}.
Variable domain : string.
Variable options : GetAllDnsRecordsOptions.

(** X11: the lookups of subdomains begin only after the six queries on the
    domain itself have all resolved: when one of them rejects, no label is
    ever looked up, and the only calls of the run are queries on the domain
    itself. *)
Theorem subdomains_wait_for_root_queries (schedule : list nat) (st : Run) :
  getAllDnsRecordsStream domain options schedule = Some st ->
  (subdomainsChecked st <> [] ->
   forall q, In q (rootQueries (toASCII domain)) -> ~ rejects options q)
  /\ ((exists q, In q (rootQueries (toASCII domain)) /\ rejects options q) ->
      subdomainsChecked st = []
      /\ forall q, In q (issued st) -> In q (rootQueries (toASCII domain))).
Proof.
  intros Hs.
  pose proof (stream_Phase _ _ _ _ Hs) as HP.
  destruct (stream_started _ _ _ _ Hs) as [_ Hst].
  assert (Hinv : subdomainsChecked st <> [] ->
                 forall q, In q (rootQueries (toASCII domain)) ->
                           ~ rejects options q).
  { rewrite Hst. apply run_roots_resolved. }
  split; [exact Hinv|].
  intros (q & Hq & Hrej).
  assert (Hchk : subdomainsChecked st = []).
  { destruct (subdomainsChecked st) as [|s l] eqn:Hc; [reflexivity|].
    exfalso. apply (Hinv ltac:(discriminate) q Hq Hrej). }
  split; [exact Hchk|].
  intros q' Hq'.
  destruct (Phase_calls _ _ _ HP) as [Hiss | Hiss]; rewrite Hiss in Hq'.
  - destruct Hq' as [<- | []]. left. reflexivity.
  - rewrite Hchk, app_nil_r in Hq'. exact Hq'.
Qed.

End RootFailureStatement.

(** ** The table of the command line script *)

Lemma repeat_length (s : string) (n : nat) :
  String.length (Cli.repeat_ s n) = (n * String.length s)%nat.
Proof.
  induction n as [|n IH]; simpl; [reflexivity|].
  rewrite string_length_app, IH. reflexivity.
Qed.

Lemma padEnd_length (s : string) (width : nat) :
  (String.length s <= width)%nat -> String.length (Cli.padEnd s width) = width.
Proof.
  intros Hle. unfold Cli.padEnd. rewrite string_length_app, repeat_length.
  simpl. lia.
Qed.

Lemma join_length (sep : string) (parts : list string) :
  String.length sep = 3%nat ->
  String.length (JS.join sep parts)
  = (list_sum (map String.length parts) + 3 * (List.length parts - 1))%nat.
Proof.
  intros Hsep. unfold JS.join.
  induction parts as [|p parts IH]; [reflexivity|].
  destruct parts as [|q parts]; [simpl; lia|].
  change (String.concat sep (p :: q :: parts))
    with (p ++ sep ++ String.concat sep (q :: parts))%string.
  rewrite !string_length_app, IH, Hsep. simpl. lia.
Qed.

Lemma mapThrowing_Forall2 {A B : Type} (f : A -> option B) (l : list A) :
  forall ys, Cli.mapThrowing f l = Some ys ->
             Forall2 (fun x y => f x = Some y) l ys.
Proof.
  induction l as [|x l IH]; simpl; intros ys Hys.
  - injection Hys as <-. constructor.
  - destruct (f x) as [y|] eqn:Hx; [|discriminate].
    destruct (Cli.mapThrowing f l) as [ys'|]; [|discriminate].
    injection Hys as <-. constructor; [exact Hx|apply IH; reflexivity].
Qed.

Lemma mapThrowing_total {A B : Type} (f : A -> option B) (l : list A) :
  (forall x, In x l -> f x <> None) ->
  exists ys, Cli.mapThrowing f l = Some ys.
Proof.
  induction l as [|x l IH]; simpl; intros Hf; [exists []; reflexivity|].
  destruct (f x) as [y|] eqn:Hx; [|destruct (Hf x (or_introl eq_refl) Hx)].
  destruct IH as (ys & ->); [intros x' Hx'; apply Hf; right; exact Hx'|].
  exists (y :: ys). reflexivity.
Qed.

Lemma list_max_In (l : list nat) (n : nat) : In n l -> (n <= list_max l)%nat.
Proof.
  intros Hin. pose proof (proj1 (list_max_le l (list_max l)) (le_n _)) as Hall.
  rewrite Forall_forall in Hall. apply Hall. exact Hin.
Qed.

Lemma padAll_lengths (cells : list string) (widths : list nat) :
  Forall2 (fun c w => (String.length c <= w)%nat) cells widths ->
  map String.length (Cli.padAll cells widths) = widths.
Proof.
  unfold Cli.padAll. induction 1 as [|c w cells ws Hc Hf IH]; [reflexivity|].
  simpl. rewrite (padEnd_length c w Hc), IH. reflexivity.
Qed.

Lemma dashes_lengths (widths : list nat) :
  map String.length (map (Cli.repeat_ "-") widths) = widths.
Proof.
  induction widths as [|w ws IH]; [reflexivity|].
  simpl. rewrite repeat_length, IH. simpl. f_equal. lia.
Qed.

Section Table.

Variable headers : list string.
Variable data : list Cli.Row.
Variable widths : list nat.

Hypothesis widths_computed : Cli.columnWidths headers data = Some widths.

(** Every cell of a column, and its header, fits the width of the column. *)
Lemma widths_fit :
  Forall2 (fun header w =>
             (String.length header <= w)%nat
             /\ forall row, In row data ->
                            exists c, Cli.cell row header = Some c
                                      /\ (String.length c <= w)%nat)
          headers widths.
Proof.
  pose proof (mapThrowing_Forall2 _ _ _ widths_computed) as Hf.
  eapply Forall2_impl; [|exact Hf]. clear. simpl. intros header w Hw.
  destruct (Cli.mapThrowing (fun row => Cli.cell row header) data)
    as [cells|] eqn:Hc; [|discriminate].
  injection Hw as <-. unfold Cli.max_. split.
  - apply list_max_In. apply in_or_app. right. left. reflexivity.
  - intros row Hrow. apply mapThrowing_Forall2 in Hc.
    clear - Hc Hrow. induction Hc as [|r c data cells Hr Hc IH];
      [contradiction|].
    destruct Hrow as [<- | Hrow].
    + exists c. split; [exact Hr|]. apply list_max_In. left. reflexivity.
    + destruct (IH Hrow) as (c' & Hc' & Hle). exists c'. split; [exact Hc'|].
      simpl. lia.
Qed.

Lemma padAll_width (cells : list string) :
  Forall2 (fun c w => (String.length c <= w)%nat) cells widths ->
  String.length (JS.join " | " (Cli.padAll cells widths)) = lineWidth widths.
Proof.
  intros Hf. rewrite join_length by reflexivity. unfold lineWidth.
  rewrite <- (length_map String.length (Cli.padAll cells widths)).
  rewrite (padAll_lengths cells widths Hf). reflexivity.
Qed.

Lemma separator_width :
  String.length (JS.join "-|-" (map (Cli.repeat_ "-") widths)) = lineWidth widths.
Proof.
  rewrite join_length by reflexivity. unfold lineWidth.
  rewrite dashes_lengths, length_map. reflexivity.
Qed.

Lemma row_line (row : Cli.Row) :
  In row data ->
  exists cells,
    Cli.mapThrowing (Cli.cell row) headers = Some cells
    /\ String.length (JS.join " | " (Cli.padAll cells widths))
       = lineWidth widths.
Proof.
  intros Hrow. pose proof widths_fit as Hfit.
  assert (Hcells : exists cells,
             Forall2 (fun header c => Cli.cell row header = Some c) headers cells
             /\ Forall2 (fun c w => (String.length c <= w)%nat) cells widths).
  { clear widths_computed. induction Hfit as [|h w hs ws [_ Hw] Hfit IH].
    - exists []. split; constructor.
    - destruct (Hw row Hrow) as (c & Hc & Hle).
      destruct IH as (cells & H1 & H2).
      exists (c :: cells). split; constructor; assumption. }
  destruct Hcells as (cells & H1 & H2). exists cells.
  split; [|apply padAll_width; exact H2].
  clear - H1. induction H1 as [|h c hs cells Hh H1 IH]; [reflexivity|].
  simpl. rewrite Hh, IH. reflexivity.
Qed.

Lemma rows_lines :
  exists rows,
    Cli.mapThrowing
      (fun row =>
         match Cli.mapThrowing (Cli.cell row) headers with
         | None => None
         | Some cells => Some (JS.join " | " (Cli.padAll cells widths))
         end) data = Some rows
    /\ List.length rows = List.length data
    /\ Forall (fun line => String.length line = lineWidth widths) rows.
Proof.
  assert (Hgen : forall rows0,
             (forall row, In row rows0 -> In row data) ->
             exists rows,
               Cli.mapThrowing
                 (fun row =>
                    match Cli.mapThrowing (Cli.cell row) headers with
                    | None => None
                    | Some cells => Some (JS.join " | " (Cli.padAll cells widths))
                    end) rows0 = Some rows
               /\ List.length rows = List.length rows0
               /\ Forall (fun line => String.length line = lineWidth widths)
                         rows).
  { induction rows0 as [|row rows0 IH]; intros Hsub.
    - exists []. repeat split. constructor.
    - destruct (row_line row (Hsub row (or_introl eq_refl)))
        as (cells & Hcells & Hlen).
      destruct IH as (rows & Hrows & Hl & Hf);
        [intros r Hr; apply Hsub; right; exact Hr|].
      exists (JS.join " | " (Cli.padAll cells widths) :: rows).
      simpl. rewrite Hcells, Hrows. repeat split.
      + simpl. rewrite Hl. reflexivity.
      + constructor; assumption. }
  apply Hgen. auto.
Qed.

Lemma header_line :
  String.length (JS.join " | " (Cli.padAll headers widths)) = lineWidth widths.
Proof.
  apply padAll_width. eapply Forall2_impl; [|exact widths_fit].
  simpl. intros h w [Hle _]. exact Hle.
Qed.

End Table.

Lemma formatted_keys (index : nat) (record : DnsRecord) :
  Cli.keys (Cli.formatted index record) = ["index"; "name"; "ttl"; "type"; "data"].
Proof. reflexivity. Qed.

Lemma formatted_cell (index : nat) (record : DnsRecord) (header : string) :
  In header ["index"; "name"; "ttl"; "type"; "data"] ->
  Cli.cell (Cli.formatted index record) header <> None.
Proof.
  intros Hin. simpl in Hin.
  repeat (destruct Hin as [<- | Hin]; [simpl; discriminate|]). contradiction.
Qed.

Lemma formattedRecords_rows (allRecords : list DnsRecord) (row : Cli.Row) :
  In row (Cli.formattedRecords allRecords) ->
  exists index record, row = Cli.formatted index record.
Proof.
  unfold Cli.formattedRecords. intros Hin. apply in_map_iff in Hin.
  destruct Hin as ([i r] & <- & _). exists i, r. reflexivity.
Qed.

Lemma formattedRecords_length (allRecords : list DnsRecord) :
  List.length (Cli.formattedRecords allRecords) = List.length allRecords.
Proof.
  unfold Cli.formattedRecords.
  rewrite length_map, length_combine, length_seq. lia.
Qed.

(** X23: the table of the command line script.  On an empty list of
    records [printLeftAlignedTable] throws before it prints anything; on any
    other list it prints a header line, a separator line and one line per
    record, all of the same width. *)
Theorem printLeftAlignedTable_aligned (allRecords : list DnsRecord) :
  (Cli.printLeftAlignedTable (Cli.formattedRecords allRecords) = None
   <-> allRecords = [])
  /\ (allRecords <> [] ->
      exists lines width,
        Cli.printLeftAlignedTable (Cli.formattedRecords allRecords) = Some lines
        /\ List.length lines = (2 + List.length allRecords)%nat
        /\ Forall (fun line => String.length line = width) lines).
Proof.
  assert (Hsome : allRecords <> [] ->
                  exists lines width,
                    Cli.printLeftAlignedTable (Cli.formattedRecords allRecords)
                    = Some lines
                    /\ List.length lines = (2 + List.length allRecords)%nat
                    /\ Forall (fun line => String.length line = width) lines).
  { intros Hne.
    pose proof (formattedRecords_length allRecords) as Hlen.
    pose proof (formattedRecords_rows allRecords) as Hrows.
    destruct (Cli.formattedRecords allRecords) as [|first data] eqn:Hdata.
    { destruct allRecords; [congruence|discriminate Hlen]. }
    destruct (Hrows first (or_introl eq_refl)) as (i0 & r0 & Hfirst).
    unfold Cli.printLeftAlignedTable. rewrite Hfirst, formatted_keys.
    rewrite <- Hfirst.
    set (headers := ["index"; "name"; "ttl"; "type"; "data"]).
    destruct (mapThrowing_total
                (fun header =>
                   match Cli.mapThrowing (fun row => Cli.cell row header)
                                         (first :: data) with
                   | None => None
                   | Some cells =>
                       Some (Cli.max_ (map String.length cells)
                                      (String.length header))
                   end) headers) as (widths & Hw).
    { intros header Hh.
      destruct (mapThrowing_total (fun row => Cli.cell row header)
                                  (first :: data)) as (cells & ->);
        [|discriminate].
      intros row Hrow. destruct (Hrows row Hrow) as (i & r & ->).
      apply formatted_cell. exact Hh. }
    change (Cli.columnWidths headers (first :: data) = Some widths) in Hw.
    rewrite Hw.
    destruct (rows_lines headers (first :: data) widths Hw)
      as (rows & -> & Hl & Hf).
    eexists. exists (lineWidth widths). split; [reflexivity|]. split.
    - simpl. rewrite Hl, <- Hlen. reflexivity.
    - constructor; [apply (header_line headers (first :: data)); exact Hw|].
      constructor; [apply separator_width|exact Hf]. }
  split; [|exact Hsome]. split.
  - intros Hnone. destruct allRecords as [|r l]; [reflexivity|].
    destruct Hsome as (lines & w & Hs & _); [discriminate|]. congruence.
  - intros ->. reflexivity.
Qed.

(** ** The further statements on concrete runs *)

(** The run in which every query resolves: the caller-supplied label [www]
    has been looked up. *)
Lemma seed_labels_are_looked_up_witness :
  @getAllDnsRecordsStream Example.ext "example.com" Example.options Example.fifo
  = Some (Example.settled Example.options)
  /\ closed (Example.settled Example.options) = true
  /\ In ("www.example.com", "A") (issued (Example.settled Example.options)).
Proof.
  assert (Hs : @getAllDnsRecordsStream Example.ext "example.com"
                 Example.options Example.fifo
               = Some (Example.settled Example.options))
    by (vm_compute; reflexivity).
  assert (Hcl : closed (Example.settled Example.options) = true)
    by (vm_compute; reflexivity).
  split; [exact Hs|]. split; [exact Hcl|].
  apply (proj2 (@seed_labels_are_looked_up Example.ext "example.com"
                  Example.options Example.fifo _
                  [Example.rec "example.com" "NS" "ns1.example.com.";
                   Example.rec "example.com" "NS" "ns2.example.net."]
                  "www" Hs eq_refl ltac:(discriminate)
                  (or_introl eq_refl) ltac:(discriminate))).
  exact Hcl.
Defined.

(** The caller supplies the label [bad label]: the lookup of
    [bad label.example.com] is refused, and the run stays open. *)
Lemma rejected_seed_never_resolves_witness :
  @getAllDnsRecordsStream Example.ext "example.com" Example.optionsBadLabel
                          Example.fifo
  = Some (Example.settled Example.optionsBadLabel)
  /\ @isDomain Example.ext "bad label.example.com" = false
  /\ quiescent (Example.settled Example.optionsBadLabel)
  /\ closed (Example.settled Example.optionsBadLabel) = false.
Proof.
  assert (Hs : @getAllDnsRecordsStream Example.ext "example.com"
                 Example.optionsBadLabel Example.fifo
               = Some (Example.settled Example.optionsBadLabel))
    by (vm_compute; reflexivity).
  split; [exact Hs|]. split; [vm_compute; reflexivity|].
  split; [vm_compute; reflexivity|].
  apply (proj1 (@rejected_seed_never_resolves Example.ext "example.com"
                  Example.optionsBadLabel Example.fifo _
                  [Example.rec "example.com" "NS" "ns1.example.com.";
                   Example.rec "example.com" "NS" "ns2.example.net."]
                  "bad label" Hs eq_refl ltac:(discriminate)
                  (or_introl eq_refl) ltac:(discriminate) eq_refl)).
Defined.




(** The lines of the run in which every query resolves. *)
Lemma stream_lines_were_answered_witness :
  @getAllDnsRecordsStream Example.ext "example.com" Example.options Example.fifo
  = Some (Example.settled Example.options)
  /\ exists accepted,
      written (Example.settled Example.options) = map wire accepted
      /\ Forall (fun r =>
                   exists n t records,
                     In (n, t) (issued (Example.settled Example.options))
                     /\ @isDomain Example.ext n = true
                     /\ resolver Example.options n t = Some records
                     /\ In r records)
                accepted.
Proof.
  assert (Hs : @getAllDnsRecordsStream Example.ext "example.com"
                 Example.options Example.fifo
               = Some (Example.settled Example.options))
    by (vm_compute; reflexivity).
  split; [exact Hs|].
  exact (@stream_lines_were_answered Example.ext "example.com" Example.options
           Example.fifo _ Hs).
Defined.

Lemma answersTabs_fields (n t : string) (records : list DnsRecord) :
  Example.answersTabs n t = Some records ->
  Forall (fun r => tabFree (name r) = true /\ tabFree (type r) = true) records.
Proof.
  unfold Example.answersTabs.
  destruct (n =? "example.com") eqn:Hn; [|intros [= <-]; constructor].
  apply String.eqb_eq in Hn. subst n.
  destruct (t =? "NS") eqn:Hns.
  { apply String.eqb_eq in Hns. subst t. intros [= <-].
    repeat constructor. }
  destruct (t =? "TXT") eqn:Htxt; [|intros [= <-]; constructor].
  apply String.eqb_eq in Htxt. subst t. intros [= <-].
  repeat constructor.
Qed.

(** Two TXT records with tabs in their data: the run resolves. *)
Lemma getAllDnsRecords_never_rejects_witness :
  @isDomain Example.ext "example.com" = true
  /\ (exists st accepted,
         @getAllDnsRecordsStream Example.ext "example.com" Example.optionsTabs
                                 Example.fifo = Some st
         /\ written st = map wire accepted
         /\ @getAllDnsRecords Example.ext "example.com" Example.optionsTabs
                              Example.fifo
            = if closed st
              then Resolved (@detectWildcardRecords
                               Example.ext "example.com"
                               (map (fun a => readBack (carried a)) accepted)
                               defaultPercent)
              else Pending_)
  /\ @getAllDnsRecords Example.ext "example.com" Example.optionsTabs Example.fifo
     = Resolved [Example.rec "example.com" "NS" "ns1.example.net.";
                 Example.rec "example.com" "TXT" "v";
                 Example.rec "example.com" "TXT" "v"].
Proof.
  assert (Hd : @isDomain Example.ext "example.com" = true)
    by (vm_compute; reflexivity).
  split; [exact Hd|]. split; [|vm_compute; reflexivity].
  destruct (@getAllDnsRecords_never_rejects Example.ext "example.com"
              Example.optionsTabs Example.fifo Hd answersTabs_fields)
    as (st & accepted & Hs & Hw & Hout & _).
  exists st, accepted. auto.
Defined.

Lemma answersDotted_names (n t : string) (records : list DnsRecord) :
  Example.answersDotted n t = Some records ->
  Forall (fun r => JS.endsWith (name r) "." = true) records.
Proof.
  unfold Example.answersDotted.
  destruct ((n =? "example.com") && (t =? "NS")); intros [= <-].
  - constructor; [reflexivity|constructor].
  - constructor.
Qed.

(** The resolver returns [example.com.] for [example.com]: nothing is
    written, and the result is empty. *)
Lemma dotted_names_are_suppressed_witness :
  @getAllDnsRecordsStream Example.ext "example.com" Example.optionsDotted
                          Example.fifo
  = Some (Example.settled Example.optionsDotted)
  /\ written (Example.settled Example.optionsDotted) = []
  /\ @getAllDnsRecords Example.ext "example.com" Example.optionsDotted
                       Example.fifo = Resolved [].
Proof.
  assert (Hs : @getAllDnsRecordsStream Example.ext "example.com"
                 Example.optionsDotted Example.fifo
               = Some (Example.settled Example.optionsDotted))
    by (vm_compute; reflexivity).
  split; [exact Hs|].
  split; [|vm_compute; reflexivity].
  apply (proj1 (@dotted_names_are_suppressed Example.ext "example.com"
                  Example.optionsDotted Example.fifo _ Hs
                  ltac:(discriminate) eq_refl answersDotted_names)).
Defined.

(** Settlements scheduled after the run has closed. *)
Lemma closed_stream_is_final_witness :
  @getAllDnsRecordsStream Example.ext "example.com" Example.options Example.fifo
  = Some (Example.settled Example.options)
  /\ closed (Example.settled Example.options) = true
  /\ @getAllDnsRecordsStream Example.ext "example.com" Example.options
                             (Example.fifo ++ [0; 3; 1]%nat)
     = Some (Example.settled Example.options).
Proof.
  assert (Hs : @getAllDnsRecordsStream Example.ext "example.com"
                 Example.options Example.fifo
               = Some (Example.settled Example.options))
    by (vm_compute; reflexivity).
  assert (Hcl : closed (Example.settled Example.options) = true)
    by (vm_compute; reflexivity).
  split; [exact Hs|]. split; [exact Hcl|].
  apply (@closed_stream_is_final Example.ext "example.com" Example.options
           Example.fifo [0; 3; 1]%nat _ Hs Hcl).
Defined.

(** The run in which the SOA query rejects: one promise is counted and
    none is in flight. *)
Lemma runningChecks_covers_inflight_witness :
  @getAllDnsRecordsStream Example.ext "example.com" Example.optionsSoaRejects
                          Example.fifo
  = Some (Example.settled Example.optionsSoaRejects)
  /\ (Z.of_nat (List.length (inflight (Example.settled Example.optionsSoaRejects)))
      <= runningChecks (Example.settled Example.optionsSoaRejects))%Z.
Proof.
  assert (Hs : @getAllDnsRecordsStream Example.ext "example.com"
                 Example.optionsSoaRejects Example.fifo
               = Some (Example.settled Example.optionsSoaRejects))
    by (vm_compute; reflexivity).
  split; [exact Hs|].
  apply (@runningChecks_covers_inflight Example.ext "example.com"
           Example.optionsSoaRejects Example.fifo _ Hs).
Defined.

(** The run in which the SOA query rejects: no label is looked up. *)
Lemma subdomains_wait_for_root_queries_witness :
  @getAllDnsRecordsStream Example.ext "example.com" Example.optionsSoaRejects
                          Example.fifo
  = Some (Example.settled Example.optionsSoaRejects)
  /\ subdomainsChecked (Example.settled Example.optionsSoaRejects) = [].
Proof.
  assert (Hs : @getAllDnsRecordsStream Example.ext "example.com"
                 Example.optionsSoaRejects Example.fifo
               = Some (Example.settled Example.optionsSoaRejects))
    by (vm_compute; reflexivity).
  split; [exact Hs|].
  apply (proj2 (@subdomains_wait_for_root_queries Example.ext "example.com"
                  Example.optionsSoaRejects Example.fifo _ Hs)).
  exists ("example.com", "SOA"). split; [simpl; auto|reflexivity].
Defined.

(** Two [A] records on one address, the well-known list having six
    labels. *)
Lemma small_record_sets_are_unchanged_witness :
  @detectWildcardRecords Example.ext "example.com" Example.pair defaultPercent
  = Example.pair.
Proof.
  apply (@small_record_sets_are_unchanged Example.ext "example.com"
           Example.pair defaultPercent).
  intros r Hr _. simpl in Hr.
  destruct Hr as [<- | [<- | []]]; vm_compute; lia.
Defined.

(** Seven [A] records on seven addresses, the well-known list having
    thirteen labels. *)
Lemma distinct_data_is_unchanged_witness :
  @detectWildcardRecords Example.ext13 "example.com" Example.seven
                         defaultPercent
  = Example.seven.
Proof.
  apply (@distinct_data_is_unchanged Example.ext13 "example.com" Example.seven).
  - vm_compute. lia.
  - intros r Hr _. vm_compute in Hr.
    repeat (destruct Hr as [<- | Hr]; [vm_compute; lia|]). contradiction.
Defined.

(** [example.com.] and [example.com]. *)
Lemma isDomain_ignores_final_dot_witness :
  @isDomain Example.ext "example.com." = @isDomain Example.ext "example.com".
Proof.
  exact (@isDomain_ignores_final_dot Example.ext "example.com" eq_refl).
Defined.

(** [example.com] *)
Lemma isDomain_characters_witness :
  (forall s, plainAscii s = true -> @toASCII Example.ext s = s)
  /\ plainAscii "example.com" = true
  /\ @isDomain Example.ext "example.com" = true
  /\ Validation.all nameChar "example.com" = true
  /\ JS.includes "example.com" "." = true.
Proof.
  assert (Hd : @isDomain Example.ext "example.com" = true)
    by (vm_compute; reflexivity).
  split; [intros s _; reflexivity|].
  split; [reflexivity|]. split; [exact Hd|].
  exact (@isDomain_characters Example.ext (fun s _ => eq_refl) "example.com"
                              eq_refl Hd).
Defined.

(** [www] before [example.com] *)
Lemma isDomain_sublabel_witness :
  (forall s, plainAscii s = true -> @toASCII Example.ext s = s)
  /\ plainAscii "example.com" = true
  /\ @isDomain Example.ext "example.com" = true
  /\ labelOk "www" = true
  /\ @isDomain Example.ext "www.example.com" = true.
Proof.
  assert (Hd : @isDomain Example.ext "example.com" = true)
    by (vm_compute; reflexivity).
  assert (Hl : labelOk "www" = true) by (vm_compute; reflexivity).
  split; [intros s _; reflexivity|].
  split; [reflexivity|]. split; [exact Hd|]. split; [exact Hl|].
  exact (proj1 (@isDomain_sublabel Example.ext (fun s _ => eq_refl)
                  "example.com" "www" "A" Example.answers eq_refl Hd Hl)).
Defined.

(** The data [v<TAB>1] comes back as [v]. *)
Lemma parseDnsRecord_cuts_data_witness :
  parseDnsRecord
    (wire (Example.rec "example.com" "TXT" ("v" ++ JS.TAB ++ "1")))
  = Some (Example.rec "example.com" "TXT" "v").
Proof.
  exact (parseDnsRecord_cuts_data
           (Example.rec "example.com" "TXT" ("v" ++ JS.TAB ++ "1"))
           eq_refl eq_refl).
Defined.

(** The type numbers 28 and 99. *)
Lemma typeName_injective_witness :
  typeName 28 = "AAAA" /\ typeName 99 = "99"
  /\ isAddressType (typeName 28) = true.
Proof.
  split; [reflexivity|]. split; [reflexivity|].
  apply (proj2 (typeName_injective 28 99)). right. right. reflexivity.
Defined.

(** The table of two records. *)
Lemma printLeftAlignedTable_aligned_witness :
  Cli.printLeftAlignedTable (Cli.formattedRecords Example.pair)
  = Some ["index | name            | ttl | type | data         ";
          "------|-----------------|-----|------|--------------";
          "0     | example.com     | 300 | A    | 93.184.216.34";
          "1     | www.example.com | 300 | A    | 93.184.216.34"]
  /\ exists lines width,
      Cli.printLeftAlignedTable (Cli.formattedRecords Example.pair)
      = Some lines
      /\ List.length lines = 4%nat
      /\ Forall (fun line => String.length line = width) lines.
Proof.
  split; [vm_compute; reflexivity|].
  apply (proj2 (printLeftAlignedTable_aligned Example.pair)).
  discriminate.
Defined.

(** The record of [mail.example.com] in the run in which every query
    resolves. *)
Lemma stream_is_complete_witness :
  @getAllDnsRecordsStream Example.ext "example.com" Example.options Example.fifo
  = Some (Example.settled Example.options)
  /\ exists accepted,
      written (Example.settled Example.options) = map wire accepted
      /\ recordsHashes (Example.settled Example.options)
         = map recordHash accepted
      /\ exists a,
          In a accepted
          /\ recordHash a
             = recordHash (Example.rec "mail.example.com" "A" "93.184.216.35").
Proof.
  assert (Hs : @getAllDnsRecordsStream Example.ext "example.com"
                 Example.options Example.fifo
               = Some (Example.settled Example.options))
    by (vm_compute; reflexivity).
  split; [exact Hs|].
  destruct (@stream_is_complete Example.ext "example.com" Example.options
              Example.fifo _ Hs) as (accepted & Hw & Hh & Hall).
  exists accepted. split; [exact Hw|]. split; [exact Hh|].
  apply (Hall ("mail.example.com", "A")
              [Example.rec "mail.example.com" "A" "93.184.216.35"]).
  - vm_compute. auto 20.
  - left. vm_compute. reflexivity.
  - vm_compute. reflexivity.
  - left. reflexivity.
  - vm_compute. reflexivity.
Defined.

(** The same record in the result of [getAllDnsRecords]. *)
Lemma result_is_complete_witness :
  @getAllDnsRecordsStream Example.ext "example.com" Example.options Example.fifo
  = Some (Example.settled Example.options)
  /\ exists result a o,
      @getAllDnsRecords Example.ext "example.com" Example.options Example.fifo
      = Resolved result
      /\ recordHash a
         = recordHash (Example.rec "mail.example.com" "A" "93.184.216.35")
      /\ In o result /\ type o = type a /\ data o = data a.
Proof.
  assert (Hs : @getAllDnsRecordsStream Example.ext "example.com"
                 Example.options Example.fifo
               = Some (Example.settled Example.options))
    by (vm_compute; reflexivity).
  split; [exact Hs|].
  eexists.
  destruct (@result_is_complete Example.ext "example.com" Example.options
              Example.fifo _ _ Hs answers_intact run_answers
              ("mail.example.com", "A")
              [Example.rec "mail.example.com" "A" "93.184.216.35"]
              (Example.rec "mail.example.com" "A" "93.184.216.35"))
    as (a & o & Ha & Ho & Ht & Hd & _).
  - vm_compute. auto 20.
  - vm_compute. reflexivity.
  - left. reflexivity.
  - vm_compute. reflexivity.
  - exists a, o. split; [exact run_answers|]. auto.
Defined.
